(** * RSpace Web Clipper: content capture and clipping pipeline

    A shallow embedding of the content script ([content.js]) and of the
    background service worker (the second half of [popup.js], together with
    [config.js]), of the search box and the choice of the target document
    in the pop-up (the first half of [popup.js]), and the properties of
    the capture/clip pipeline.

    Conventions of the embedding.
    - A JavaScript string is a [string]: a sequence of code units, here the
      code units 0..255 (ASCII and Latin-1).
    - A JavaScript number that the code uses as an integer (ids, page
      numbers, milliseconds, HTTP status codes) is a [Z].
    - [undefined]/[null] properties are [option]s; bodies decoded from JSON
      are records.
    - The background script's module state ([documentsCache],
      [activeRequests]), the session storage, the clock and the network are
      threaded explicitly through a state-and-exception monad. *)

From Stdlib Require Import ZArith Ascii String DecimalString.
From Stdlib Require DecimalZ DecimalFacts.
From stdpp Require Import gmap strings list fin_maps.

Set Warnings "-register-all".

Local Open Scope string_scope.
Local Open Scope Z_scope.

(* ===================================================================== *)
(** * Strings and the regular expressions of the source                   *)
(* ===================================================================== *)

Module Js.

(** Character classes of ECMAScript regular expressions (no [u] flag). *)

Definition code (c : ascii) : N := N_of_ascii c.

Definition in_range (lo hi : N) (c : ascii) : bool :=
  (N.leb lo (code c) && N.leb (code c) hi)%bool.

Definition is_upper (c : ascii) : bool := in_range 65 90 c.
Definition is_lower (c : ascii) : bool := in_range 97 122 c.
Definition is_digit (c : ascii) : bool := in_range 48 57 c.

(** [\w] is [[A-Za-z0-9_]]. *)
Definition is_word (c : ascii) : bool :=
  (is_upper c || is_lower c || is_digit c || Ascii.eqb c "_")%bool.

(** [\s] and the characters removed by [trim]: TAB, LF, VT, FF, CR, SPACE
    and NO-BREAK SPACE (the white space and line terminators below 256). *)
Definition is_space (c : ascii) : bool :=
  (in_range 9 13 c || N.eqb (code c) 32 || N.eqb (code c) 160)%bool.

(** ASCII case mapping.  [toLowerCase] and the canonicalisation of the [i]
    flag agree with it on every comparison against an ASCII pattern. *)
Definition to_lower (c : ascii) : ascii :=
  if is_upper c then ascii_of_N (code c + 32) else c.
Definition to_upper (c : ascii) : ascii :=
  if is_lower c then ascii_of_N (code c - 32) else c.

Fixpoint toLowerCase (s : string) : string :=
  match s with
  | EmptyString => EmptyString
  | String c s' => String (to_lower c) (toLowerCase s')
  end.

(** [s.startsWith(p)] *)
Fixpoint startsWith (p s : string) : bool :=
  match p, s with
  | EmptyString, _ => true
  | String a p', String b s' => (Ascii.eqb a b && startsWith p' s')%bool
  | String _ _, EmptyString => false
  end.

(** [s.includes(p)] *)
Fixpoint includes (p s : string) : bool :=
  (startsWith p s ||
   match s with
   | EmptyString => false
   | String _ s' => includes p s'
   end)%bool.

(** [s.trim()] *)
Fixpoint trimStart (s : string) : string :=
  match s with
  | String c s' => if is_space c then trimStart s' else s
  | EmptyString => EmptyString
  end.

Fixpoint trimEnd (s : string) : string :=
  match s with
  | EmptyString => EmptyString
  | String c s' =>
      match trimEnd s' with
      | EmptyString => if is_space c then EmptyString else String c EmptyString
      | t => String c t
      end
  end.

Definition trim (s : string) : string := trimEnd (trimStart s).

(** Regular expressions, with the constructs that the source uses. *)
Inductive regex : Type :=
| Eps
| Chr (p : ascii -> bool)   (* one character of a class *)
| Cat (r1 r2 : regex)
| Star (r : regex)          (* greedy r* *)
| NotAhead (r : regex)      (* (?!r) *)
| WordB.                    (* \b *)

Definition Plus (r : regex) : regex := Cat r (Star r).

(** A literal character, and the same under the [i] flag. *)
Definition chr (c : ascii) : regex := Chr (Ascii.eqb c).
Definition chr_i (c : ascii) : regex :=
  Chr (fun x => Ascii.eqb (to_upper x) (to_upper c)).
Definition not_chr (c : ascii) : regex := Chr (fun x => negb (Ascii.eqb x c)).

Fixpoint lit_i (s : string) : regex :=
  match s with
  | EmptyString => Eps
  | String c s' => Cat (chr_i c) (lit_i s')
  end.

Definition word_before (prev : option ascii) : bool :=
  match prev with Some c => is_word c | None => false end.
Definition word_after (s : string) : bool :=
  match s with String c _ => is_word c | EmptyString => false end.

(** The backtracking matcher.  [rmatch r prev s k] matches [r] at the start
    of [s] ([prev] is the character before it, for [\b]) and hands what is
    left to the continuation [k]; alternatives are tried in the order of
    the ECMAScript semantics (greedy first), and an iteration of a star
    that consumes nothing is rejected. *)
Fixpoint rmatch (R : Type) (r : regex) (prev : option ascii) (s : string)
    (k : option ascii -> string -> option R) {struct r} : option R :=
  match r with
  | Eps => k prev s
  | Chr p =>
      match s with
      | String c s' => if p c then k (Some c) s' else None
      | EmptyString => None
      end
  | Cat r1 r2 => rmatch R r1 prev s (fun prev' s' => rmatch R r2 prev' s' k)
  | Star r1 =>
      (fix iter (n : nat) (prev : option ascii) (s : string) {struct n}
         : option R :=
         match n with
         | O => k prev s
         | S n' =>
             match rmatch R r1 prev s (fun prev' s' =>
                     if (String.length s' <? String.length s)%nat
                     then iter n' prev' s' else None) with
             | Some x => Some x
             | None => k prev s
             end
         end) (String.length s) prev s
  | NotAhead r1 =>
      match rmatch unit r1 prev s (fun _ _ => Some tt) with
      | Some _ => None
      | None => k prev s
      end
  | WordB =>
      if xorb (word_before prev) (word_after s) then k prev s else None
  end.

(** Length of the match of [r] at the start of [s], if there is one. *)
Definition match_len (r : regex) (prev : option ascii) (s : string)
  : option nat :=
  rmatch nat r prev s
    (fun _ rest => Some (String.length s - String.length rest)%nat).

(** [s.replace(/r/g, repl)]: scan from the left; at each position outside
    a match try [r]; a match is replaced by [repl] and the scan resumes
    after it.  [skip] counts the characters of the current match that are
    still to be dropped. *)
Fixpoint replace_from (r : regex) (repl : string) (prev : option ascii)
    (skip : nat) (s : string) : string :=
  match s with
  | EmptyString =>
      match skip, match_len r prev EmptyString with
      | O, Some _ => repl
      | _, _ => EmptyString
      end
  | String c s' =>
      match skip with
      | S n => replace_from r repl (Some c) n s'
      | O =>
          match match_len r prev s with
          | Some (S n) => repl ++ replace_from r repl (Some c) n s'
          | Some O => repl ++ String c (replace_from r repl (Some c) O s')
          | None => String c (replace_from r repl (Some c) O s')
          end
      end
  end.

Definition replace_all (r : regex) (repl : string) (s : string) : string :=
  replace_from r repl None O s.

(** The double quote character, and a string in double quotes. *)
Definition dquote : ascii := "034".
Definition quoted (s : string) : string :=
  String dquote (s ++ String dquote EmptyString).

(** The line feed of a string literal. *)
Definition nl : string := String "010" EmptyString.

(** [String(n)] for an integer [n]. *)
Definition string_of_Z (n : Z) : string := NilZero.string_of_int (Z.to_int n).

(** [String(n).padStart(2, '0')] *)
Definition pad2 (n : Z) : string :=
  let s := string_of_Z n in
  if (String.length s <? 2)%nat then "0" ++ s else s.

End Js.

(* ===================================================================== *)
(** * HTML escaping and the post-assembly sanitizer                       *)
(* ===================================================================== *)

Module Html.
Import Js.

(** [escapeHtml] of content.js and of the background script: the two
    copies apply the same five replacements in the same order (the
    background copy goes through [String(text)], the identity on strings).
    A missing argument ([undefined], [null]) is [None]. *)
Definition escapeHtml (text : option string) : string :=
  match text with
  | None => EmptyString
  | Some EmptyString => EmptyString
  | Some s =>
      replace_all (chr "'") "&#039;"
        (replace_all (chr dquote) "&quot;"
           (replace_all (chr ">") "&gt;"
              (replace_all (chr "<") "&lt;"
                 (replace_all (chr "&") "&amp;" s))))
  end.

(** The first pattern of [sanitizeClippedHtml], flags [gi]: the literal
    [<script], a word boundary, any run without [<], then any number
    of groups made of one [<] that does not begin [</script>] followed by a
    run without [<], and at last the literal [</script>]. *)
Definition re_script : regex :=
  Cat (lit_i "<script")
    (Cat WordB
       (Cat (Star (not_chr "<"))
          (Cat (Star (Cat (NotAhead (lit_i "</script>"))
                        (Cat (chr "<") (Star (not_chr "<")))))
             (lit_i "</script>")))).

Definition is_quote (c : ascii) : bool :=
  (Ascii.eqb c dquote || Ascii.eqb c "'")%bool.

(** The second pattern, flags [gi]: [on], one or more word characters,
    optional white space, [=], optional white space, a single or double
    quote, any run without a quote of either kind, a quote of either
    kind. *)
Definition re_handler_quoted : regex :=
  Cat (lit_i "on")
    (Cat (Plus (Chr is_word))
       (Cat (Star (Chr is_space))
          (Cat (chr "=")
             (Cat (Star (Chr is_space))
                (Cat (Chr is_quote)
                   (Cat (Star (Chr (fun c => negb (is_quote c))))
                      (Chr is_quote))))))).

(** The third pattern, flags [gi]: [on], one or more word characters,
    optional white space, [=], optional white space, then any run without
    white space and without [>]. *)
Definition re_handler_bare : regex :=
  Cat (lit_i "on")
    (Cat (Plus (Chr is_word))
       (Cat (Star (Chr is_space))
          (Cat (chr "=")
             (Cat (Star (Chr is_space))
                (Star (Chr (fun c =>
                   negb (is_space c || Ascii.eqb c ">")%bool))))))).

(** [/javascript:/gi] and [/vbscript:/gi] *)
Definition re_javascript : regex := lit_i "javascript:".
Definition re_vbscript : regex := lit_i "vbscript:".

(** [sanitizeClippedHtml] (background script). *)
Definition sanitizeClippedHtml (html : option string) : string :=
  match html with
  | None => EmptyString
  | Some EmptyString => EmptyString
  | Some h =>
      replace_all re_vbscript EmptyString
        (replace_all re_javascript EmptyString
           (replace_all re_handler_bare EmptyString
              (replace_all re_handler_quoted EmptyString
                 (replace_all re_script EmptyString h))))
  end.

End Html.

(* ===================================================================== *)
(** * The DOM fragments handled by the content script                     *)
(* ===================================================================== *)

Module Dom.
Import Js.

(** A node of an HTML fragment.  Element and attribute names are the
    lower-case names that the HTML parser produces. *)
Inductive node : Type :=
| Text (data : string)
| Comment (data : string)
| Element (tag : string) (attrs : list (string * string))
    (children : list node).

Definition tag_is (t : string) (n : node) : bool :=
  match n with
  | Element t' _ _ => String.eqb t' t
  | _ => false
  end.

(** [el.textContent] *)
Fixpoint textContent (n : node) : string :=
  match n with
  | Text d => d
  | Comment _ => EmptyString
  | Element _ _ cs =>
      (fix go (l : list node) : string :=
         match l with
         | [] => EmptyString
         | c :: l' => textContent c ++ go l'
         end) cs
  end.

(** [el.querySelector(sel)] is not null: some descendant matches. *)
Fixpoint has_descendant (sel : node -> bool) (n : node) : bool :=
  match n with
  | Element _ _ cs =>
      (fix go (l : list node) : bool :=
         match l with
         | [] => false
         | c :: l' => (sel c || has_descendant sel c || go l')%bool
         end) cs
  | _ => false
  end.

(** [root.querySelectorAll(sel).forEach(el => el.remove())] on the
    children [l] of [root]: every subtree whose root matches goes.  The
    node list is a snapshot in document order, an ancestor comes before
    its descendants, and [sel] is evaluated on the subtree as it is when
    the element is reached. *)
Fixpoint remove_matching (sel : node -> bool) (n : node) : node :=
  match n with
  | Element t a cs =>
      Element t a
        ((fix go (l : list node) : list node :=
            match l with
            | [] => []
            | c :: l' =>
                if sel c then go l' else remove_matching sel c :: go l'
            end) cs)
  | _ => n
  end.

Definition remove_all (sel : node -> bool) (l : list node) : list node :=
  match remove_matching sel (Element "div" [] l) with
  | Element _ _ cs => cs
  | _ => []
  end.

(** Apply [f] to the attribute list of every element of a fragment. *)
Fixpoint map_attrs (f : list (string * string) -> list (string * string))
    (n : node) : node :=
  match n with
  | Element t a cs => Element t (f a) (map (map_attrs f) cs)
  | _ => n
  end.

(** [el.getAttribute], [el.removeAttribute], [el.setAttribute] on an
    attribute that is present. *)
Fixpoint getAttribute (name : string) (a : list (string * string))
  : option string :=
  match a with
  | [] => None
  | (n, v) :: a' => if String.eqb n name then Some v else getAttribute name a'
  end.

Definition removeAttribute (name : string) (a : list (string * string))
  : list (string * string) :=
  filter (fun nv => negb (String.eqb (fst nv) name)) a.

Fixpoint setAttribute (name value : string) (a : list (string * string))
  : list (string * string) :=
  match a with
  | [] => [(name, value)]
  | (n, v) :: a' =>
      if String.eqb n name then (n, value) :: a'
      else (n, v) :: setAttribute name value a'
  end.

(** ** Fragment serialisation ([innerHTML] read), HTML Standard 13.3 *)

Definition void_elements : list string :=
  ["area"; "base"; "basefont"; "bgsound"; "br"; "col"; "embed"; "frame";
   "hr"; "img"; "input"; "keygen"; "link"; "meta"; "param"; "source";
   "track"; "wbr"].

Definition raw_text_elements : list string :=
  ["style"; "script"; "xmp"; "iframe"; "noembed"; "noframes"; "plaintext";
   "noscript"].

Definition mem (s : string) (l : list string) : bool :=
  existsb (String.eqb s) l.

Definition nbsp : ascii := "160".

Fixpoint escape_text (s : string) : string :=
  match s with
  | EmptyString => EmptyString
  | String c s' =>
      (if Ascii.eqb c "&" then "&amp;"
       else if Ascii.eqb c nbsp then "&nbsp;"
       else if Ascii.eqb c "<" then "&lt;"
       else if Ascii.eqb c ">" then "&gt;"
       else String c EmptyString) ++ escape_text s'
  end.

Fixpoint escape_attr (s : string) : string :=
  match s with
  | EmptyString => EmptyString
  | String c s' =>
      (if Ascii.eqb c "&" then "&amp;"
       else if Ascii.eqb c nbsp then "&nbsp;"
       else if Ascii.eqb c dquote then "&quot;"
       else if Ascii.eqb c "<" then "&lt;"
       else if Ascii.eqb c ">" then "&gt;"
       else String c EmptyString) ++ escape_attr s'
  end.

Definition serialize_attr (nv : string * string) : string :=
  " " ++ fst nv ++ "=" ++ quoted (escape_attr (snd nv)).

Fixpoint concat_strings (l : list string) : string :=
  match l with
  | [] => EmptyString
  | s :: l' => s ++ concat_strings l'
  end.

(** [raw] tells that the parent is a raw text element. *)
Fixpoint serialize (raw : bool) (n : node) : string :=
  match n with
  | Text d => if raw then d else escape_text d
  | Comment d => "<!--" ++ d ++ "-->"
  | Element t a cs =>
      "<" ++ t ++ concat_strings (map serialize_attr a) ++ ">" ++
      (if mem t void_elements then EmptyString
       else
         (fix go (l : list node) : string :=
            match l with
            | [] => EmptyString
            | c :: l' => serialize (mem t raw_text_elements) c ++ go l'
            end) cs ++ "</" ++ t ++ ">")
  end.

(** [container.innerHTML] for a container that is not a raw text element
    (the source only uses [div] and the page's content root). *)
Definition innerHTML (children : list node) : string :=
  concat_strings (map (serialize false) children).

End Dom.

(* ===================================================================== *)
(** * The content script (content.js)                                     *)
(* ===================================================================== *)

Module Content.
Import Js Dom Html.

Definition VALID_CONTENT_TYPES : list string :=
  ["selection"; "full-page"; "url-only"].

(** What a capture returns: [{html, text}]. *)
Record content : Type := { html : string; text : string }.

Section Browser.

(** The two services of the browser that [cleanHtml] calls and that have
    no source in the repository: the HTML fragment parser behind the
    assignment to [div.innerHTML], and [new URL(value, window.location
    .href).href], which either yields an absolute URL or throws. *)
Variable parseFragment : string -> list node.
Variable resolveUrl : string -> option string.

Definition dangerousTags : list string :=
  ["script"; "style"; "iframe"; "object"; "embed";
   "link"; "meta"; "base"; "form"; "input"; "button";
   "textarea"; "select"; "applet"; "audio"; "video"].

Definition safeAttrs : list string := ["href"; "src"; "alt"; "title"].

(** The attribute loop: an attribute goes when its name starts with [on]
    or is not one of [safeAttrs]. *)
Definition keep_attr (nv : string * string) : bool :=
  negb (startsWith "on" (fst nv) || negb (mem (fst nv) safeAttrs)).

Definition sanitize_href (a : list (string * string))
  : list (string * string) :=
  match getAttribute "href" a with
  | None => a
  | Some href =>
      let lowerHref := trim (toLowerCase href) in
      if (startsWith "javascript:" lowerHref
          || startsWith "data:" lowerHref
          || startsWith "vbscript:" lowerHref
          || startsWith "file:" lowerHref)%bool
      then removeAttribute "href" a
      else if (negb (startsWith "http://" href)
               && negb (startsWith "https://" href)
               && negb (startsWith "#" href))%bool
      then match resolveUrl href with
           | Some u => setAttribute "href" u a
           | None => removeAttribute "href" a
           end
      else a
  end.

Definition sanitize_src (a : list (string * string))
  : list (string * string) :=
  match getAttribute "src" a with
  | None => a
  | Some src =>
      let lowerSrc := trim (toLowerCase src) in
      if (startsWith "http://" lowerSrc || startsWith "https://" lowerSrc)%bool
      then a
      else if startsWith "data:image/" lowerSrc then a
      else match resolveUrl src with
           | Some u => setAttribute "src" u a
           | None => removeAttribute "src" a
           end
  end.

Definition sanitize_attrs (a : list (string * string))
  : list (string * string) :=
  sanitize_src (sanitize_href (filter keep_attr a)).

(** The last loop: an element goes when its text is blank, it has no
    [img] descendant and it is not an [img] itself. *)
Definition is_empty_element (n : node) : bool :=
  match n with
  | Element t _ _ =>
      (String.eqb (trim (textContent n)) EmptyString
       && negb (has_descendant (tag_is "img") n)
       && negb (String.eqb t "img"))%bool
  | _ => false
  end.

(** The body of [cleanHtml] between the assignment to [div.innerHTML] and
    the read of it, on the children of [div]. *)
Definition clean_fragment (children : list node) : list node :=
  let removed :=
    fold_left (fun l tag => remove_all (tag_is tag) l) dangerousTags children in
  let sanitized := map (map_attrs sanitize_attrs) removed in
  remove_all is_empty_element sanitized.

Definition cleanHtml (html : string) : string :=
  innerHTML (clean_fragment (parseFragment html)).

(** ** Extraction *)

(** The page as the content script reads it. *)
Record page : Type := {
  (* window.getSelection(): None when there is no selection object, else
     its toString() and the nodes of getRangeAt(0).cloneContents() *)
  selection : option (string * list node);
  (* document.documentElement *)
  documentElement : node;
  (* document.body *)
  body : option node;
  (* document.title *)
  title : string;
  (* window.location.href *)
  location_href : string
}.

(** [document.querySelector(sel)]: the first element in document order. *)
Fixpoint first_descendant (sel : node -> bool) (n : node) : option node :=
  match n with
  | Element _ _ cs =>
      (fix go (l : list node) : option node :=
         match l with
         | [] => None
         | c :: l' =>
             if sel c then Some c
             else match first_descendant sel c with
                  | Some r => Some r
                  | None => go l'
                  end
         end) cs
  | _ => None
  end.

Definition querySelector (sel : node -> bool) (root : node) : option node :=
  if sel root then Some root else first_descendant sel root.

(** The white-space separated tokens of a [class] attribute. *)
Fixpoint tokens_from (cur : string) (s : string) : list string :=
  match s with
  | EmptyString =>
      match cur with EmptyString => [] | _ => [cur] end
  | String c s' =>
      if is_space c
      then match cur with
           | EmptyString => tokens_from EmptyString s'
           | _ => cur :: tokens_from EmptyString s'
           end
      else tokens_from (cur ++ String c EmptyString) s'
  end.

Definition attr_is (name value : string) (n : node) : bool :=
  match n with
  | Element _ a _ =>
      match getAttribute name a with
      | Some v => String.eqb v value
      | None => false
      end
  | _ => false
  end.

Definition has_class (cls : string) (n : node) : bool :=
  match n with
  | Element _ a _ =>
      match getAttribute "class" a with
      | Some v => mem cls (tokens_from EmptyString v)
      | None => false
      end
  | _ => false
  end.

Definition children_of (n : node) : list node :=
  match n with
  | Element _ _ cs => cs
  | _ => []
  end.

Definition getSelectedContent (p : page) : option content :=
  match selection p with
  | None => None
  | Some (str, cloned) =>
      if String.eqb (trim str) EmptyString then None
      else Some {| html := cleanHtml (innerHTML cloned); text := str |}
  end.

Definition first_some {A} (a b : option A) : option A :=
  match a with Some _ => a | None => b end.

(** [getFullPageContent]; [None] stands for the TypeError thrown when
    there is neither a content root nor a body. *)
Definition getFullPageContent (p : page) : option content :=
  let doc := documentElement p in
  let mainContent :=
    first_some (querySelector (tag_is "main") doc)
      (first_some (querySelector (tag_is "article") doc)
         (first_some (querySelector (attr_is "role" "main") doc)
            (first_some (querySelector (has_class "content") doc)
               (first_some (querySelector (attr_is "id" "content") doc)
                  (body p))))) in
  match mainContent with
  | None => None
  | Some root =>
      let clone :=
        fold_left (fun n tag => remove_matching (tag_is tag) n)
          ["script"; "style"; "nav"; "header"; "footer"; "iframe"] root in
      Some {| html := cleanHtml (innerHTML (children_of clone));
              text := trim (textContent clone) |}
  end.

Definition getUrlOnly (p : page) : content :=
  {| html := "<p>Page: <a href=" ++
             quoted (escapeHtml (Some (location_href p))) ++ ">" ++
             escapeHtml (Some (title p)) ++ "</a></p>";
     text := title p ++ ": " ++ location_href p |}.

(** The three captures, and the [switch] of [extractContent]. *)
Inductive capture : Type := Selection | FullPage | UrlOnly.

Definition extractContent_case (contentType : string) : capture :=
  if String.eqb contentType "selection" then Selection
  else if String.eqb contentType "full-page" then FullPage
  else if String.eqb contentType "url-only" then UrlOnly
  else (* default: fallback to selection *) Selection.

Definition run_capture (c : capture) (p : page) : option content :=
  match c with
  | Selection => getSelectedContent p
  | FullPage => getFullPageContent p
  | UrlOnly => Some (getUrlOnly p)
  end.

Definition extractContent (contentType : string) (p : page)
  : option content :=
  run_capture (extractContent_case contentType) p.

(** The [getContent] branch of the message listener.  [contentType] is
    [None] when the property is missing or is not a string (no such value
    is an element of [VALID_CONTENT_TYPES]).  The result is the value
    passed to [sendResponse] ([None] is [null]) and the capture that was
    run, if one was. *)
Record reply : Type := {
  response : option content;
  attempted : option capture
}.

Definition onGetContent (contentType : option string) (p : page) : reply :=
  match contentType with
  | None => {| response := None; attempted := None |}
  | Some ct =>
      if (String.eqb ct EmptyString || negb (mem ct VALID_CONTENT_TYPES))%bool
      then {| response := None; attempted := None |}
      else {| response := extractContent ct p;
              attempted := Some (extractContent_case ct) |}
  end.

End Browser.
End Content.

(* ===================================================================== *)
(** * The background script: data, network and state                      *)
(* ===================================================================== *)

Module Background.
Import Js Html.

(** ** config.js *)

Definition DEFAULT_PAGE_SIZE : Z := 50.
Definition REQUEST_TIMEOUT_MS : Z := 30000.
Definition DOCUMENTS_TTL_MS : Z := 5 * 60 * 1000.

(** [CONFIG.API.TIMEOUT_MS]: [CONFIG.API] has no property of that name
    (the property of config.js is [REQUEST_TIMEOUT_MS]). *)
Definition CONFIG_API_TIMEOUT_MS : option Z := None.

(** Truthiness of an optional string and of an optional number. *)
Definition truthy (s : option string) : bool :=
  match s with
  | Some (String _ _) => true
  | _ => false
  end.

Definition truthy_num (n : option Z) : bool :=
  match n with
  | Some z => negb (z =? 0)
  | None => false
  end.

(** [a || b] on optional strings and on optional numbers. *)
Definition or_else (a b : option string) : option string :=
  if truthy a then a else b.

(** The default value of the third parameter of [fetchWithTimeout]:
    [CONFIG.API.TIMEOUT_MS || 30000]. *)
Definition default_timeout : Z :=
  if truthy_num CONFIG_API_TIMEOUT_MS
  then default 30000 CONFIG_API_TIMEOUT_MS
  else 30000.

(** ** Requests and responses *)

Inductive method : Type := GET | POST | PUT.

Inductive request_body : Type :=
| NoBody
  (* {name, tags, fields: [{content}]} *)
| CreateBody (name : option string) (tags : string) (contents : list string)
  (* {fields: [{id, content}]} *)
| UpdateBody (id : option Z) (content : string)
  (* FormData with one file *)
| FileBody (fileName : string) (blob : string).

Record request : Type := {
  req_method : method;
  req_url : string;
  req_apiKey : string;
  req_body : request_body
}.

(** One field of a document: [{id, content}]. *)
Record field : Type := { field_id : option Z; field_content : option string }.

(** An entry of a document list: [{id, globalId, name}]. *)
Record entry : Type := {
  entry_id : option Z;
  entry_globalId : option string;
  entry_name : option string
}.

(** A JSON object of a response body, by the properties that the code
    reads; a property that is absent is [None].  The property [id] is
    [j_id] when it is an integer that JavaScript prints in decimal (below
    10^21 in absolute value), and [j_id_other] when it is any other value
    (a string, a fraction, a larger number, an object): of such a value
    the code uses the truthiness and the text that a template literal
    makes of it.  At most one of the two is set. *)
Record json : Type := {
  j_id : option Z;
  j_id_other : option (bool * string);
  j_globalId : option string;
  j_fields : option (list field);
  j_documents : option (list entry);
  j_totalHits : option Z;
  j_message : option string;
  j_error : option string;
  j_links_self : option string
}.

(** A body is a JSON object or a text that [JSON.parse] rejects; or it
    never arrives: the headers of the response came, and the read of the
    body ([response.json()], [response.text()]) stays pending. *)
Inductive payload : Type :=
| Json (o : json)
| NotJson (text : string)
| Stalled.

Record response : Type := { status : Z; body : payload }.

(** [response.ok] *)
Definition ok (r : response) : bool := (200 <=? status r) && (status r <=? 299).

(** What the network does with a request: an answer or a failure after
    some milliseconds, or nothing at all. *)
Inductive reaction : Type :=
| Answers (ms : Z) (r : response)
| Fails (ms : Z)
| Silent.

(** A call on the network: the request, and the delay after which its
    abort signal fires ([None] for a call without signal). *)
Record call : Type := { call_abort_after : option Z; call_request : request }.

(** ** Errors *)

Record exn : Type := { exn_name : string; exn_message : string }.

Definition Error (message : string) : exn :=
  {| exn_name := "Error"; exn_message := message |}.
(** The DOMException of an aborted fetch. *)
Definition AbortError : exn :=
  {| exn_name := "AbortError"; exn_message := "The user aborted a request." |}.
(** The TypeError of a fetch that fails on the network. *)
Definition FetchError : exn :=
  {| exn_name := "TypeError"; exn_message := "Failed to fetch" |}.
(** The SyntaxError of [response.json()] on a body that is not JSON. *)
Definition JsonError : exn :=
  {| exn_name := "SyntaxError"; exn_message := "Unexpected token" |}.
(** The TypeError of a property read on [undefined]. *)
Definition UndefinedError : exn :=
  {| exn_name := "TypeError";
     exn_message := "Cannot read properties of undefined" |}.

(** ** Module state *)

Record cache : Type := {
  data : option (list entry);
  timestamp : option Z;
  ttl : Z;
  totalPages : option Z;
  pageSize : Z
}.

(** The value assigned to [documentsCache] at load, on authentication and
    after a successful clip. *)
Definition empty_cache : cache :=
  {| data := None; timestamp := None; ttl := 5 * 60 * 1000;
     totalPages := None; pageSize := DEFAULT_PAGE_SIZE |}.

Record world : Type := {
  (* chrome.storage.session *)
  stored_serverUrl : option string;
  stored_accessToken : option string;
  (* let documentsCache *)
  documentsCache : cache;
  (* const activeRequests = new Map(): key to promise *)
  activeRequests : gmap string nat;
  (* promises created so far *)
  promises : nat;
  (* Date.now() *)
  now : Z;
  (* the calls made on the network, oldest first *)
  sent : list call
}.

(** A local calendar date, as the getters of [Date] return it. *)
Record date : Type := {
  getFullYear : Z; getMonth : Z; getDate : Z;
  getHours : Z; getMinutes : Z; getSeconds : Z;
  getTimezoneOffset : Z
}.

(** The reply of the content script to [printPage]. *)
Inductive tab_reply : Type :=
| TabResult (pdfData : option string) (error : option string)
| TabNothing          (* undefined *)
| TabThrows (e : exn)  (* sendMessage rejects *)
| TabSilent.          (* sendMessage never settles *)

(** ** The monad of the asynchronous functions

    A computation runs from a state to an outcome and a state.  [Pending]
    is a promise that never settles: nothing after it runs, neither a
    [catch] nor a [finally]. *)
Inductive outcome (A : Type) : Type :=
| Ret (a : A)
| Throw (e : exn)
| Pending.
Arguments Ret {A} a.
Arguments Throw {A} e.
Arguments Pending {A}.

Definition M (A : Type) : Type := world -> outcome A * world.

Definition ret {A} (a : A) : M A := fun w => (Ret a, w).
Definition throw {A} (e : exn) : M A := fun w => (Throw e, w).
Definition pending {A} : M A := fun w => (Pending, w).

Definition bind {A B} (m : M A) (f : A -> M B) : M B :=
  fun w =>
    match m w with
    | (Ret a, w') => f a w'
    | (Throw e, w') => (Throw e, w')
    | (Pending, w') => (Pending, w')
    end.

Definition try_catch {A} (m : M A) (handler : exn -> M A) : M A :=
  fun w =>
    match m w with
    | (Throw e, w') => handler e w'
    | r => r
    end.

Definition get {A} (f : world -> A) : M A := fun w => (Ret (f w), w).
Definition modify (f : world -> world) : M unit := fun w => (Ret tt, f w).

Notation "'await' x <- m ; k" := (bind m (fun x => k))
  (at level 10, x name, m at level 100, k at level 200).

Definition set_cache (c : cache) (w : world) : world :=
  {| stored_serverUrl := stored_serverUrl w;
     stored_accessToken := stored_accessToken w;
     documentsCache := c;
     activeRequests := activeRequests w;
     promises := promises w;
     now := now w;
     sent := sent w |}.

Definition set_session (url key : string) (w : world) : world :=
  {| stored_serverUrl := Some url;
     stored_accessToken := Some key;
     documentsCache := documentsCache w;
     activeRequests := activeRequests w;
     promises := promises w;
     now := now w;
     sent := sent w |}.

Definition set_active (a : gmap string nat) (n : nat) (w : world) : world :=
  {| stored_serverUrl := stored_serverUrl w;
     stored_accessToken := stored_accessToken w;
     documentsCache := documentsCache w;
     activeRequests := a;
     promises := n;
     now := now w;
     sent := sent w |}.

(** [activeRequests.set(cacheKey, requestPromise)] for the promise of a
    request that starts, and [activeRequests.delete(cacheKey)] of its
    [finally] block. *)
Definition register (cacheKey : string) (w : world) : world :=
  set_active (<[cacheKey := promises w]> (activeRequests w)) (S (promises w)) w.

Definition finally_delete (cacheKey : string) (w : world) : world :=
  set_active (delete cacheKey (activeRequests w)) (promises w) w.

(** The network is busy for [ms] milliseconds with the call [c]. *)
Definition network (c : call) (ms : Z) (w : world) : world :=
  {| stored_serverUrl := stored_serverUrl w;
     stored_accessToken := stored_accessToken w;
     documentsCache := documentsCache w;
     activeRequests := activeRequests w;
     promises := promises w;
     now := now w + ms;
     sent := sent w ++ [c] |}.

(** ** Results *)

(** [{success, error, documentId, globalId}] *)
Record clip_result : Type := {
  success : bool;
  error : option string;
  documentId : option Z;
  globalId : option string
}.

Definition failure (message : string) : clip_result :=
  {| success := false; error := Some message;
     documentId := None; globalId := None |}.

(** [{success, error, documents, hasMore}] *)
Record docs_result : Type := {
  docs_success : bool;
  docs_error : option string;
  documents : list entry;
  hasMore : bool
}.

Definition docs_failure (message : string) : docs_result :=
  {| docs_success := false; docs_error := Some message;
     documents := []; hasMore := false |}.

(** What the caller of a deduplicated function holds: the promise of the
    request already in flight, or the value its own request settled to. *)
Inductive answer (A : Type) : Type :=
| Joined (promise : nat)
| Settled (a : A).
Arguments Joined {A} promise.
Arguments Settled {A} a.

(** ** Requests of the popup *)

Record target : Type := {
  isNew : bool;
  target_title : option string;
  target_id : option Z;
  target_globalId : option string
}.

(** The message of [clipContent] and of [clipPdf]; [content_html] is
    [request.content.html]. *)
Record clip_request : Type := {
  targetDoc : target;
  content_html : option string;
  note : option string;
  sourceUrl : option string;
  sourceTitle : option string;
  tabId : Z
}.

(** [String(id)] inside a template literal. *)
Definition string_of_id (id : option Z) : string :=
  match id with
  | Some n => string_of_Z n
  | None => "undefined"
  end.

(** ** The requests sent to the server *)

Definition create_request (serverUrl accessToken : string)
    (title : option string) : request :=
  {| req_method := POST; req_url := serverUrl ++ "/api/v1/documents";
     req_apiKey := accessToken;
     req_body := CreateBody title "web-clipper" [EmptyString] |}.

Definition status_request (serverUrl apiKey : string) : request :=
  {| req_method := GET; req_url := serverUrl ++ "/api/v1/status";
     req_apiKey := apiKey; req_body := NoBody |}.

Definition list_request (serverUrl accessToken : string) (pageSize pageNumber : Z)
  : request :=
  {| req_method := GET;
     req_url := serverUrl ++ "/api/v1/documents?pageSize="
                ++ string_of_Z pageSize ++ "&pageNumber="
                ++ string_of_Z pageNumber ++ "&orderBy=lastModified desc";
     req_apiKey := accessToken; req_body := NoBody |}.

Definition document_request (serverUrl accessToken : string)
    (documentId : option Z) : request :=
  {| req_method := GET;
     req_url := serverUrl ++ "/api/v1/documents/" ++ string_of_id documentId;
     req_apiKey := accessToken; req_body := NoBody |}.

Definition update_request (serverUrl accessToken : string)
    (documentId : option Z) (fieldId : option Z) (content : string) : request :=
  {| req_method := PUT;
     req_url := serverUrl ++ "/api/v1/documents/" ++ string_of_id documentId;
     req_apiKey := accessToken; req_body := UpdateBody fieldId content |}.

Definition upload_request (serverUrl accessToken fileName blob : string)
  : request :=
  {| req_method := POST; req_url := serverUrl ++ "/api/v1/files";
     req_apiKey := accessToken; req_body := FileBody fileName blob |}.

(** ** Pure helpers *)

Definition getHttpErrorMessage (r : response) : string :=
  if status r =? 401 then "Session expired. Please reconnect."
  else if status r =? 403 then "Permission denied. Check your access rights."
  else if status r =? 429 then "Too many requests. Please wait and try again."
  else if 500 <=? status r then "Server error. Please try again later."
  else "Request failed. Please try again.".

Definition formatTimestamp (d : date) : string :=
  let year := string_of_Z (getFullYear d) in
  let month := pad2 (getMonth d + 1) in
  let day := pad2 (getDate d) in
  let hours := pad2 (getHours d) in
  let minutes := pad2 (getMinutes d) in
  let seconds := pad2 (getSeconds d) in
  let offsetMinutes := - getTimezoneOffset d in
  let offsetHours := Z.abs offsetMinutes / 60 in
  let offsetMins := Z.abs offsetMinutes mod 60 in
  let offsetSign := if 0 <=? offsetMinutes then "+" else "-" in
  let timezone := "GMT" ++ offsetSign ++ string_of_Z offsetHours in
  let timezone :=
    if 0 <? offsetMins then timezone ++ ":" ++ pad2 offsetMins else timezone in
  year ++ "-" ++ month ++ "-" ++ day ++ " " ++
  hours ++ ":" ++ minutes ++ ":" ++ seconds ++ " " ++ timezone.

Definition formatClippedContent (request : clip_request) (timestamp : string)
  : string :=
  let safeUrl := escapeHtml (sourceUrl request) in
  let safeTitle := escapeHtml (sourceTitle request) in
  let safeNote :=
    if truthy (note request) then escapeHtml (note request) else EmptyString in
  let safeTimestamp := escapeHtml (Some timestamp) in
  let html :=
    "<div style=" ++
    quoted "border-left: 3px solid #4a90e2; padding-left: 12px; margin: 20px 0;"
    ++ ">" in
  let html :=
    html ++ "<p style=" ++
    quoted "color: #666; font-size: 0.9em; margin: 0 0 8px 0;" ++ ">" in
  let html :=
    html ++ "Clipped from <a href=" ++ quoted safeUrl ++ ">" ++ safeTitle ++
    "</a> on " ++ safeTimestamp in
  let html := html ++ "</p>" in
  let html :=
    if truthy (Some safeNote)
    then html ++ "<p style=" ++
         quoted "background: #fffde7; padding: 8px; border-radius: 4px; margin: 8px 0;"
         ++ "><strong>Note:</strong> " ++ safeNote ++ "</p>"
    else html in
  let html :=
    html ++ "<div>" ++ sanitizeClippedHtml (content_html request) ++ "</div>" in
  html ++ "</div>".

(** The character class of [sanitizeFilename], negated: everything but
    letters, digits, underscore, hyphen and dot. *)
Definition unsafe_filename_char (c : ascii) : bool :=
  negb (is_lower c || is_upper c || is_digit c || Ascii.eqb c "_"
        || Ascii.eqb c "-" || Ascii.eqb c ".").

Definition sanitizeFilename (filename : string) : string :=
  substring 0 100 (replace_all (Chr unsafe_filename_char) "_" filename).

(** ** Messages of the popup *)

(** A message to the service worker, by its [action]: [startAuth],
    [getDocuments], [clipContent], [clipPdf]. *)
Inductive message : Type :=
| StartAuth (serverUrl apiKey : string)
| GetDocuments (pageNumber : option Z)
| ClipContent (request : clip_request)
| ClipPdf (request : clip_request).

(** What the promise of the function called for a message comes to. *)
Inductive reply : Type :=
| AuthReply (r : outcome clip_result)
| DocumentsReply (r : outcome (answer docs_result))
| ClipReply (r : outcome (answer clip_result)).

(** ** The asynchronous functions *)

Section Env.

(** The environment of the service worker: the network, which reacts to
    a request knowing the calls made before it; the local calendar date
    of an instant ([new Date()]); the content script of a tab answering
    [printPage]. *)
Variable server : list call -> request -> reaction.
Variable local_time : Z -> date.
Variable printPage : Z -> tab_reply.

(** [fetch(url, options)], with [options.signal] aborted [t] milliseconds
    later when [abort_after] is [Some t].  A call without signal that the
    network never answers never settles. *)
Definition fetch (abort_after : option Z) (req : request) : M response :=
  fun w =>
    let c := {| call_abort_after := abort_after; call_request := req |} in
    match server (sent w) req, abort_after with
    | Answers ms r, None => (Ret r, network c ms w)
    | Answers ms r, Some t =>
        if ms <? t then (Ret r, network c ms w)
        else (Throw AbortError, network c t w)
    | Fails ms, None => (Throw FetchError, network c ms w)
    | Fails ms, Some t =>
        if ms <? t then (Throw FetchError, network c ms w)
        else (Throw AbortError, network c t w)
    | Silent, None => (Pending, network c 0 w)
    | Silent, Some t => (Throw AbortError, network c t w)
    end.

Definition fetchWithTimeout (req : request) (timeout : Z) : M response :=
  try_catch (fetch (Some timeout) req)
    (fun error =>
       if String.eqb (exn_name error) "AbortError"
       then throw (Error "Request timeout")
       else throw error).

(** [await response.json()] *)
Definition json_of (r : response) : M json :=
  match body r with
  | Json o => ret o
  | NotJson _ => throw JsonError
  | Stalled => pending
  end.

(** [await response.text()]: the body, once it is there. *)
Definition text_of (r : response) : M payload :=
  match body r with
  | Stalled => pending
  | b => ret b
  end.

(** The deduplication around the body of [getDocuments], [clipContent]
    and [clipPdf]: a request in flight under [cacheKey] is returned as it
    is; otherwise the body starts, its promise is registered, and its
    [finally] block deletes the key when the body settles. *)
Definition with_active_request {A} (cacheKey : string) (body : M A)
  : M (answer A) :=
  fun w =>
    match activeRequests w !! cacheKey with
    | Some p => (Ret (Joined p), w)
    | None =>
        match body (register cacheKey w) with
        | (Ret a, w2) => (Ret (Settled a), finally_delete cacheKey w2)
        | (Throw e, w2) => (Throw e, finally_delete cacheKey w2)
        | (Pending, w2) => (Pending, w2)
        end
    end.

Definition createDocument (serverUrl accessToken : string)
    (title : option string) : M clip_result :=
  await createResponse <-
    fetchWithTimeout (create_request serverUrl accessToken title)
      default_timeout;
  if negb (ok createResponse) then
    await errorText <- text_of createResponse;
    let errorMessage := getHttpErrorMessage createResponse in
    let errorMessage :=
      match errorText with
      | Json errorJson =>
          if (truthy (j_message errorJson) || truthy (j_error errorJson))%bool
          then default EmptyString
                 (or_else (j_message errorJson) (j_error errorJson))
          else errorMessage
      | NotJson errorText =>
          if (truthy (Some errorText)
              && (String.length errorText <? 100)%nat)%bool
          then errorText else errorMessage
      | Stalled => errorMessage
      end in
    ret (failure errorMessage)
  else
    await newDoc <- json_of createResponse;
    ret {| success := true; error := None;
           documentId := j_id newDoc; globalId := j_globalId newDoc |}.

Definition handleAuth (serverUrl apiKey : string) : M clip_result :=
  try_catch
    (await response <-
       fetchWithTimeout (status_request serverUrl apiKey) default_timeout;
     if negb (ok response) then
       if status response =? 401 then ret (failure "Invalid API key")
       else if status response =? 404
       then ret (failure "Server endpoint not found. Please check the URL.")
       else ret (failure (getHttpErrorMessage response))
     else
       await _ <- modify (set_session serverUrl apiKey);
       await _ <- modify (set_cache empty_cache);
       ret {| success := true; error := None;
              documentId := None; globalId := None |})
    (fun error =>
       if String.eqb (exn_message error) "Request timeout"
       then ret (failure
                   "Connection timeout. Please check your network and try again.")
       else ret (failure
                   "Authentication failed. Please check your connection.")).

(** [Math.ceil(a / b)] on integers, for a positive [b]. *)
Definition ceil_div (a b : Z) : Z := - ((- a) / b).

(** The test on [documentsCache] in [getDocuments]. *)
Definition cache_is_fresh (c : cache) (now : Z) : bool :=
  match data c, timestamp c with
  | Some _, Some t => negb (t =? 0) && (now - t <? ttl c)
  | _, _ => false
  end.

Definition getDocuments (pageNumber : Z) : M (answer docs_result) :=
  let cacheKey := "documents_" ++ string_of_Z pageNumber in
  with_active_request cacheKey
    (try_catch
       (await serverUrl <- get stored_serverUrl;
        await accessToken <- get stored_accessToken;
        if (negb (truthy serverUrl) || negb (truthy accessToken))%bool
        then ret (docs_failure "Not authenticated")
        else
          await cached <- get (fun w =>
            if pageNumber =? 0
            then if cache_is_fresh (documentsCache w) (now w)
                 then Some (documentsCache w) else None
            else None);
          match cached with
          | Some c =>
              ret {| docs_success := true; docs_error := None;
                     documents := default [] (data c);
                     hasMore := match totalPages c with
                                | Some t => 1 <? t
                                | None => false
                                end |}
          | None =>
              let pageSize := DEFAULT_PAGE_SIZE in
              await response <-
                fetchWithTimeout
                  (list_request (default EmptyString serverUrl)
                     (default EmptyString accessToken) pageSize pageNumber)
                  default_timeout;
              if negb (ok response)
              then ret (docs_failure (getHttpErrorMessage response))
              else
                await data <- json_of response;
                match j_documents data with
                | None => throw UndefinedError
                | Some docs =>
                    let documents := docs in
                    let totalDocs :=
                      if truthy_num (j_totalHits data)
                      then default 0 (j_totalHits data)
                      else Z.of_nat (length documents) in
                    let totalPages := ceil_div totalDocs pageSize in
                    let hasMore := pageNumber + 1 <? totalPages in
                    await _ <-
                      (if pageNumber =? 0
                       then
                         await t <- get now;
                         modify (set_cache
                           {| data := Some documents; timestamp := Some t;
                              ttl := 5 * 60 * 1000;
                              totalPages := Some totalPages;
                              pageSize := pageSize |})
                       else ret tt);
                    ret {| docs_success := true; docs_error := None;
                           documents := documents; hasMore := hasMore |}
                end
          end)
       (fun error =>
          if String.eqb (exn_message error) "Request timeout"
          then ret (docs_failure "Request timeout")
          else ret (docs_failure "Failed to load documents"))).

(** The fetch of the target document and the two checks on its fields,
    shared by [clipContent] and [linkFileToDocument]: the document has
    several fields, or it has none. *)
Definition has_many_fields (doc : json) : bool :=
  match j_fields doc with
  | Some fs => (1 <? length fs)%nat
  | None => false
  end.

Definition has_no_fields (doc : json) : bool :=
  match j_fields doc with
  | Some fs => (length fs =? 0)%nat
  | None => true
  end.

(** [doc.fields[0]?.content || ''] and [doc.fields[0].id] *)
Definition first_content (doc : json) : string :=
  match j_fields doc with
  | Some (f :: _) => default EmptyString (or_else (field_content f) None)
  | _ => EmptyString
  end.

Definition first_id (doc : json) : option Z :=
  match j_fields doc with
  | Some (f :: _) => field_id f
  | _ => None
  end.

(** The target of a clip: a document created now when
    [request.targetDoc.isNew], else the document named by the request.
    A failure of [createDocument] is the result of the clip. *)
Definition resolve_target (serverUrl accessToken : string)
    (request : clip_request) : M clip_result :=
  if isNew (targetDoc request)
  then createDocument serverUrl accessToken (target_title (targetDoc request))
  else ret {| success := true; error := None;
              documentId := target_id (targetDoc request);
              globalId := target_globalId (targetDoc request) |}.

Definition clipContent (request : clip_request) : M (answer clip_result) :=
  let cacheKey := "clipContent" in
  with_active_request cacheKey
    (try_catch
       (await serverUrl <- get stored_serverUrl;
        await accessToken <- get stored_accessToken;
        if (negb (truthy serverUrl) || negb (truthy accessToken))%bool
        then ret (failure "Not authenticated. Please reconnect.")
        else
          let serverUrl := default EmptyString serverUrl in
          let accessToken := default EmptyString accessToken in
          await created <- resolve_target serverUrl accessToken request;
          if negb (success created) then ret created
          else
            let documentId := documentId created in
            let globalId := globalId created in
            await getResponse <-
              fetchWithTimeout
                (document_request serverUrl accessToken documentId)
                default_timeout;
            if negb (ok getResponse) then
              await errorText <- text_of getResponse;
              if status getResponse =? 404
              then ret (failure "Document not found")
              else if status getResponse =? 401
              then ret (failure "Session expired")
              else if status getResponse =? 403
              then ret (failure "Access denied")
              else ret (failure "Failed to access document")
            else
              await doc <- json_of getResponse;
              if has_many_fields doc then
                ret (failure
                  ("Cannot clip to Form-based documents." ++ nl ++ nl ++
                   "This document has multiple form fields. The Web Clipper can only save to simple documents with one field."
                   ++ nl ++ nl ++
                   "Please select or create a regular document instead."))
              else if has_no_fields doc then
                ret (failure
                  ("Document has no editable fields." ++ nl ++ nl ++
                   "This document cannot be edited. Please select a different document."))
              else
                await t <- get now;
                let timestamp := formatTimestamp (local_time t) in
                let clippedHtml := formatClippedContent request timestamp in
                let currentContent := first_content doc in
                let updatedContent := currentContent ++ clippedHtml in
                await updateResponse <-
                  fetchWithTimeout
                    (update_request serverUrl accessToken documentId
                       (first_id doc) updatedContent)
                    default_timeout;
                if negb (ok updateResponse) then
                  await errorText <- text_of updateResponse;
                  if status updateResponse =? 401
                  then ret (failure "Session expired")
                  else if status updateResponse =? 403
                  then ret (failure "Access denied")
                  else if status updateResponse =? 429
                  then ret (failure "Too many requests")
                  else if 500 <=? status updateResponse
                  then ret (failure "Server error")
                  else ret (failure "Failed to save clipped content")
                else
                  await _ <- modify (set_cache empty_cache);
                  ret {| success := true; error := None;
                         documentId := documentId; globalId := globalId |})
       (fun error =>
          if String.eqb (exn_message error) "Request timeout"
          then ret (failure "Request timeout. Please try again.")
          else ret (failure "An error occurred while clipping"))).

(** ** Clipping a PDF *)

(** The digits captured by the first match of [prefix] followed by one or
    more digits: [s.match(/prefix(\d+)/)?.[1]]. *)
Fixpoint take_digits (s : string) : string :=
  match s with
  | String c s' => if is_digit c then String c (take_digits s') else EmptyString
  | EmptyString => EmptyString
  end.

Fixpoint digits_after (prefix : string) (s : string) : option string :=
  let here :=
    if startsWith prefix s
    then take_digits (substring (String.length prefix) (String.length s) s)
    else EmptyString in
  match here with
  | String _ _ => Some here
  | EmptyString =>
      match s with
      | String _ s' => digits_after prefix s'
      | EmptyString => None
      end
  end.

Definition generatePdfFromTab (tabId : Z) : M (option string) :=
  try_catch
    (match printPage tabId with
     | TabThrows e => throw e
     | TabSilent => pending
     | TabNothing =>
         throw (Error
           "PDF generation failed - please check browser console for details")
     | TabResult pdfData error =>
         if truthy pdfData then ret pdfData
         else if truthy error then throw (Error (default EmptyString error))
         else throw (Error
           "PDF generation failed - please check browser console for details")
     end)
    (fun _ => ret None).

(** The file id read from the upload response, as the template of
    [linkFileToDocument] prints it: [data.id] when it is truthy, whatever
    it is; else the digits of [GL...] in [data.globalId]; else the digits
    of [/files/...] in [data._links.self]. *)
Definition extract_file_id (data : json) : option string :=
  match j_id_other data with
  | Some (true, text) => Some text
  | _ =>
      if truthy_num (j_id data) then string_of_Z <$> j_id data
      else
        match j_globalId data ≫= digits_after "GL" with
        | Some d => Some d
        | None => j_links_self data ≫= digits_after "/files/"
        end
  end.

(** [uploadPdfToRSpace]; the first [fetch], of the data URL of the PDF,
    reads the blob without a call on the network. *)
Definition uploadPdfToRSpace (serverUrl accessToken pdfDataUrl fileName : string)
  : M (option string) :=
  try_catch
    (let blob := pdfDataUrl in
     await uploadResponse <-
       fetch None (upload_request serverUrl accessToken fileName blob);
     if negb (ok uploadResponse) then
       await errorText <- text_of uploadResponse;
       ret None
     else
       await data <- json_of uploadResponse;
       ret (extract_file_id data))
    (fun _ => ret None).

Definition indent (n : nat) : string := String.concat EmptyString (replicate n " ").

(** The template of [linkFileToDocument], trimmed. *)
Definition pdf_reference (safeUrl safeTitle safeNote safeTimestamp fileId
  : string) : string :=
  trim
    (nl ++ indent 6 ++ "<div style=" ++
     quoted "border-left: 3px solid #4a90e2; padding-left: 12px; margin: 20px 0;"
     ++ ">" ++
     nl ++ indent 8 ++ "<p style=" ++
     quoted "color: #666; font-size: 0.9em; margin: 0 0 8px 0;" ++ ">" ++
     nl ++ indent 10 ++ "PDF clipped from <a href=" ++ quoted safeUrl ++ ">" ++
     safeTitle ++ "</a> on " ++ safeTimestamp ++
     nl ++ indent 8 ++ "</p>" ++
     nl ++ indent 8 ++
     (if truthy (Some safeNote)
      then nl ++ indent 8 ++ "<p style=" ++
           quoted "background: #fffde7; padding: 8px; border-radius: 4px; margin: 8px 0;"
           ++ ">" ++
           nl ++ indent 10 ++ "<strong>Note:</strong> " ++ safeNote ++
           nl ++ indent 8 ++ "</p>" ++
           nl ++ indent 8
      else EmptyString) ++
     nl ++ indent 8 ++ "<p><fileId=" ++ fileId ++ "></p>" ++
     nl ++ indent 6 ++ "</div>" ++
     nl ++ indent 4).

Definition linkFileToDocument (serverUrl accessToken : string)
    (documentId : option Z) (fileId : string) (request : clip_request)
  : M bool :=
  try_catch
    (await getResponse <-
       fetchWithTimeout (document_request serverUrl accessToken documentId)
         default_timeout;
     if negb (ok getResponse) then ret false
     else
       await doc <- json_of getResponse;
       if has_many_fields doc then ret false
       else if has_no_fields doc then ret false
       else
         await t <- get now;
         let timestamp := formatTimestamp (local_time t) in
         let safeUrl := escapeHtml (sourceUrl request) in
         let safeTitle := escapeHtml (sourceTitle request) in
         let safeNote :=
           if truthy (note request) then escapeHtml (note request)
           else EmptyString in
         let safeTimestamp := escapeHtml (Some timestamp) in
         let html :=
           pdf_reference safeUrl safeTitle safeNote safeTimestamp fileId in
         let currentContent := first_content doc in
         let updatedContent := currentContent ++ html in
         await updateResponse <-
           fetchWithTimeout
             (update_request serverUrl accessToken documentId
                (first_id doc) updatedContent)
             default_timeout;
         if negb (ok updateResponse) then ret false
         else ret true)
    (fun _ => ret false).

Definition clipPdf (request : clip_request) : M (answer clip_result) :=
  let cacheKey := "clipPdf" in
  with_active_request cacheKey
    (try_catch
       (await serverUrl <- get stored_serverUrl;
        await accessToken <- get stored_accessToken;
        if (negb (truthy serverUrl) || negb (truthy accessToken))%bool
        then ret (failure "Not authenticated. Please reconnect.")
        else
          let serverUrl := default EmptyString serverUrl in
          let accessToken := default EmptyString accessToken in
          await pdfData <- generatePdfFromTab (tabId request);
          match pdfData with
          | None => ret (failure "Failed to generate PDF from page")
          | Some pdfData =>
              await created <- resolve_target serverUrl accessToken request;
              if negb (success created) then ret created
              else
                let documentId := documentId created in
                let globalId := globalId created in
                let fileName :=
                  sanitizeFilename
                    (default EmptyString
                       (or_else (sourceTitle request) (Some "page")))
                  ++ ".pdf" in
                await fileId <-
                  uploadPdfToRSpace serverUrl accessToken pdfData fileName;
                match fileId with
                | None => ret (failure "Failed to upload PDF file")
                | Some fileId =>
                    await linkSuccess <-
                      linkFileToDocument serverUrl accessToken documentId
                        fileId request;
                    if negb linkSuccess
                    then ret (failure "Failed to link PDF to document")
                    else
                      await _ <- modify (set_cache empty_cache);
                      ret {| success := true; error := None;
                             documentId := documentId; globalId := globalId |}
                end
          end)
       (fun error =>
          if String.eqb (exn_message error) "Request timeout"
          then ret (failure "Request timeout. Please try again.")
          else ret (failure ("An error occurred while clipping PDF: "
                             ++ exn_message error)))).

(** ** The listener of the service worker *)

(** [chrome.runtime.onMessage]: the message is handed to the function of
    its [action], with [request.pageNumber || 0] for the page, and
    [sendResponse] is given what the promise settles to. *)
Definition onMessage (request : message) (w : world) : reply * world :=
  match request with
  | StartAuth serverUrl apiKey =>
      let r := handleAuth serverUrl apiKey w in
      (AuthReply (fst r), snd r)
  | GetDocuments pageNumber =>
      let r :=
        getDocuments
          (if truthy_num pageNumber then default 0 pageNumber else 0) w in
      (DocumentsReply (fst r), snd r)
  | ClipContent request =>
      let r := clipContent request w in
      (ClipReply (fst r), snd r)
  | ClipPdf request =>
      let r := clipPdf request w in
      (ClipReply (fst r), snd r)
  end.

End Env.
End Background.

(* ===================================================================== *)
(** * Vocabulary of the statements                                        *)
(* ===================================================================== *)

Module Spec.
Import Js Html Background.

(** The character [c] occurs in [s]. *)
Definition occurs (c : ascii) (s : string) : Prop :=
  exists pre post, s = pre ++ String c post.

(** The string [p] occurs in [s]. *)
Definition contains (p s : string) : Prop :=
  exists pre post, s = pre ++ p ++ post.

Definition entities : list string :=
  ["&amp;"; "&lt;"; "&gt;"; "&quot;"; "&#039;"].

(** Every ampersand of [s] is the first character of an entity. *)
Definition ampersands_start_entities (s : string) : Prop :=
  forall pre post,
    s = pre ++ String "&" post ->
    exists e rest, In e entities /\ String "&" post = e ++ rest.

(** The replacement of every character by its entity, in one pass. *)
Definition entity_of (c : ascii) : string :=
  if Ascii.eqb c "&" then "&amp;"
  else if Ascii.eqb c "<" then "&lt;"
  else if Ascii.eqb c ">" then "&gt;"
  else if Ascii.eqb c dquote then "&quot;"
  else if Ascii.eqb c "'" then "&#039;"
  else String c EmptyString.

Fixpoint escape_each (s : string) : string :=
  match s with
  | EmptyString => EmptyString
  | String c s' => entity_of c ++ escape_each s'
  end.

(** The replacement of the characters of a class by [repl]. *)
Fixpoint substitute (p : ascii -> bool) (repl : string) (s : string) : string :=
  match s with
  | EmptyString => EmptyString
  | String c s' =>
      (if p c then repl else String c EmptyString) ++ substitute p repl s'
  end.

(** The five replacements of [escapeHtml], in the order of the source. *)
Definition five_replacements (s : string) : string :=
  substitute (Ascii.eqb "'") "&#039;"
    (substitute (Ascii.eqb dquote) "&quot;"
       (substitute (Ascii.eqb ">") "&gt;"
          (substitute (Ascii.eqb "<") "&lt;"
             (substitute (Ascii.eqb "&") "&amp;" s)))).

(** Boolean forms of [occurs] and of [ampersands_start_entities]. *)
Fixpoint has_char (c : ascii) (s : string) : bool :=
  match s with
  | EmptyString => false
  | String x s' => (Ascii.eqb x c || has_char c s')%bool
  end.

Fixpoint ampersands_ok (s : string) : bool :=
  match s with
  | EmptyString => true
  | String c s' =>
      ((negb (Ascii.eqb c "&") || existsb (fun e => startsWith e s) entities)
       && ampersands_ok s')%bool
  end.

(** The number of fields of a fetched document. *)
Definition field_count (doc : json) : nat :=
  match j_fields doc with
  | Some fs => length fs
  | None => 0%nat
  end.

(** The two errors of a document that cannot take a clip. *)
Definition form_based_error : string :=
  "Cannot clip to Form-based documents." ++ nl ++ nl ++
  "This document has multiple form fields. The Web Clipper can only save to simple documents with one field."
  ++ nl ++ nl ++
  "Please select or create a regular document instead.".

Definition no_fields_error : string :=
  "Document has no editable fields." ++ nl ++ nl ++
  "This document cannot be edited. Please select a different document.".

(** A character that [escapeHtml] leaves as it is, and a string made of
    such characters. *)
Definition plain (c : ascii) : bool :=
  negb (Ascii.eqb c "&" || Ascii.eqb c "<" || Ascii.eqb c ">"
        || Ascii.eqb c dquote || Ascii.eqb c "'").

Fixpoint all_plain (s : string) : bool :=
  match s with
  | EmptyString => true
  | String c s' => (plain c && all_plain s')%bool
  end.

(** The fragment of a clip without note, in the words of the
    specification: the attribution wrapper, in it the paragraph [Clipped
    from <a href=url>title</a> on timestamp], then the captured HTML in an
    inner [div]. *)
Definition clipped_block (url title timestamp captured : string) : string :=
  "<div style=" ++
  quoted "border-left: 3px solid #4a90e2; padding-left: 12px; margin: 20px 0;"
  ++ ">" ++
  "<p style=" ++ quoted "color: #666; font-size: 0.9em; margin: 0 0 8px 0;"
  ++ ">" ++
  "Clipped from <a href=" ++ quoted url ++ ">" ++ title ++ "</a> on " ++
  timestamp ++ "</p>" ++
  "<div>" ++ captured ++ "</div>" ++
  "</div>".

(** The request of the end-to-end property: a clip of [<p>hi</p>] from
    https://x.com, titled X, without note, into a new document [Notes]. *)
Definition notes_request : clip_request :=
  {| targetDoc := {| isNew := true; target_title := Some "Notes";
                     target_id := None; target_globalId := None |};
     content_html := Some "<p>hi</p>";
     note := Some EmptyString;
     sourceUrl := Some "https://x.com";
     sourceTitle := Some "X";
     tabId := 0 |}.

(** A call through [fetchWithTimeout] with the default timeout. *)
Definition bounded (req : request) : call :=
  {| call_abort_after := Some default_timeout; call_request := req |}.

(** A call that writes a document. *)
Definition is_put (c : call) : bool :=
  match req_method (call_request c) with
  | PUT => true
  | _ => false
  end.

(** [ms] milliseconds pass and nothing else happens. *)
Definition elapse (ms : Z) (w : world) : world :=
  {| stored_serverUrl := stored_serverUrl w;
     stored_accessToken := stored_accessToken w;
     documentsCache := documentsCache w;
     activeRequests := activeRequests w;
     promises := promises w;
     now := now w + ms;
     sent := sent w |}.

(** The session holds a server URL and an access token. *)
Definition authenticated (w : world) : Prop :=
  truthy (stored_serverUrl w) = true /\ truthy (stored_accessToken w) = true.

(** [a] is [b] with some characters deleted. *)
Inductive subsequence : string -> string -> Prop :=
| sub_empty : subsequence EmptyString EmptyString
| sub_skip c a b : subsequence a b -> subsequence a (String c b)
| sub_keep c a b : subsequence a b -> subsequence (String c a) (String c b).

(** The number of occurrences of the character [c] in [s]. *)
Fixpoint count (c : ascii) (s : string) : nat :=
  match s with
  | EmptyString => 0%nat
  | String x s' => ((if Ascii.eqb x c then 1 else 0) + count c s')%nat
  end.

(** Every character of [s] is of the class [p]. *)
Fixpoint all_chars (p : ascii -> bool) (s : string) : bool :=
  match s with
  | EmptyString => true
  | String c s' => (p c && all_chars p s')%bool
  end.

(** A character of the decimal notation of an integer. *)
Definition digit_or_minus (c : ascii) : bool :=
  (is_digit c || Ascii.eqb c "-")%bool.

(** A date with a four-digit year and calendar fields in their ranges, as
    the getters of a [Date] return them. *)
Definition calendar (d : date) : Prop :=
  1000 <= getFullYear d <= 9999
  /\ 0 <= getMonth d <= 11
  /\ 1 <= getDate d <= 31
  /\ 0 <= getHours d <= 23
  /\ 0 <= getMinutes d <= 59
  /\ 0 <= getSeconds d <= 59.

(** [s] has the shape of [pattern]: a digit where the pattern has [d],
    the character of the pattern elsewhere. *)
Fixpoint shaped (pattern s : string) : bool :=
  match pattern, s with
  | EmptyString, EmptyString => true
  | String p pattern', String c s' =>
      ((if Ascii.eqb p "d" then is_digit c else Ascii.eqb p c)
       && shaped pattern' s')%bool
  | _, _ => false
  end.

(** No answer and no failure of the server comes before its request. *)
Definition punctual (server : list call -> request -> reaction) : Prop :=
  forall history req,
    match server history req with
    | Answers ms _ => 0 <= ms
    | Fails ms => 0 <= ms
    | Silent => True
    end.

(** The reply of a successful clip or of a successful authentication. *)
Definition invalidates (r : reply) : bool :=
  match r with
  | AuthReply (Ret res) => success res
  | ClipReply (Ret (Settled res)) => success res
  | _ => false
  end.

(** A message that is neither an authentication nor a read of the first
    page of the list. *)
Definition other_work (m : message) : bool :=
  match m with
  | StartAuth _ _ => false
  | GetDocuments pageNumber => truthy_num pageNumber
  | ClipContent _ => true
  | ClipPdf _ => true
  end.

Section Messages.
Variable server : list call -> request -> reaction.
Variable local_time : Z -> date.
Variable printPage : Z -> tab_reply.

(** The worker after a sequence of messages taken one after the other,
    each some milliseconds after the one before has settled or has hung. *)
Fixpoint handled (l : list (Z * message)) (w : world) : world :=
  match l with
  | [] => w
  | (wait, m) :: l' =>
      handled l' (snd (onMessage server local_time printPage m (elapse wait w)))
  end.

(** None of the messages of the sequence is answered with a successful
    clip or a successful authentication, and no wait is negative. *)
Fixpoint quiet (l : list (Z * message)) (w : world) : Prop :=
  match l with
  | [] => True
  | (wait, m) :: l' =>
      0 <= wait
      /\ invalidates
           (fst (onMessage server local_time printPage m (elapse wait w)))
         = false
      /\ quiet l' (snd (onMessage server local_time printPage m (elapse wait w)))
  end.

End Messages.

End Spec.

(* ===================================================================== *)
(** * Vocabulary for fragments                                            *)
(* ===================================================================== *)

Module Fragments.
Import Js Dom Content.

(** [P] holds of every element of the subtree [n]. *)
Fixpoint Every (P : node -> Prop) (n : node) : Prop :=
  match n with
  | Element t a cs =>
      P (Element t a cs)
      /\ (fix go (l : list node) : Prop :=
            match l with
            | [] => True
            | c :: l' => Every P c /\ go l'
            end) cs
  | _ => True
  end.

Definition attrs_of (n : node) : list (string * string) :=
  match n with
  | Element _ a _ => a
  | _ => []
  end.

(** The element is none of the [dangerousTags]. *)
Definition tag_allowed (n : node) : Prop :=
  forall tag, In tag dangerousTags -> tag_is tag n = false.

(** Every attribute of the element is one of [safeAttrs], and so none
    has a name that starts with [on]. *)
Definition attrs_allowed (n : node) : Prop :=
  Forall (fun nv => In (fst nv) safeAttrs /\ startsWith "on" (fst nv) = false)
    (attrs_of n).

(** In lower case and without the white space around it, the value starts
    with [javascript:], [data:], [vbscript:] or [file:]. *)
Definition dangerous_scheme (href : string) : bool :=
  (startsWith "javascript:" (trim (toLowerCase href))
   || startsWith "data:" (trim (toLowerCase href))
   || startsWith "vbscript:" (trim (toLowerCase href))
   || startsWith "file:" (trim (toLowerCase href)))%bool.

Section Resolver.
Variable resolveUrl : string -> option string.

(** The [href] of the element, if it has one, has none of the four
    schemes and starts with [http://], [https://] or [#], or it is what
    [resolveUrl] made of a value that has none of the four schemes.
    Nothing is said of what [resolveUrl] returns. *)
Definition href_allowed (n : node) : Prop :=
  forall v, getAttribute "href" (attrs_of n) = Some v ->
    (dangerous_scheme v = false
     /\ (startsWith "http://" v = true \/ startsWith "https://" v = true
         \/ startsWith "#" v = true))
    \/ exists u, dangerous_scheme u = false /\ resolveUrl u = Some v.

(** The [src] of the element, if it has one, is an http(s) URL or an
    image data URL up to case and surrounding white space, or is what
    [resolveUrl] made of the original. *)
Definition src_allowed (n : node) : Prop :=
  forall v, getAttribute "src" (attrs_of n) = Some v ->
    startsWith "http://" (trim (toLowerCase v)) = true
    \/ startsWith "https://" (trim (toLowerCase v)) = true
    \/ startsWith "data:image/" (trim (toLowerCase v)) = true
    \/ exists u, resolveUrl u = Some v.

End Resolver.

(** The element has text that is not blank, or holds an image, or is an
    image. *)
Definition has_content (n : node) : Prop := is_empty_element n = false.

(** A string without a character that is not white space. *)
Fixpoint blank (s : string) : bool :=
  match s with
  | EmptyString => true
  | String c s' => (is_space c && blank s')%bool
  end.

(** A property of the tag and the attributes of an element. *)
Definition shallow (P : node -> Prop) : Prop :=
  forall t a cs cs', P (Element t a cs) -> P (Element t a cs').

(** No element of the tags in [tags]. *)
Definition none_of (tags : list string) (n : node) : Prop :=
  forall tag, In tag tags -> tag_is tag n = false.

(** A property of the name of an attribute. *)
Definition allowed_name (nv : string * string) : Prop :=
  In (fst nv) safeAttrs /\ startsWith "on" (fst nv) = false.

(** What decides whether an element is empty. *)
Definition emptiness (n : node) : bool * bool :=
  (blank (textContent n), has_descendant (tag_is "img") n).

End Fragments.

(* ===================================================================== *)
(** * The popup: search box and target of a clip                          *)
(* ===================================================================== *)

Module Popup.
Import Js Background.

(** [CONFIG.LIMITS] *)
Definition MAX_DOC_TITLE_LENGTH : Z := 255.
Definition MAX_NOTE_LENGTH : Z := 10000.

(** What the search handler leaves behind: the module variable
    [selectedDocument], the documents passed to [renderDocuments], and
    whether the create hint is shown. *)
Record search_view : Type := {
  selectedDocument : option entry;
  rendered : list entry;
  createHint : bool
}.

(** How [handleClip] and [handlePdfClip] start: an error is shown, or the
    clip goes on with a target document. *)
Inductive clip_start : Type :=
| ShowError (message : string)
| ClipTo (targetDoc : target).

Section CaseMapping.

(** [String.prototype.toLowerCase] on the names of the documents and on
    the text of the search box; nothing is assumed of it. *)
Variable lowerCase : string -> string.

(** [documents.filter(doc => doc.name.toLowerCase().includes(query))];
    [None] is the TypeError of a document without [name]. *)
Fixpoint filter_by_name (query : string) (docs : list entry)
  : option (list entry) :=
  match docs with
  | [] => Some []
  | doc :: rest =>
      match entry_name doc with
      | None => None
      | Some name =>
          let keep := includes query (lowerCase name) in
          match filter_by_name query rest with
          | None => None
          | Some kept => Some (if keep then doc :: kept else kept)
          end
      end
  end.

(** [documents.find(doc => doc.name.toLowerCase() === query)] *)
Fixpoint find_by_name (query : string) (docs : list entry)
  : option (option entry) :=
  match docs with
  | [] => Some None
  | doc :: rest =>
      match entry_name doc with
      | None => None
      | Some name =>
          if String.eqb (lowerCase name) query then Some (Some doc)
          else find_by_name query rest
      end
  end.

(** The body of the debounced callback of [handleDocumentSearch], on the
    module variable [documents] and the value of the search box. *)
Definition handleDocumentSearch (documents : list entry) (value : string)
  : option search_view :=
  let query := trim (lowerCase value) in
  if negb (truthy (Some query)) then
    Some {| selectedDocument := None; rendered := documents;
            createHint := false |}
  else
    match filter_by_name query documents with
    | None => None
    | Some filtered =>
        match find_by_name query documents with
        | None => None
        | Some exactMatch =>
            Some {| selectedDocument := exactMatch; rendered := filtered;
                    createHint :=
                      match exactMatch with
                      | Some _ => false
                      | None => truthy (Some query)
                      end |}
        end
    end.

End CaseMapping.

(** The validation of the inputs and the choice of the target document,
    the same in [handleClip] and in [handlePdfClip]; [value] is the text
    of the search box and [note] the text of the note. *)
Definition clip_target (value note : string)
    (selectedDocument : option entry) : clip_start :=
  let docName := trim value in
  if negb (truthy (Some docName)) then
    ShowError "Please enter a document name"
  else if MAX_DOC_TITLE_LENGTH <? Z.of_nat (String.length docName) then
    ShowError "Document name too long (max 255 characters)"
  else if (truthy (Some note)
           && (MAX_NOTE_LENGTH <? Z.of_nat (String.length note)))%bool then
    ShowError "Note too long (max 10000 characters)"
  else
    let created :=
      {| isNew := true; target_title := Some docName;
         target_id := None; target_globalId := None |} in
    ClipTo
      match selectedDocument with
      | Some selected =>
          match entry_name selected with
          | Some name =>
              if String.eqb name docName
              then {| isNew := false; target_title := None;
                      target_id := entry_id selected;
                      target_globalId := entry_globalId selected |}
              else created
          | None => created
          end
      | None => created
      end.

End Popup.

(* ===================================================================== *)
(** * Concrete scenarios                                                  *)
(* ===================================================================== *)

(** Pages, requests, servers and states on which the statements below
    are exercised. *)
Module Scenario.
Import Js Html Dom Background Spec.

(** A page with a selection, and the two browser services, for the
    content script. *)
Definition no_parser (html : string) : list node := [].
Definition no_resolver (url : string) : option string := None.

Definition article_page : Content.page :=
  {| Content.selection := Some ("hi", [Element "p" [] [Text "hi"]]);
     Content.documentElement :=
       Element "html" []
         [Element "body" [] [Element "p" [] [Text "hi"]]];
     Content.body := Some (Element "body" [] [Element "p" [] [Text "hi"]]);
     Content.title := "X";
     Content.location_href := "https://x.com" |}.

(** An authenticated service worker just started. *)
Definition session : world :=
  {| stored_serverUrl := Some "https://rspace.example";
     stored_accessToken := Some "secret";
     documentsCache := empty_cache;
     activeRequests := ∅;
     promises := 0;
     now := 1700000000000;
     sent := [] |}.

Definition two_entries : list entry :=
  [ {| entry_id := Some 1; entry_globalId := Some "SD1";
       entry_name := Some "Notes" |};
    {| entry_id := Some 2; entry_globalId := Some "SD2";
       entry_name := Some "Ideas" |} ].

(** A list response with [hits] documents in total. *)
Definition listing (hits : Z) : json :=
  {| j_id := None; j_id_other := None; j_globalId := None; j_fields := None;
     j_documents := Some two_entries; j_totalHits := Some hits;
     j_message := None; j_error := None; j_links_self := None |}.

(** A server that answers every request with that list after 20 ms. *)
Definition list_server (hits : Z) (history : list call) (req : request)
  : reaction :=
  Answers 20 {| status := 200; body := Json (listing hits) |}.

(** The same worker four minutes after its cache was filled. *)
Definition aged_session : world :=
  {| stored_serverUrl := Some "https://rspace.example";
     stored_accessToken := Some "secret";
     documentsCache :=
       {| data := Some two_entries; timestamp := Some 1700000000000;
          ttl := 5 * 60 * 1000; totalPages := Some 1;
          pageSize := DEFAULT_PAGE_SIZE |};
     activeRequests := ∅;
     promises := 0;
     now := 1700000000000 + 4 * 60 * 1000;
     sent := [] |}.

(** A clock that shows 8 January 2026, 14:35:02, one hour east of
    Greenwich, and a tab whose content script does not answer. *)
Definition afternoon (instant : Z) : date :=
  {| getFullYear := 2026; getMonth := 0; getDate := 8;
     getHours := 14; getMinutes := 35; getSeconds := 2;
     getTimezoneOffset := -60 |}.

Definition silent_tab (tabId : Z) : tab_reply := TabNothing.

(** What a read of that list returns when there is no further page. *)
Definition two_entries_result : docs_result :=
  {| docs_success := true; docs_error := None;
     documents := two_entries; hasMore := false |}.

(** A document of a form, with two fields, and a server that answers
    every request with it. *)
Definition form_document : json :=
  {| j_id := Some 42; j_id_other := None; j_globalId := Some "SD42";
     j_fields :=
       Some [ {| field_id := Some 7; field_content := Some "a" |};
              {| field_id := Some 8; field_content := Some "b" |} ];
     j_documents := None; j_totalHits := None;
     j_message := None; j_error := None; j_links_self := None |}.

Definition form_server (history : list call) (req : request) : reaction :=
  Answers 20 {| status := 200; body := Json form_document |}.

(** A clip of [<p>hi</p>] from https://x.com into document 42. *)
Definition clip_into_42 : clip_request :=
  {| targetDoc := {| isNew := false; target_title := None;
                     target_id := Some 42; target_globalId := Some "SD42" |};
     content_html := Some "<p>hi</p>";
     note := None;
     sourceUrl := Some "https://x.com";
     sourceTitle := Some "X";
     tabId := 1 |}.

(** The document [Notes], new, with one empty field, and a server that
    creates it, returns it and accepts its update. *)
Definition notes_document : json :=
  {| j_id := Some 42; j_id_other := None; j_globalId := Some "SD42";
     j_fields :=
       Some [ {| field_id := Some 7; field_content := Some EmptyString |} ];
     j_documents := None; j_totalHits := None;
     j_message := None; j_error := None; j_links_self := None |}.

Definition notes_server (history : list call) (req : request) : reaction :=
  Answers 20
    {| status := match req_method req with POST => 201 | _ => 200 end;
       body := Json notes_document |}.

(** The fragment that the browser builds for the markup
    [<p>javajavascript:script:</p>], and a parser that knows this markup
    only. *)
Definition nested_markup : string := "<p>javajavascript:script:</p>".

Definition nested_fragment : list node :=
  [Element "p" [] [Text "javajavascript:script:"]].

Definition nested_parser (html : string) : list node :=
  if String.eqb html nested_markup then nested_fragment else [].

(** An image whose [title] ends in an unpaired single quote and whose
    [src] carries the text of a handler. *)
Definition quote_fragment : list node :=
  [Element "img"
     [("title", "onx='");
      ("src", "http://e/ onerror onx=1 =alert(1) ")] []].

(** A tab whose content script returns a PDF, and three servers: one
    that takes ten minutes to store a file, one that stores the file and
    then never answers the fetch of the document, one that never answers
    the upload. *)
Definition pdf_tab (tabId : Z) : tab_reply :=
  TabResult (Some "data:application/pdf;base64,JVBERi0=") None.

Definition stored_file : json :=
  {| j_id := Some 99; j_id_other := None; j_globalId := Some "GL99";
     j_fields := None; j_documents := None; j_totalHits := None;
     j_message := None; j_error := None; j_links_self := None |}.

Definition is_upload (req : request) : bool :=
  match req_body req with
  | FileBody _ _ => true
  | _ => false
  end.

Definition slow_upload_server (history : list call) (req : request)
  : reaction :=
  if is_upload req
  then Answers (10 * 60 * 1000) {| status := 201; body := Json stored_file |}
  else Answers 20 {| status := 200; body := Json notes_document |}.

Definition unlinked_server (history : list call) (req : request)
  : reaction :=
  if is_upload req
  then Answers 20 {| status := 201; body := Json stored_file |}
  else Silent.

Definition hanging_upload_server (history : list call) (req : request)
  : reaction :=
  if is_upload req then Silent
  else Answers 20 {| status := 200; body := Json notes_document |}.

(** A server whose answer to a list request has headers and never a
    body, and that answers every other request like [notes_server]; a
    server whose answers all come without their body. *)
Definition is_list (req : request) : bool := includes "pageSize=" (req_url req).

Definition stalling_list_server (history : list call) (req : request)
  : reaction :=
  if is_list req then Answers 20 {| status := 200; body := Stalled |}
  else notes_server history req.

Definition stalling_server (history : list call) (req : request) : reaction :=
  Answers 20 {| status := 200; body := Stalled |}.

(** A file stored under an [id] that is a string, and a link with a
    script in its [href]. *)
Definition named_file : json :=
  {| j_id := None; j_id_other := Some (true, "F-7"); j_globalId := Some "GL99";
     j_fields := None; j_documents := None; j_totalHits := None;
     j_message := None; j_error := None; j_links_self := None |}.

Definition script_link : list (string * string) :=
  [("href", " JavaScript:alert(1)")].

(** A tab whose content script never answers. *)
Definition unanswering_tab (tabId : Z) : tab_reply := TabSilent.

(** A service worker that has not been connected. *)
Definition signed_out : world :=
  {| stored_serverUrl := None;
     stored_accessToken := None;
     documentsCache := empty_cache;
     activeRequests := ∅;
     promises := 0;
     now := 1700000000000;
     sent := [] |}.

(** The result of a clip into document 42. *)
Definition clipped_into_42 : clip_result :=
  {| success := true; error := None;
     documentId := Some 42; globalId := Some "SD42" |}.

(** The popup after the text [notes] was typed into the search box over
    the two documents: the document [Notes] is shown and selected.  A
    clip started then goes to a new document [notes]. *)
Definition notes_view : Popup.search_view :=
  {| Popup.selectedDocument :=
       Some {| entry_id := Some 1; entry_globalId := Some "SD1";
               entry_name := Some "Notes" |};
     Popup.rendered :=
       [ {| entry_id := Some 1; entry_globalId := Some "SD1";
            entry_name := Some "Notes" |} ];
     Popup.createHint := false |}.

Definition new_notes : target :=
  {| isNew := true; target_title := Some "notes";
     target_id := None; target_globalId := None |}.

End Scenario.

(* ===================================================================== *)
(** * Properties                                                          *)
(* ===================================================================== *)

Import Js Html Dom Background Spec.

(** ** Strings *)

Lemma append_cons c a b : String c a ++ b = String c (a ++ b).
Proof. reflexivity. Qed.

Lemma append_nil_l b : EmptyString ++ b = b.
Proof. reflexivity. Qed.

Lemma append_nil_r a : a ++ EmptyString = a.
Proof. induction a as [|x a IH]; [reflexivity|]. now rewrite append_cons, IH. Qed.

Lemma append_assoc a b c : (a ++ b) ++ c = a ++ (b ++ c).
Proof.
  induction a as [|x a IH]; [reflexivity|].
  rewrite !append_cons. now rewrite IH.
Qed.

(** ** Replacement of single characters *)

Lemma length_succ_sub (n : nat) : (S n - n = 1)%nat.
Proof. lia. Qed.

Lemma match_len_Chr (p : ascii -> bool) prev c s :
  match_len (Chr p) prev (String c s) = if p c then Some 1%nat else None.
Proof.
  unfold match_len. simpl rmatch. destruct (p c); [|reflexivity].
  f_equal. apply length_succ_sub.
Qed.

Lemma replace_from_Chr (p : ascii -> bool) repl s :
  forall prev, replace_from (Chr p) repl prev 0 s = substitute p repl s.
Proof.
  induction s as [|c s IH]; intros prev.
  - reflexivity.
  - cbn [replace_from substitute]. rewrite match_len_Chr.
    destruct (p c); rewrite IH; reflexivity.
Qed.

Lemma replace_all_Chr (p : ascii -> bool) repl s :
  replace_all (Chr p) repl s = substitute p repl s.
Proof. apply replace_from_Chr. Qed.

Lemma substitute_app p repl a b :
  substitute p repl (a ++ b) = substitute p repl a ++ substitute p repl b.
Proof.
  induction a as [|c a IH]; [reflexivity|].
  rewrite append_cons. cbn [substitute]. rewrite IH. now rewrite append_assoc.
Qed.

Lemma five_replacements_app a b :
  five_replacements (a ++ b) = five_replacements a ++ five_replacements b.
Proof. unfold five_replacements. now rewrite !substitute_app. Qed.

Lemma five_replacements_char c :
  five_replacements (String c EmptyString) = entity_of c.
Proof.
  unfold five_replacements, entity_of.
  destruct (Ascii.eqb_spec c "&") as [->|H1]; [reflexivity|].
  destruct (Ascii.eqb_spec c "<") as [->|H2]; [reflexivity|].
  destruct (Ascii.eqb_spec c ">") as [->|H3]; [reflexivity|].
  destruct (Ascii.eqb_spec c dquote) as [->|H4]; [reflexivity|].
  destruct (Ascii.eqb_spec c "'") as [->|H5]; [reflexivity|].
  cbn [substitute].
  rewrite (proj2 (Ascii.eqb_neq "&" c)) by congruence.
  rewrite append_nil_r. cbn [substitute].
  rewrite (proj2 (Ascii.eqb_neq "<" c)) by congruence.
  rewrite append_nil_r. cbn [substitute].
  rewrite (proj2 (Ascii.eqb_neq ">" c)) by congruence.
  rewrite append_nil_r. cbn [substitute].
  rewrite (proj2 (Ascii.eqb_neq dquote c)) by congruence.
  rewrite append_nil_r. cbn [substitute].
  rewrite (proj2 (Ascii.eqb_neq "'" c)) by congruence.
  reflexivity.
Qed.

Lemma five_replacements_each s : five_replacements s = escape_each s.
Proof.
  induction s as [|c s IH]; [reflexivity|].
  change (String c s) with (String c EmptyString ++ s).
  rewrite five_replacements_app, five_replacements_char, IH. reflexivity.
Qed.

Lemma escapeHtml_each s : escapeHtml (Some s) = escape_each s.
Proof.
  destruct s as [|c s]; [reflexivity|].
  unfold escapeHtml, chr. rewrite !replace_all_Chr.
  apply five_replacements_each.
Qed.

(** ** The output of [escapeHtml] *)

Lemma has_char_app c a b : has_char c (a ++ b) = (has_char c a || has_char c b)%bool.
Proof.
  induction a as [|x a IH]; [reflexivity|].
  rewrite append_cons. cbn [has_char]. rewrite IH. now rewrite orb_assoc.
Qed.

Lemma has_char_occurs c s : occurs c s -> has_char c s = true.
Proof.
  intros (pre & post & ->). rewrite has_char_app. cbn [has_char].
  rewrite Ascii.eqb_refl. now rewrite orb_true_r.
Qed.

Lemma startsWith_append p s : startsWith p s = true -> exists rest, s = p ++ rest.
Proof.
  revert s. induction p as [|a p IH]; intros s H.
  - exists s. reflexivity.
  - destruct s as [|b s]; [discriminate|]. cbn [startsWith] in H.
    apply andb_true_iff in H as [Hab H]. apply Ascii.eqb_eq in Hab as ->.
    destruct (IH _ H) as [rest ->]. exists rest. reflexivity.
Qed.

Lemma ampersands_ok_spec s : ampersands_ok s = true -> ampersands_start_entities s.
Proof.
  intros H pre. revert s H. induction pre as [|a pre IH]; intros s H post ->.
  - rewrite append_nil_l in H. cbn [ampersands_ok] in H.
    apply andb_true_iff in H as [H _]. rewrite Ascii.eqb_refl in H.
    cbn [negb orb] in H. apply existsb_exists in H as (e & He & Hs).
    destruct (startsWith_append _ _ Hs) as [rest Hrest].
    exists e, rest. split; [exact He|exact Hrest].
  - rewrite append_cons in H. cbn [ampersands_ok] in H.
    apply andb_true_iff in H as [_ H]. exact (IH _ H post eq_refl).
Qed.

Lemma entity_of_clean c x :
  x = "<"%char \/ x = ">"%char \/ x = dquote \/ x = "'"%char ->
  has_char x (entity_of c) = false.
Proof.
  intros Hx. unfold entity_of.
  destruct (Ascii.eqb_spec c "&") as [-> | H1];
    [destruct Hx as [-> | [-> | [-> | ->]]]; reflexivity|].
  destruct (Ascii.eqb_spec c "<") as [-> | H2];
    [destruct Hx as [-> | [-> | [-> | ->]]]; reflexivity|].
  destruct (Ascii.eqb_spec c ">") as [-> | H3];
    [destruct Hx as [-> | [-> | [-> | ->]]]; reflexivity|].
  destruct (Ascii.eqb_spec c dquote) as [-> | H4];
    [destruct Hx as [-> | [-> | [-> | ->]]]; reflexivity|].
  destruct (Ascii.eqb_spec c "'") as [-> | H5];
    [destruct Hx as [-> | [-> | [-> | ->]]]; reflexivity|].
  cbn [has_char]. rewrite orb_false_r. apply Ascii.eqb_neq.
  destruct Hx as [-> | [-> | [-> | ->]]]; assumption.
Qed.

Lemma escape_each_clean s x :
  x = "<"%char \/ x = ">"%char \/ x = dquote \/ x = "'"%char ->
  has_char x (escape_each s) = false.
Proof.
  intros Hx. induction s as [|c s IH]; [reflexivity|].
  cbn [escape_each]. rewrite has_char_app, IH, entity_of_clean by assumption.
  reflexivity.
Qed.

Lemma ampersands_ok_entity c t :
  ampersands_ok t = true -> ampersands_ok (entity_of c ++ t) = true.
Proof.
  intros Ht. unfold entity_of.
  destruct (Ascii.eqb_spec c "&") as [-> | H1];
    [cbv -[ampersands_ok]; cbn [ampersands_ok]; exact Ht|].
  destruct (Ascii.eqb_spec c "<") as [-> | H2].
  { rewrite !append_cons, append_nil_l. cbn. exact Ht. }
  destruct (Ascii.eqb_spec c ">") as [-> | H3].
  { rewrite !append_cons, append_nil_l. cbn. exact Ht. }
  destruct (Ascii.eqb_spec c dquote) as [-> | H4].
  { rewrite !append_cons, append_nil_l. cbn. exact Ht. }
  destruct (Ascii.eqb_spec c "'") as [-> | H5].
  { rewrite !append_cons, append_nil_l. cbn. exact Ht. }
  rewrite append_cons, append_nil_l. cbn [ampersands_ok].
  rewrite (proj2 (Ascii.eqb_neq c "&")) by assumption. exact Ht.
Qed.

Lemma escape_each_ampersands s : ampersands_ok (escape_each s) = true.
Proof.
  induction s as [|c s IH]; [reflexivity|].
  cbn [escape_each]. now apply ampersands_ok_entity.
Qed.

(** C10.  For every string [s], [escapeHtml(s)] contains none of the
    characters less-than, greater-than, double quote and single quote, and
    every ampersand in it is the first character of one of the entities
    [&amp;], [&lt;], [&gt;], [&quot;], [&#039;]; for the empty string and
    for a missing argument [escapeHtml] returns the empty string. *)
Theorem escapeHtml_output (s : string) :
  (~ occurs "<" (escapeHtml (Some s))
   /\ ~ occurs ">" (escapeHtml (Some s))
   /\ ~ occurs dquote (escapeHtml (Some s))
   /\ ~ occurs "'" (escapeHtml (Some s)))
  /\ ampersands_start_entities (escapeHtml (Some s))
  /\ escapeHtml (Some EmptyString) = EmptyString
  /\ escapeHtml None = EmptyString.
Proof.
  rewrite escapeHtml_each.
  assert (Hno : forall x,
             x = "<"%char \/ x = ">"%char \/ x = dquote \/ x = "'"%char ->
             ~ occurs x (escape_each s)).
  { intros x Hx Ho. apply has_char_occurs in Ho.
    rewrite escape_each_clean in Ho by assumption. discriminate. }
  repeat split; try (apply Hno; tauto).
  apply ampersands_ok_spec, escape_each_ampersands.
Qed.

(** ** The validation in the [getContent] handler *)

Lemma mem_In s l : mem s l = true <-> In s l.
Proof.
  unfold mem. rewrite existsb_exists. split.
  - intros (x & Hx & He). apply String.eqb_eq in He. now subst.
  - intros H. exists s. split; [exact H|apply String.eqb_refl].
Qed.

(** A valid content type runs the capture of its name. *)
Lemma getContent_valid parseFragment resolveUrl ct p :
  In ct Content.VALID_CONTENT_TYPES ->
  Content.onGetContent parseFragment resolveUrl (Some ct) p =
    {| Content.response := Content.extractContent parseFragment resolveUrl ct p;
       Content.attempted := Some (Content.extractContent_case ct) |}
  /\ (ct = "selection" -> Content.extractContent_case ct = Content.Selection)
  /\ (ct = "full-page" -> Content.extractContent_case ct = Content.FullPage)
  /\ (ct = "url-only" -> Content.extractContent_case ct = Content.UrlOnly).
Proof.
  intros H. split.
  - unfold Content.onGetContent.
    rewrite (proj2 (mem_In ct _) H).
    destruct ct; [|reflexivity].
    cbn in H. intuition discriminate.
  - repeat split; intros ->; reflexivity.
Qed.

(** C9.  A [getContent] request whose [contentType] is missing or is not
    one of [selection], [full-page], [url-only] is answered [null] and no
    capture is run for it: the request is rejected before extraction, and
    no capture mode stands in for the unknown one. *)
Theorem getContent_rejects_unknown parseFragment resolveUrl
    (contentType : option string) (p : Content.page) :
  (forall ct, contentType = Some ct -> ~ In ct Content.VALID_CONTENT_TYPES) ->
  Content.response (Content.onGetContent parseFragment resolveUrl contentType p) = None
  /\ Content.attempted (Content.onGetContent parseFragment resolveUrl contentType p) = None.
Proof.
  intros H. destruct contentType as [ct|]; [|split; reflexivity].
  unfold Content.onGetContent.
  assert (Hm : mem ct Content.VALID_CONTENT_TYPES = false).
  { destruct (mem ct Content.VALID_CONTENT_TYPES) eqn:E; [|reflexivity].
    apply mem_In in E. exfalso. exact (H ct eq_refl E). }
  rewrite Hm. rewrite orb_true_r. split; reflexivity.
Qed.

Lemma getContent_rejects_pdf :
  (forall ct, Some "pdf" = Some ct -> ~ In ct Content.VALID_CONTENT_TYPES)
  /\ Content.response
       (Content.onGetContent Scenario.no_parser Scenario.no_resolver
          (Some "pdf") Scenario.article_page) = None
  /\ Content.attempted
       (Content.onGetContent Scenario.no_parser Scenario.no_resolver
          (Some "pdf") Scenario.article_page) = None.
Proof.
  assert (H : forall ct, Some "pdf" = Some ct ->
                         ~ In ct Content.VALID_CONTENT_TYPES).
  { intros ct [= <-]. cbn. intuition discriminate. }
  split; [exact H|].
  exact (getContent_rejects_unknown Scenario.no_parser Scenario.no_resolver
           (Some "pdf") Scenario.article_page H).
Defined.

(** ** Reading the state after an update *)

Lemma register_reads k w :
  stored_serverUrl (register k w) = stored_serverUrl w
  /\ stored_accessToken (register k w) = stored_accessToken w
  /\ documentsCache (register k w) = documentsCache w
  /\ now (register k w) = now w
  /\ sent (register k w) = sent w.
Proof. repeat split. Qed.

(** Rewrite the reads of an updated state to reads of the state before. *)
Ltac reads :=
  repeat first
    [ rewrite !(proj1 (register_reads _ _))
    | rewrite !(proj1 (proj2 (register_reads _ _)))
    | rewrite !(proj1 (proj2 (proj2 (register_reads _ _))))
    | rewrite !(proj1 (proj2 (proj2 (proj2 (register_reads _ _)))))
    | rewrite !(proj2 (proj2 (proj2 (proj2 (register_reads _ _))))) ].

(** ** Calls on the network *)

Lemma fetchWithTimeout_answers server req timeout w ms r :
  server (sent w) req = Answers ms r -> ms < timeout ->
  fetchWithTimeout server req timeout w =
    (Ret r, network {| call_abort_after := Some timeout; call_request := req |} ms w).
Proof.
  intros Hs Hms. unfold fetchWithTimeout, try_catch, fetch. rewrite Hs.
  apply Z.ltb_lt in Hms. now rewrite Hms.
Qed.

(** ** The document list *)

Lemma ceil_div_gt (p t : Z) :
  (p + 1 <? ceil_div t 50) = ((p + 1) * 50 <? t).
Proof.
  unfold ceil_div.
  pose proof (Z.div_mod (- t) 50 ltac:(lia)) as Hdm.
  pose proof (Z.mod_pos_bound (- t) 50 ltac:(lia)) as Hb.
  destruct (Z.ltb_spec (p + 1) (- (- t / 50)));
    destruct (Z.ltb_spec ((p + 1) * 50) t); try reflexivity; lia.
Qed.

(** C6.  For a page number [p >= 0] and a list response that carries a
    positive [totalHits] [t], [getDocuments(p)], when it is not answered
    from the cache, succeeds with [hasMore] equal to [(p+1) * 50 < t]:
    the test [(p+1) < ceil(t/50)] of the code is that comparison. *)
Theorem getDocuments_hasMore server (p t : Z) (w : world)
    (url key : string) (ms : Z) (resp : response) (data : json)
    (docs : list entry) :
  0 <= p -> 0 < t ->
  stored_serverUrl w = Some url -> truthy (Some url) = true ->
  stored_accessToken w = Some key -> truthy (Some key) = true ->
  activeRequests w !! ("documents_" ++ string_of_Z p) = None ->
  (p = 0 -> cache_is_fresh (documentsCache w) (now w) = false) ->
  server (sent w) (list_request url key DEFAULT_PAGE_SIZE p) = Answers ms resp ->
  ms < default_timeout -> ok resp = true -> body resp = Json data ->
  j_documents data = Some docs -> j_totalHits data = Some t ->
  exists w',
    getDocuments server p w =
      (Ret (Settled {| docs_success := true; docs_error := None;
                       documents := docs;
                       hasMore := (p + 1) * 50 <? t |}), w').
Proof.
  intros Hp Ht Hurl Turl Hkey Tkey Hact Hcache Hsrv Hms Hok Hbody Hdocs Hhits.
  unfold getDocuments, with_active_request. rewrite Hact.
  unfold try_catch, bind, get, ret.
  cbv beta. reads. rewrite Hurl, Hkey, Turl, Tkey. cbn [negb orb default].
  cbv beta. reads.
  assert (Hmiss : (if p =? 0
                   then if cache_is_fresh (documentsCache w) (now w)
                        then Some (documentsCache w) else None
                   else None) = None).
  { destruct (Z.eqb_spec p 0) as [E|E]; [|reflexivity]. now rewrite Hcache. }
  rewrite Hmiss.
  erewrite fetchWithTimeout_answers by (reads; eassumption).
  rewrite Hok. cbn [negb]. unfold json_of. rewrite Hbody. unfold ret.
  rewrite Hdocs, Hhits.
  assert (Htr : truthy_num (Some t) = true).
  { unfold truthy_num. destruct (Z.eqb_spec t 0); [lia|reflexivity]. }
  rewrite Htr. cbn [default]. unfold DEFAULT_PAGE_SIZE at 3 4.
  rewrite ceil_div_gt.
  destruct (p =? 0); unfold modify; eexists; reflexivity.
Qed.

Lemma getDocuments_hasMore_page1 :
  0 <= 1 /\ 0 < 120
  /\ stored_serverUrl Scenario.session = Some "https://rspace.example"
  /\ truthy (Some "https://rspace.example") = true
  /\ stored_accessToken Scenario.session = Some "secret"
  /\ truthy (Some "secret") = true
  /\ activeRequests Scenario.session !! ("documents_" ++ string_of_Z 1) = None
  /\ (1 = 0 -> cache_is_fresh (documentsCache Scenario.session)
                 (now Scenario.session) = false)
  /\ exists w',
       getDocuments (Scenario.list_server 120) 1 Scenario.session =
         (Ret (Settled {| docs_success := true; docs_error := None;
                          documents := Scenario.two_entries;
                          hasMore := (1 + 1) * 50 <? 120 |}), w').
Proof.
  assert (H8 : 1 = 0 -> cache_is_fresh (documentsCache Scenario.session)
                          (now Scenario.session) = false) by lia.
  repeat (split; [first [lia | reflexivity | exact H8]|]).
  exact (getDocuments_hasMore (Scenario.list_server 120) 1 120 Scenario.session
           "https://rspace.example" "secret" 20
           {| status := 200; body := Json (Scenario.listing 120) |}
           (Scenario.listing 120) Scenario.two_entries
           ltac:(lia) ltac:(lia) eq_refl eq_refl eq_refl eq_refl eq_refl H8
           eq_refl ltac:(reflexivity) eq_refl eq_refl eq_refl eq_refl).
Defined.

(** ** Case analysis of a run *)

(** Split on the innermost test that blocks the evaluation of [H]. *)
Ltac split_run H :=
  match type of H with
  | context [match ?x with _ => _ end] =>
      lazymatch x with
      | context [match _ with _ => _ end] => fail
      | _ => destruct x eqn:?; cbv beta iota zeta in H
      end
  end.

Ltac unfold_run H :=
  cbv beta iota zeta delta
    [getDocuments clipContent clipPdf resolve_target createDocument
     generatePdfFromTab uploadPdfToRSpace linkFileToDocument
     with_active_request try_catch
     bind get ret throw pending modify fetchWithTimeout fetch json_of
     text_of] in H.

Ltac unfold_all H :=
  cbv beta iota zeta delta
    [handleAuth getDocuments clipContent clipPdf resolve_target createDocument
     generatePdfFromTab uploadPdfToRSpace linkFileToDocument
     with_active_request try_catch
     bind get ret throw pending modify fetchWithTimeout fetch json_of
     text_of] in H.

Lemma default_timeout_value : default_timeout = 30000.
Proof. reflexivity. Qed.

(** Facts about a run are read off the final state. *)
Ltac final_state :=
  cbn [fst snd sent now documentsCache activeRequests promises
       stored_serverUrl stored_accessToken
       finally_delete set_active set_cache set_session network register] in *.

Ltac time_bounds :=
  repeat match goal with
         | H : (_ <? _) = true |- _ => apply Z.ltb_lt in H
         | H : (_ <? _) = false |- _ => apply Z.ltb_ge in H
         end;
  rewrite ?default_timeout_value in *.

Lemma snoc_neq {A} (l : list A) (c : A) : (l ++ [c])%list <> l.
Proof.
  intros H. apply (f_equal (@length A)) in H. rewrite length_app in H.
  cbn in H. lia.
Qed.

(** ** What a call leaves alone *)

Lemma to_int_nonnil n :
  Z.to_int n <> Decimal.Pos Decimal.Nil /\ Z.to_int n <> Decimal.Neg Decimal.Nil.
Proof.
  assert (H : Z.to_int n = Decimal.norm (Z.to_int n)).
  { rewrite <- DecimalZ.to_of. now rewrite DecimalZ.of_to. }
  rewrite H.
  destruct (Z.to_int n) as [u|u]; cbn [Decimal.norm].
  - split; [|discriminate]. intros [= E]. revert E. apply DecimalFacts.unorm_nonnil.
  - destruct (Decimal.nzhead u) eqn:E; split; try discriminate.
Qed.

Lemma string_of_Z_inj p q : string_of_Z p = string_of_Z q -> p = q.
Proof.
  unfold string_of_Z. intros H. apply DecimalZ.to_int_inj.
  apply (f_equal NilZero.int_of_string) in H.
  destruct (to_int_nonnil p), (to_int_nonnil q).
  rewrite !NilZero.isi in H by assumption. congruence.
Qed.

Lemma documents_key_inj p q :
  "documents_" ++ string_of_Z p = "documents_" ++ string_of_Z q -> p = q.
Proof. intros [= H]. now apply string_of_Z_inj. Qed.

(** The delays of a punctual server. *)
Ltac delays Hp :=
  repeat match goal with
         | H : ?server ?h ?q = Answers ?ms _ |- _ =>
             lazymatch goal with
             | _ : 0 <= ms |- _ => fail
             | _ => let Hd := fresh "Hd" in
                    pose proof (Hp h q) as Hd; rewrite H in Hd
             end
         | H : ?server ?h ?q = Fails ?ms |- _ =>
             lazymatch goal with
             | _ : 0 <= ms |- _ => fail
             | _ => let Hd := fresh "Hd" in
                    pose proof (Hp h q) as Hd; rewrite H in Hd
             end
         end.

Ltac other_key :=
  rewrite ?lookup_delete_ne by (intros E; congruence);
  rewrite ?lookup_insert_ne by (intros E; congruence);
  reflexivity.

Lemma getDocuments_frame server p w :
  let r := getDocuments server p w in
  stored_serverUrl (snd r) = stored_serverUrl w
  /\ stored_accessToken (snd r) = stored_accessToken w
  /\ (punctual server -> now w <= now (snd r))
  /\ (forall k, k <> "documents_" ++ string_of_Z p ->
        activeRequests (snd r) !! k = activeRequests w !! k).
Proof.
  intros r. subst r.
  destruct (getDocuments server p w) as [o w'] eqn:H.
  unfold_all H.
  repeat split_run H; inversion H; subst; clear H; final_state; time_bounds;
    (split; [reflexivity|]); (split; [reflexivity|]);
    (split; [intros Hp; delays Hp; lia|]);
    intros k Hk; other_key.
Qed.

Lemma clipContent_frame server local_time request w :
  let r := clipContent server local_time request w in
  stored_serverUrl (snd r) = stored_serverUrl w
  /\ stored_accessToken (snd r) = stored_accessToken w
  /\ (punctual server -> now w <= now (snd r))
  /\ (forall k, k <> "clipContent" ->
        activeRequests (snd r) !! k = activeRequests w !! k)
  /\ (documentsCache (snd r) = documentsCache w
      \/ documentsCache (snd r) = empty_cache
         /\ exists res, fst r = Ret (Settled res) /\ success res = true).
Proof.
  intros r. subst r.
  destruct (clipContent server local_time request w) as [o w'] eqn:H.
  unfold_all H.
  repeat split_run H; inversion H; subst; clear H; final_state; time_bounds;
    (split; [reflexivity|]); (split; [reflexivity|]);
    (split; [intros Hp; delays Hp; lia|]);
    (split; [intros k Hk; other_key|]);
    first [left; reflexivity
          |right; split; [reflexivity|]; eexists; split; reflexivity].
Qed.

Lemma clipPdf_frame server local_time printPage request w :
  let r := clipPdf server local_time printPage request w in
  stored_serverUrl (snd r) = stored_serverUrl w
  /\ stored_accessToken (snd r) = stored_accessToken w
  /\ (punctual server -> now w <= now (snd r))
  /\ (forall k, k <> "clipPdf" ->
        activeRequests (snd r) !! k = activeRequests w !! k)
  /\ (documentsCache (snd r) = documentsCache w
      \/ documentsCache (snd r) = empty_cache
         /\ exists res, fst r = Ret (Settled res) /\ success res = true).
Proof.
  intros r. subst r.
  destruct (clipPdf server local_time printPage request w) as [o w'] eqn:H.
  unfold_all H.
  repeat split_run H; inversion H; subst; clear H; final_state; time_bounds;
    (split; [reflexivity|]); (split; [reflexivity|]);
    (split; [intros Hp; delays Hp; lia|]);
    (split; [intros k Hk; other_key|]);
    first [left; reflexivity
          |right; split; [reflexivity|]; eexists; split; reflexivity].
Qed.

Lemma handleAuth_frame server serverUrl apiKey w :
  let r := handleAuth server serverUrl apiKey w in
  activeRequests (snd r) = activeRequests w
  /\ (punctual server -> now w <= now (snd r))
  /\ (stored_serverUrl (snd r) = stored_serverUrl w
      /\ stored_accessToken (snd r) = stored_accessToken w
      /\ documentsCache (snd r) = documentsCache w
      \/ exists res, fst r = Ret res /\ success res = true).
Proof.
  intros r. subst r.
  destruct (handleAuth server serverUrl apiKey w) as [o w'] eqn:H.
  unfold_all H.
  repeat split_run H; inversion H; subst; clear H; final_state; time_bounds;
    (split; [reflexivity|]);
    (split; [intros Hp; delays Hp; lia|]);
    first [left; repeat split; reflexivity
          |right; eexists; split; reflexivity].
Qed.

(** ** The cache of the document list *)

Lemma getDocuments_other_pages server p w o w' :
  p <> 0 -> getDocuments server p w = (o, w') ->
  documentsCache w' = documentsCache w.
Proof.
  intros Hp H. unfold_run H.
  apply Z.eqb_neq in Hp. rewrite Hp in H.
  repeat split_run H; try (inversion H; subst; reflexivity).
Qed.

Lemma getDocuments_read_keeps_cache server p w o w' :
  getDocuments server p w = (o, w') -> sent w' = sent w ->
  documentsCache w' = documentsCache w.
Proof.
  intros H Hs. unfold_run H.
  repeat split_run H; inversion H; subst; try reflexivity;
    exfalso; revert Hs; apply snoc_neq.
Qed.

(** What a successful [getDocuments(0)] that went to the network leaves. *)
Lemma getDocuments_fetched server w0 r1 w1 :
  getDocuments server 0 w0 = (Ret (Settled r1), w1) ->
  docs_success r1 = true -> sent w1 <> sent w0 ->
  authenticated w1
  /\ activeRequests w1 !! "documents_0" = None
  /\ exists docs tp,
       documentsCache w1 =
         {| data := Some docs; timestamp := Some (now w1);
            ttl := 5 * 60 * 1000; totalPages := Some tp;
            pageSize := DEFAULT_PAGE_SIZE |}
       /\ r1 = {| docs_success := true; docs_error := None;
                  documents := docs; hasMore := 1 <? tp |}.
Proof.
  intros H Hok Hs. unfold_run H. change (0 =? 0) with true in H.
  cbv beta iota in H.
  repeat split_run H; inversion H; subst; try discriminate;
    try (exfalso; apply Hs; reflexivity).
  all: apply orb_false_iff in Heqb as [Ha Hb];
    apply negb_false_iff in Ha, Hb.
  all: split; [split; assumption|].
  all: split; [apply lookup_delete_eq|].
  all: eexists; eexists; split; reflexivity.
Qed.

(** A fresh cache answers [getDocuments(0)] without a call. *)
Lemma getDocuments_fresh server w :
  authenticated w -> activeRequests w !! "documents_0" = None ->
  cache_is_fresh (documentsCache w) (now w) = true ->
  exists w',
    getDocuments server 0 w =
      (Ret (Settled {| docs_success := true; docs_error := None;
                       documents := default [] (data (documentsCache w));
                       hasMore := match totalPages (documentsCache w) with
                                  | Some t => 1 <? t
                                  | None => false
                                  end |}), w')
    /\ sent w' = sent w /\ documentsCache w' = documentsCache w
    /\ activeRequests w' = activeRequests w.
Proof.
  intros [Ha Hb] Hact Hfresh.
  cbv beta iota zeta delta [getDocuments with_active_request try_catch bind get ret].
  change ("documents_" ++ string_of_Z 0) with "documents_0".
  rewrite Hact. reads. rewrite Ha, Hb. cbn [negb orb]. cbv beta.
  change (0 =? 0) with true. cbv iota. reads. rewrite Hfresh.
  eexists. split; [reflexivity|]. split; [reflexivity|].
  split; [reflexivity|].
  cbn [activeRequests finally_delete register set_active].
  now apply delete_insert_id.
Qed.

(** A cache without data sends [getDocuments(0)] to the network. *)
Lemma getDocuments_cold server w :
  authenticated w -> activeRequests w !! "documents_0" = None ->
  data (documentsCache w) = None ->
  exists o w',
    getDocuments server 0 w = (o, w')
    /\ sent w' =
       (sent w ++
        [{| call_abort_after := Some default_timeout;
            call_request :=
              list_request (default EmptyString (stored_serverUrl w))
                (default EmptyString (stored_accessToken w))
                DEFAULT_PAGE_SIZE 0 |}])%list.
Proof.
  intros [Ha Hb] Hact Hdata.
  destruct (getDocuments server 0 w) as [o w'] eqn:H.
  exists o, w'. split; [reflexivity|].
  unfold_run H. change ("documents_" ++ string_of_Z 0) with "documents_0" in H.
  rewrite Hact in H. revert H. reads. rewrite Ha, Hb. cbn [negb orb]. cbv beta.
  change (0 =? 0) with true. cbv iota. reads.
  unfold cache_is_fresh. rewrite Hdata. intros H.
  repeat split_run H; inversion H; subst; reflexivity.
Qed.

Ltac after_clip Heqb :=
  apply orb_false_iff in Heqb as [Ha Hb];
  apply negb_false_iff in Ha, Hb;
  split; [reflexivity|];
  split; [split; assumption|];
  cbn [activeRequests finally_delete set_active set_cache network register];
  rewrite lookup_delete_ne by discriminate;
  rewrite lookup_insert_ne by discriminate;
  reflexivity.

Lemma clipContent_resets_cache server local_time request w r w1 :
  clipContent server local_time request w = (Ret (Settled r), w1) ->
  success r = true ->
  documentsCache w1 = empty_cache
  /\ authenticated w1
  /\ activeRequests w1 !! "documents_0" = activeRequests w !! "documents_0".
Proof.
  intros H Hok. unfold_run H.
  repeat split_run H; inversion H; subst; try discriminate.
  all: after_clip Heqb.
Qed.

Lemma clipPdf_resets_cache server local_time printPage request w r w1 :
  clipPdf server local_time printPage request w = (Ret (Settled r), w1) ->
  success r = true ->
  documentsCache w1 = empty_cache
  /\ authenticated w1
  /\ activeRequests w1 !! "documents_0" = activeRequests w !! "documents_0".
Proof.
  intros H Hok. unfold_run H.
  repeat split_run H; inversion H; subst; try discriminate.
  all: after_clip Heqb.
Qed.

Section Messages.
Variable server : list call -> request -> reaction.
Variable local_time : Z -> date.
Variable printPage : Z -> tab_reply.
Hypothesis on_time : punctual server.

Lemma onMessage_clock m w :
  now w <= now (snd (onMessage server local_time printPage m w)).
Proof.
  destruct m as [u k|p|rq|rq]; cbn [onMessage snd].
  - now apply handleAuth_frame.
  - now apply getDocuments_frame.
  - now apply clipContent_frame.
  - now apply clipPdf_frame.
Qed.

Lemma handled_clock l w :
  quiet server local_time printPage l w ->
  now w <= now (handled server local_time printPage l w).
Proof.
  revert w. induction l as [|[d m] l IH]; intros w; cbn [quiet handled].
  - lia.
  - intros (Hd & _ & Hq). specialize (IH _ Hq).
    pose proof (onMessage_clock m (elapse d w)) as Hm.
    change (now (elapse d w)) with (now w + d) in Hm. lia.
Qed.

(** Between two reads of the first page: while the cache is fresh no
    message that is answered without a successful write or
    authentication changes it, the session holds, and no read of the
    first page stays in flight. *)
Lemma quiet_keeps l : forall w,
  authenticated w -> activeRequests w !! "documents_0" = None ->
  (forall n, now w <= n ->
     n <= now (handled server local_time printPage l w) ->
     cache_is_fresh (documentsCache w) n = true) ->
  quiet server local_time printPage l w ->
  documentsCache (handled server local_time printPage l w) = documentsCache w
  /\ authenticated (handled server local_time printPage l w)
  /\ activeRequests (handled server local_time printPage l w) !! "documents_0"
     = None.
Proof.
  induction l as [|[d m] l IH]; intros w Hauth Hact Hfresh;
    cbn [quiet handled];
    [intros _; split; [reflexivity|split; assumption]|].
  intros (Hd & Hinv & Hq).
  pose proof (handled_clock _ _ Hq) as Hlater.
  pose proof (onMessage_clock m (elapse d w)) as Hm.
  change (now (elapse d w)) with (now w + d) in Hm.
  assert (Hstep :
    documentsCache (snd (onMessage server local_time printPage m (elapse d w)))
      = documentsCache w
    /\ authenticated (snd (onMessage server local_time printPage m (elapse d w)))
    /\ activeRequests (snd (onMessage server local_time printPage m (elapse d w)))
         !! "documents_0" = None).
  { destruct Hauth as [Hu Hk].
    destruct m as [u k|pn|rq|rq]; cbn [onMessage snd fst] in *.
    - destruct (handleAuth_frame server u k (elapse d w))
        as (Hr & _ & [(H1 & H2 & H3)|(res & H1 & H2)]).
      + split; [exact H3|]. split; [split; [rewrite H1; exact Hu|rewrite H2; exact Hk]|]. now rewrite Hr.
      + rewrite H1 in Hinv. cbn in Hinv. congruence.
    - destruct (getDocuments_frame server
                  (if truthy_num pn then default 0 pn else 0) (elapse d w))
        as (H1 & H2 & _ & H4).
      split; [|split; [split; [rewrite H1; exact Hu|rewrite H2; exact Hk]|]].
      + destruct (Z.eq_dec (if truthy_num pn then default 0 pn else 0) 0)
          as [->|Hp].
        * destruct (getDocuments_fresh server (elapse d w))
            as (w' & -> & _ & Hc & _);
            [split; assumption|exact Hact| |exact Hc].
          apply Hfresh;
            [change (now w <= now w + d); lia
            |exact (Z.le_trans _ _ _ Hm Hlater)].
        * destruct (getDocuments server _ (elapse d w)) as [o w'] eqn:E.
          exact (getDocuments_other_pages _ _ _ _ _ Hp E).
      + destruct (Z.eq_dec (if truthy_num pn then default 0 pn else 0) 0)
          as [->|Hp].
        * destruct (getDocuments_fresh server (elapse d w))
            as (w' & -> & _ & _ & Hr);
            [split; assumption|exact Hact| |].
          -- apply Hfresh;
               [change (now w <= now w + d); lia
               |exact (Z.le_trans _ _ _ Hm Hlater)].
          -- cbn [snd]. now rewrite Hr.
        * rewrite H4; [exact Hact|].
          change "documents_0" with ("documents_" ++ string_of_Z 0).
          intros E. apply documents_key_inj in E. congruence.
    - destruct (clipContent_frame server local_time rq (elapse d w))
        as (H1 & H2 & _ & H4 & [H5|(_ & res & H5 & H6)]).
      + split; [exact H5|]. split; [split; [rewrite H1; exact Hu|rewrite H2; exact Hk]|].
        rewrite H4 by discriminate. exact Hact.
      + rewrite H5 in Hinv. cbn in Hinv. congruence.
    - destruct (clipPdf_frame server local_time printPage rq (elapse d w))
        as (H1 & H2 & _ & H4 & [H5|(_ & res & H5 & H6)]).
      + split; [exact H5|]. split; [split; [rewrite H1; exact Hu|rewrite H2; exact Hk]|].
        rewrite H4 by discriminate. exact Hact.
      + rewrite H5 in Hinv. cbn in Hinv. congruence. }
  destruct Hstep as (Hc & Hauth' & Hact').
  destruct (IH _ Hauth' Hact') as (IH1 & IH2 & IH3); [|exact Hq|].
  - intros n Hn1 Hn2. rewrite Hc. apply Hfresh; [lia|exact Hn2].
  - split; [congruence|]. split; assumption.
Qed.

(** After a reset of the cache: no message other than a read of the
    first page or an authentication fills it, and the session holds. *)
Lemma other_work_keeps l : forall w,
  Forall (fun wm : Z * message => other_work (snd wm) = true) l ->
  data (documentsCache w) = None -> authenticated w ->
  data (documentsCache (handled server local_time printPage l w)) = None
  /\ authenticated (handled server local_time printPage l w).
Proof.
  induction l as [|[d m] l IH]; intros w Hl Hdata Hauth; cbn [handled];
    [split; assumption|].
  apply Forall_cons in Hl as [Hm Hl]. cbn [snd] in Hm.
  destruct Hauth as [Hu Hk].
  apply IH; [exact Hl| |];
    destruct m as [u k|pn|rq|rq]; cbn [onMessage snd other_work] in *;
    try discriminate Hm.
  - rewrite Hm.
    destruct (getDocuments server (default 0 pn) (elapse d w)) as [o w'] eqn:E.
    assert (Hp : default 0 pn <> 0).
    { destruct pn as [z|]; [|discriminate]. cbn in *.
      apply negb_true_iff, Z.eqb_neq in Hm. exact Hm. }
    cbn [snd]. rewrite (getDocuments_other_pages _ _ _ _ _ Hp E). exact Hdata.
  - destruct (clipContent_frame server local_time rq (elapse d w))
      as (_ & _ & _ & _ & [H5|(H5 & _)]); rewrite H5; [exact Hdata|reflexivity].
  - destruct (clipPdf_frame server local_time printPage rq (elapse d w))
      as (_ & _ & _ & _ & [H5|(H5 & _)]); rewrite H5; [exact Hdata|reflexivity].
  - destruct (getDocuments_frame server
                (if truthy_num pn then default 0 pn else 0) (elapse d w))
      as (H1 & H2 & _). split; [rewrite H1; exact Hu|rewrite H2; exact Hk].
  - destruct (clipContent_frame server local_time rq (elapse d w))
      as (H1 & H2 & _). split; [rewrite H1; exact Hu|rewrite H2; exact Hk].
  - destruct (clipPdf_frame server local_time printPage rq (elapse d w))
      as (H1 & H2 & _). split; [rewrite H1; exact Hu|rewrite H2; exact Hk].
Qed.
End Messages.




(** ** Documents that cannot take a clip *)

Lemma resolve_target_calls server url key request w0 o w1 :
  resolve_target server url key request w0 = (o, w1) ->
  exists calls,
    sent w1 = (sent w0 ++ calls)%list
    /\ Forall (fun c => is_put c = false) calls.
Proof.
  intros H. unfold_run H.
  repeat split_run H; inversion H; subst;
    first [ exists []; split; [symmetry; apply app_nil_r|constructor]
          | eexists [_]; split; [reflexivity|repeat constructor] ].
Qed.

(** C3.  An authenticated [clipContent] whose fetch of the target
    document returns a document with no field or with more than one field
    returns [success: false] with the error of that case, and among the
    calls it has made there is no PUT: the document is not written. *)
Theorem clipContent_ineligible_document server local_time request (w : world)
    (url key : string) (created : clip_result) (w1 : world)
    (ms : Z) (resp : response) (doc : json) :
  stored_serverUrl w = Some url -> truthy (Some url) = true ->
  stored_accessToken w = Some key -> truthy (Some key) = true ->
  activeRequests w !! "clipContent" = None ->
  resolve_target server url key request (register "clipContent" w)
    = (Ret created, w1) ->
  success created = true ->
  server (sent w1) (document_request url key (documentId created))
    = Answers ms resp ->
  ms < default_timeout -> ok resp = true -> body resp = Json doc ->
  field_count doc <> 1%nat ->
  exists r w' calls,
    clipContent server local_time request w = (Ret (Settled r), w')
    /\ success r = false
    /\ error r = Some (if (1 <? field_count doc)%nat
                       then form_based_error else no_fields_error)
    /\ sent w' = (sent w ++ calls)%list
    /\ Forall (fun c => is_put c = false) calls.
Proof.
  intros Hurl Turl Hkey Tkey Hact Hres Hsucc Hsrv Hms Hok Hbody Hcount.
  destruct (resolve_target_calls _ _ _ _ _ _ _ Hres) as (calls & Hcalls & Hnp).
  cbv beta iota zeta delta
    [clipContent with_active_request try_catch bind get ret].
  rewrite Hact. reads. rewrite Hurl, Hkey, Turl, Tkey.
  cbn [negb orb default]. unfold id. cbv beta. rewrite Hres. cbv beta iota.
  rewrite Hsucc. cbn [negb].
  erewrite fetchWithTimeout_answers by eassumption.
  rewrite Hok. cbn [negb]. unfold json_of. rewrite Hbody. unfold ret.
  unfold field_count in *. unfold has_many_fields, has_no_fields.
  destruct (j_fields doc) as [[|f [|g fs]]|] eqn:Hf;
    [ | exfalso; apply Hcount; reflexivity | | ];
    cbn [length Nat.ltb Nat.leb Nat.eqb];
    (eexists; eexists;
     exists (calls ++
             [{| call_abort_after := Some default_timeout;
                 call_request :=
                   document_request url key (documentId created) |}])%list;
     split; [reflexivity|]; split; [reflexivity|]; split; [reflexivity|];
     split;
     [ cbn [sent finally_delete set_active network]; rewrite Hcalls;
       rewrite <- app_assoc; reflexivity
     | apply Forall_app; split; [exact Hnp|repeat constructor] ]).
Qed.

Lemma clipContent_form_document :
  field_count Scenario.form_document <> 1%nat
  /\ exists r w' calls,
       clipContent Scenario.form_server Scenario.afternoon
         Scenario.clip_into_42 Scenario.session = (Ret (Settled r), w')
       /\ success r = false
       /\ error r = Some (if (1 <? field_count Scenario.form_document)%nat
                          then form_based_error else no_fields_error)
       /\ sent w' = (sent Scenario.session ++ calls)%list
       /\ Forall (fun c => is_put c = false) calls.
Proof.
  assert (H : field_count Scenario.form_document <> 1%nat)
    by (vm_compute; discriminate).
  split; [exact H|].
  exact (clipContent_ineligible_document Scenario.form_server
           Scenario.afternoon Scenario.clip_into_42 Scenario.session
           "https://rspace.example" "secret"
           {| success := true; error := None; documentId := Some 42;
              globalId := Some "SD42" |}
           (register "clipContent" Scenario.session) 20
           {| status := 200; body := Json Scenario.form_document |}
           Scenario.form_document
           eq_refl eq_refl eq_refl eq_refl eq_refl eq_refl eq_refl eq_refl
           ltac:(reflexivity) eq_refl eq_refl H).
Defined.

(** ** The timestamp *)

Lemma all_plain_app a b : all_plain (a ++ b) = (all_plain a && all_plain b)%bool.
Proof.
  induction a as [|c a IH]; [reflexivity|].
  rewrite append_cons. cbn [all_plain]. rewrite IH. now rewrite andb_assoc.
Qed.

Lemma escape_each_plain s : all_plain s = true -> escape_each s = s.
Proof.
  induction s as [|c s IH]; [reflexivity|].
  cbn [all_plain escape_each]. intros H.
  apply andb_true_iff in H as [Hc Hs]. rewrite (IH Hs).
  unfold plain in Hc. apply negb_true_iff in Hc.
  repeat (apply orb_false_iff in Hc as [Hc ?]).
  unfold entity_of.
  repeat match goal with H : Ascii.eqb _ _ = false |- _ => rewrite H; clear H end.
  reflexivity.
Qed.

Lemma string_of_uint_plain u : all_plain (NilEmpty.string_of_uint u) = true.
Proof. induction u; cbn [NilEmpty.string_of_uint all_plain]; now rewrite ?IHu. Qed.

Lemma string_of_Z_plain n : all_plain (string_of_Z n) = true.
Proof.
  unfold string_of_Z, NilZero.string_of_int, NilZero.string_of_uint.
  destruct (Z.to_int n) as [u|u]; destruct u;
    try reflexivity; try apply string_of_uint_plain;
    cbn [all_plain]; cbn [NilEmpty.string_of_uint all_plain];
    now rewrite ?string_of_uint_plain.
Qed.

Lemma pad2_plain n : all_plain (pad2 n) = true.
Proof.
  unfold pad2. destruct (String.length (string_of_Z n) <? 2)%nat.
  - rewrite all_plain_app, string_of_Z_plain. reflexivity.
  - apply string_of_Z_plain.
Qed.

Lemma formatTimestamp_plain d : all_plain (formatTimestamp d) = true.
Proof.
  unfold formatTimestamp.
  destruct (0 <=? - getTimezoneOffset d);
    destruct (0 <? Z.abs (- getTimezoneOffset d) mod 60);
    rewrite ?all_plain_app, ?string_of_Z_plain, ?pad2_plain; reflexivity.
Qed.

Lemma escapeHtml_formatTimestamp d :
  escapeHtml (Some (formatTimestamp d)) = formatTimestamp d.
Proof. rewrite escapeHtml_each. apply escape_each_plain, formatTimestamp_plain. Qed.

(** ** The end-to-end clip *)

Lemma formatClippedContent_notes d :
  formatClippedContent notes_request (formatTimestamp d)
  = clipped_block "https://x.com" "X" (formatTimestamp d) "<p>hi</p>".
Proof.
  unfold formatClippedContent, clipped_block.
  rewrite escapeHtml_formatTimestamp.
  change (escapeHtml (sourceUrl notes_request)) with "https://x.com".
  change (escapeHtml (sourceTitle notes_request)) with "X".
  change (sanitizeClippedHtml (content_html notes_request)) with "<p>hi</p>".
  cbn [truthy note notes_request].
  rewrite !append_assoc. reflexivity.
Qed.

(** C2.  The clip of [<p>hi</p>] from https://x.com, titled X, without
    note, into a new document [Notes], by an authenticated worker against
    a server whose create answers id 42 and global id SD42, whose fetch
    answers that document with one field of empty content and which
    accepts the update: the result is [{success: true, documentId: 42,
    globalId: "SD42"}]; the worker makes the three calls create, fetch
    and update, and the content of the field in the PUT is the
    attribution wrapper with [Clipped from <a href="https://x.com">X</a>
    on <timestamp>], no note paragraph, and [<p>hi</p>] in the inner
    [div]. *)
Theorem clipContent_new_document_end_to_end server local_time (w : world)
    (url key : string) (ms1 ms2 ms3 : Z) (resp1 resp2 resp3 : response)
    (newDoc doc : json) (fid : option Z) :
  let create := create_request url key (Some "Notes") in
  let fetched := document_request url key (Some 42) in
  let timestamp := formatTimestamp (local_time (now w + ms1 + ms2)) in
  let content := clipped_block "https://x.com" "X" timestamp "<p>hi</p>" in
  let update := update_request url key (Some 42) fid content in
  stored_serverUrl w = Some url -> truthy (Some url) = true ->
  stored_accessToken w = Some key -> truthy (Some key) = true ->
  activeRequests w !! "clipContent" = None ->
  server (sent w) create = Answers ms1 resp1 ->
  ms1 < default_timeout -> ok resp1 = true -> body resp1 = Json newDoc ->
  j_id newDoc = Some 42 -> j_globalId newDoc = Some "SD42" ->
  server (sent w ++ [bounded create])%list fetched = Answers ms2 resp2 ->
  ms2 < default_timeout -> ok resp2 = true -> body resp2 = Json doc ->
  j_fields doc = Some [{| field_id := fid; field_content := Some EmptyString |}] ->
  server (sent w ++ [bounded create; bounded fetched])%list update
    = Answers ms3 resp3 ->
  ms3 < default_timeout -> ok resp3 = true ->
  exists w',
    clipContent server local_time notes_request w
    = (Ret (Settled {| success := true; error := None;
                       documentId := Some 42; globalId := Some "SD42" |}), w')
    /\ sent w' = (sent w ++ [bounded create; bounded fetched; bounded update])%list
    /\ req_body update = UpdateBody fid content.
Proof.
  intros create fetched timestamp content update.
  intros Hurl Turl Hkey Tkey Hact H1 Hms1 Hok1 Hb1 Hid Hgid
         H2 Hms2 Hok2 Hb2 Hf H3 Hms3 Hok3.
  cbv beta iota zeta delta
    [clipContent with_active_request try_catch bind get ret modify
     resolve_target createDocument].
  rewrite Hact. reads. rewrite Hurl, Hkey, Turl, Tkey.
  cbn [negb orb default]. unfold id. cbv beta.
  change (isNew (targetDoc notes_request)) with true. cbv iota.
  change (target_title (targetDoc notes_request)) with (Some "Notes").
  cbv beta.
  erewrite fetchWithTimeout_answers by (reads; eassumption).
  rewrite Hok1. cbn [negb]. unfold json_of at 1. rewrite Hb1. unfold ret.
  cbn [success negb documentId globalId]. rewrite Hid, Hgid.
  erewrite fetchWithTimeout_answers by eassumption.
  rewrite Hok2. cbn [negb]. unfold json_of. rewrite Hb2. unfold ret.
  unfold has_many_fields, has_no_fields, first_content, first_id.
  rewrite Hf. cbn [length Nat.ltb Nat.leb Nat.eqb field_content field_id
                   or_else truthy default].
  change (now (network (bounded fetched) ms2
                 (network (bounded create) ms1 (register "clipContent" w))))
    with (now w + ms1 + ms2).
  rewrite formatClippedContent_notes. rewrite append_nil_l.
  assert (H3' : server ((sent w ++ [bounded create]) ++ [bounded fetched])%list
                  update = Answers ms3 resp3)
    by (rewrite <- app_assoc; exact H3).
  erewrite fetchWithTimeout_answers by first [exact H3' | exact Hms3].
  rewrite Hok3. cbn [negb].
  eexists. split; [reflexivity|]. split; [|reflexivity].
  cbn [sent finally_delete set_active set_cache network register].
  rewrite <- !app_assoc. reflexivity.
Qed.

Lemma clipContent_notes_on_session :
  exists w',
    clipContent Scenario.notes_server Scenario.afternoon notes_request
      Scenario.session
    = (Ret (Settled {| success := true; error := None;
                       documentId := Some 42; globalId := Some "SD42" |}), w')
    /\ sent w' =
       (sent Scenario.session ++
        [bounded (create_request "https://rspace.example" "secret"
                    (Some "Notes"));
         bounded (document_request "https://rspace.example" "secret"
                    (Some 42));
         bounded (update_request "https://rspace.example" "secret" (Some 42)
                    (Some 7)
                    (clipped_block "https://x.com" "X"
                       "2026-01-08 14:35:02 GMT+1" "<p>hi</p>"))])%list
    /\ req_body
         (update_request "https://rspace.example" "secret" (Some 42) (Some 7)
            (clipped_block "https://x.com" "X" "2026-01-08 14:35:02 GMT+1"
               "<p>hi</p>"))
       = UpdateBody (Some 7)
           (clipped_block "https://x.com" "X" "2026-01-08 14:35:02 GMT+1"
              "<p>hi</p>").
Proof.
  exact (clipContent_new_document_end_to_end Scenario.notes_server
           Scenario.afternoon Scenario.session
           "https://rspace.example" "secret" 20 20 20
           {| status := 201; body := Json Scenario.notes_document |}
           {| status := 200; body := Json Scenario.notes_document |}
           {| status := 200; body := Json Scenario.notes_document |}
           Scenario.notes_document Scenario.notes_document (Some 7)
           eq_refl eq_refl eq_refl eq_refl eq_refl
           eq_refl ltac:(reflexivity) eq_refl eq_refl eq_refl eq_refl
           eq_refl ltac:(reflexivity) eq_refl eq_refl eq_refl
           eq_refl ltac:(reflexivity) eq_refl).
Defined.

(** ** The two passes of the sanitizer on a nested pattern *)

(** C1 fails on the code.  For the markup [<p>javajavascript:script:</p>]
    the structural pass keeps the paragraph and its text, the
    post-assembly pass deletes the inner [javascript:] once, and the
    output of the two passes is [<p>javascript:</p>], which contains the
    substring [javascript:]. *)
Theorem sanitizer_output_contains_javascript parseFragment resolveUrl :
  parseFragment Scenario.nested_markup = Scenario.nested_fragment ->
  Content.cleanHtml parseFragment resolveUrl Scenario.nested_markup
    = "<p>javajavascript:script:</p>"
  /\ sanitizeClippedHtml
       (Some (Content.cleanHtml parseFragment resolveUrl Scenario.nested_markup))
     = "<p>javascript:</p>"
  /\ contains "javascript:"
       (sanitizeClippedHtml
          (Some (Content.cleanHtml parseFragment resolveUrl
                   Scenario.nested_markup))).
Proof.
  intros Hparse. unfold Content.cleanHtml. rewrite Hparse.
  split; [vm_compute; reflexivity|].
  split; [vm_compute; reflexivity|].
  exists "<p>", "</p>". vm_compute. reflexivity.
Qed.

Lemma sanitizer_output_contains_javascript_parsed :
  Scenario.nested_parser Scenario.nested_markup = Scenario.nested_fragment
  /\ Content.cleanHtml Scenario.nested_parser Scenario.no_resolver
       Scenario.nested_markup
     = "<p>javajavascript:script:</p>"
  /\ sanitizeClippedHtml
       (Some (Content.cleanHtml Scenario.nested_parser Scenario.no_resolver
                Scenario.nested_markup))
     = "<p>javascript:</p>"
  /\ contains "javascript:"
       (sanitizeClippedHtml
          (Some (Content.cleanHtml Scenario.nested_parser Scenario.no_resolver
                   Scenario.nested_markup))).
Proof.
  split; [reflexivity|].
  exact (sanitizer_output_contains_javascript Scenario.nested_parser
           Scenario.no_resolver eq_refl).
Defined.

(** The second pattern of the post-assembly pass can also remove the
    closing quote of an attribute value: the text of the [src] attribute
    is then outside of any quoted value, and what the third pattern leaves
    of it reads as an attribute [onerror]. *)
Lemma sanitizer_unquotes_attribute resolveUrl :
  innerHTML (Content.clean_fragment resolveUrl Scenario.quote_fragment)
    = "<img title=" ++ quoted "onx='" ++ " src="
      ++ quoted "http://e/ onerror onx=1 =alert(1) " ++ ">"
  /\ sanitizeClippedHtml
       (Some (innerHTML (Content.clean_fragment resolveUrl
                           Scenario.quote_fragment)))
     = "<img title=" ++ quoted " src=" ++ "http://e/ onerror  =alert(1) "
       ++ String dquote ">".
Proof. split; vm_compute; reflexivity. Qed.

(** ** Timeouts of the PDF clip *)

(** C8 fails on the code.  In [clipPdf] the upload of the file is a call
    without abort signal: an answer that takes ten minutes is waited for,
    and an upload that is never answered leaves the clip pending for ever,
    its key still in [activeRequests].  A timeout of the fetch of the
    document in [linkFileToDocument] is reported as [Failed to link PDF
    to document], not as a request timeout. *)
Theorem clipPdf_upload_without_timeout :
  (fst (clipPdf Scenario.slow_upload_server Scenario.afternoon
          Scenario.pdf_tab Scenario.clip_into_42 Scenario.session)
   = Ret (Settled {| success := true; error := None;
                     documentId := Some 42; globalId := Some "SD42" |})
   /\ map call_abort_after
        (sent (snd (clipPdf Scenario.slow_upload_server Scenario.afternoon
                      Scenario.pdf_tab Scenario.clip_into_42 Scenario.session)))
      = [None; Some 30000; Some 30000]
   /\ now (snd (clipPdf Scenario.slow_upload_server Scenario.afternoon
                  Scenario.pdf_tab Scenario.clip_into_42 Scenario.session))
      = now Scenario.session + 10 * 60 * 1000 + 20 + 20)
  /\ (fst (clipPdf Scenario.hanging_upload_server Scenario.afternoon
             Scenario.pdf_tab Scenario.clip_into_42 Scenario.session)
      = Pending
      /\ activeRequests
           (snd (clipPdf Scenario.hanging_upload_server Scenario.afternoon
                   Scenario.pdf_tab Scenario.clip_into_42 Scenario.session))
         !! "clipPdf" = Some 0%nat)
  /\ fst (clipPdf Scenario.unlinked_server Scenario.afternoon
            Scenario.pdf_tab Scenario.clip_into_42 Scenario.session)
     = Ret (Settled (failure "Failed to link PDF to document")).
Proof. repeat split; vm_compute; reflexivity. Qed.

(** The other calls of the background script go through
    [fetchWithTimeout] with 30 seconds, and a timeout there has the
    message [Request timeout]. *)
Lemma fetchWithTimeout_silent server req w :
  server (sent w) req = Silent ->
  fetchWithTimeout server req default_timeout w
  = (Throw (Error "Request timeout"),
     network {| call_abort_after := Some 30000; call_request := req |} 30000 w).
Proof.
  intros H. unfold fetchWithTimeout, try_catch, fetch. rewrite H. reflexivity.
Qed.

(* ===================================================================== *)
(** * Further properties of the code                                      *)
(* ===================================================================== *)

(** ** The structural pass *)

Section StructuralPass.
Import Content Fragments.
Variable resolveUrl : string -> option string.

Lemma node_induction (P : node -> Prop) :
  (forall d, P (Text d)) -> (forall d, P (Comment d)) ->
  (forall t a cs, Forall P cs -> P (Element t a cs)) ->
  forall n, P n.
Proof.
  intros HT HC HE. fix IH 1. intros [d|d|t a cs].
  - apply HT.
  - apply HC.
  - apply HE. induction cs as [|c cs IHcs]; constructor; [apply IH|exact IHcs].
Qed.

(** The children that [remove_matching] keeps. *)
Lemma remove_matching_element sel t a cs :
  remove_matching sel (Element t a cs)
  = Element t a (remove_all sel cs).
Proof. reflexivity. Qed.

Lemma remove_all_nil sel : remove_all sel [] = [].
Proof. reflexivity. Qed.

Lemma remove_all_cons sel c l :
  remove_all sel (c :: l)
  = if sel c then remove_all sel l
    else remove_matching sel c :: remove_all sel l.
Proof. unfold remove_all. cbn. destruct (sel c); reflexivity. Qed.

Lemma Every_element P t a cs :
  Every P (Element t a cs) <-> P (Element t a cs) /\ Forall (Every P) cs.
Proof.
  cbn [Every]. split; intros [H1 H2]; (split; [exact H1|]); clear H1.
  - induction cs as [|c cs IH]; constructor; [apply H2|apply IH, H2].
  - induction H2 as [|c cs Hc _ IH]; [exact I|split; assumption].
Qed.

Lemma remove_all_Forall (Q : node -> Prop) sel l :
  Forall (fun c => Q c -> Q (remove_matching sel c)) l ->
  Forall Q l -> Forall Q (remove_all sel l).
Proof.
  induction 1 as [|c l Hc _ IH]; intros HQ; [constructor|].
  rewrite remove_all_cons. apply Forall_cons in HQ as [Hq Hl].
  destruct (sel c); [apply IH, Hl|].
  constructor; [apply Hc, Hq|apply IH, Hl].
Qed.

Lemma remove_matching_Every P sel n :
  shallow P -> Every P n -> Every P (remove_matching sel n).
Proof.
  intros HP. induction n as [d|d|t a cs IH] using node_induction;
    [intros; exact I|intros; exact I|].
  rewrite remove_matching_element, !Every_element. intros [H1 H2].
  split; [eapply HP, H1|]. now apply remove_all_Forall.
Qed.

Lemma remove_all_Every P sel l :
  shallow P -> Forall (Every P) l -> Forall (Every P) (remove_all sel l).
Proof.
  intros HP. apply remove_all_Forall. apply Forall_forall.
  intros c _. now apply remove_matching_Every.
Qed.

(** After the removal of [sel] no element of the subtrees is [sel]. *)
Lemma remove_matching_gone sel n :
  (forall t a cs cs', sel (Element t a cs) = sel (Element t a cs')) ->
  sel n = false ->
  Every (fun m => sel m = false) (remove_matching sel n).
Proof.
  intros Hsel. induction n as [d|d|t a cs IH] using node_induction;
    [intros; exact I|intros; exact I|].
  intros Hn. rewrite remove_matching_element, Every_element.
  split; [now rewrite (Hsel t a _ cs)|].
  clear Hn. induction IH as [|c l Hc _ IHl]; [constructor|].
  rewrite remove_all_cons. destruct (sel c) eqn:E; [exact IHl|].
  constructor; [apply Hc; reflexivity|exact IHl].
Qed.

Lemma remove_all_gone sel l :
  (forall t a cs cs', sel (Element t a cs) = sel (Element t a cs')) ->
  Forall (Every (fun m => sel m = false)) (remove_all sel l).
Proof.
  intros Hsel. induction l as [|c l IH]; [constructor|].
  rewrite remove_all_cons. destruct (sel c) eqn:E; [exact IH|].
  constructor; [now apply remove_matching_gone|exact IH].
Qed.

Lemma Every_impl (P Q : node -> Prop) n :
  (forall m, P m -> Q m) -> Every P n -> Every Q n.
Proof.
  intros HPQ. induction n as [d|d|t a cs IH] using node_induction;
    [intros; exact I|intros; exact I|].
  rewrite !Every_element. intros [H1 H2]. split; [apply HPQ, H1|].
  rewrite Forall_forall in IH. rewrite Forall_forall in H2.
  apply Forall_forall. intros c Hc. apply IH; [exact Hc|apply H2, Hc].
Qed.

Lemma Every_and (P Q : node -> Prop) n :
  Every P n -> Every Q n -> Every (fun m => P m /\ Q m) n.
Proof.
  induction n as [d|d|t a cs IH] using node_induction; [trivial|trivial|].
  rewrite !Every_element. intros [H1 H2] [H3 H4]. split; [split; assumption|].
  rewrite Forall_forall in IH. rewrite Forall_forall in H2, H4.
  apply Forall_forall. intros c Hc. apply IH; auto.
Qed.

Lemma map_attrs_Every (P Q : node -> Prop) f n :
  (forall t a cs cs', P (Element t a cs) -> Q (Element t (f a) cs')) ->
  Every P n -> Every Q (map_attrs f n).
Proof.
  intros HPQ. induction n as [d|d|t a cs IH] using node_induction;
    [intros; exact I|intros; exact I|].
  cbn [map_attrs]. rewrite !Every_element. intros [H1 H2].
  split; [eapply HPQ, H1|].
  rewrite Forall_forall in IH. rewrite Forall_forall in H2.
  apply Forall_forall. intros c' Hc'.
  apply list_elem_of_fmap in Hc' as (c & -> & Hc).
  apply IH; [exact Hc|apply H2, Hc].
Qed.

End StructuralPass.

Section StructuralPass2.
Import Content Fragments.
Variable resolveUrl : string -> option string.

Lemma Every_True n : Every (fun _ => True) n.
Proof.
  induction n as [d|d|t a cs IH] using node_induction; [exact I|exact I|].
  apply Every_element. split; [exact I|exact IH].
Qed.

Lemma Forall_Every_impl (P Q : node -> Prop) l :
  (forall m, P m -> Q m) -> Forall (Every P) l -> Forall (Every Q) l.
Proof.
  intros H HP. eapply Forall_impl; [exact HP|]. intros n. now apply Every_impl.
Qed.

Lemma Forall_Every_and (P Q : node -> Prop) l :
  Forall (Every P) l -> Forall (Every Q) l ->
  Forall (Every (fun m => P m /\ Q m)) l.
Proof.
  induction 1 as [|n l Hn _ IH]; intros HQ; [constructor|].
  apply Forall_cons in HQ as [Hq Hl].
  constructor; [now apply Every_and|now apply IH].
Qed.

Lemma shallow_none_of tags : shallow (none_of tags).
Proof. intros t a cs cs' H tag Hin. exact (H tag Hin). Qed.

Lemma remove_tags_none_of tags :
  forall done l,
    Forall (Every (none_of done)) l ->
    Forall (Every (none_of (done ++ tags)))
      (fold_left (fun l tag => remove_all (tag_is tag) l) tags l).
Proof.
  induction tags as [|tag tags IH]; intros done l Hl.
  - cbn [fold_left]. now rewrite app_nil_r.
  - cbn [fold_left].
    replace (done ++ tag :: tags)%list with ((done ++ [tag]) ++ tags)%list
      by (rewrite <- app_assoc; reflexivity).
    apply IH.
    eapply Forall_Every_impl;
      [|apply Forall_Every_and;
         [apply (remove_all_Every _ (tag_is tag) l (shallow_none_of done)), Hl
         |apply (remove_all_gone (tag_is tag) l); reflexivity]].
    intros m [H1 H2] tag' Hin. apply in_app_or in Hin as [Hin|[<-|[]]].
    + exact (H1 _ Hin).
    + exact H2.
Qed.

Lemma keep_attr_allowed nv :
  keep_attr nv = true ->
  In (fst nv) safeAttrs /\ startsWith "on" (fst nv) = false.
Proof.
  unfold keep_attr. intros H. apply negb_true_iff, orb_false_iff in H as [H1 H2].
  apply negb_false_iff in H2. split; [now apply mem_In|exact H1].
Qed.

Lemma removeAttribute_Forall (Q : string * string -> Prop) name a :
  Forall Q a -> Forall Q (removeAttribute name a).
Proof.
  intros H. unfold removeAttribute. apply Forall_forall. intros x Hx.
  apply list_elem_of_filter in Hx as [_ Hx].
  rewrite Forall_forall in H. now apply H.
Qed.

Lemma setAttribute_Forall (Q : string * string -> Prop) name value a :
  Q (name, value) -> Forall Q a -> Forall Q (setAttribute name value a).
Proof.
  intros Hq. induction 1 as [|[n v] a Hx Ha IH]; cbn [setAttribute].
  - constructor; [exact Hq|constructor].
  - destruct (String.eqb_spec n name) as [->|Hn];
      constructor; assumption.
Qed.

Lemma sanitize_attrs_allowed a : Forall allowed_name (sanitize_attrs resolveUrl a).
Proof.
  assert (H0 : Forall allowed_name (filter keep_attr a)).
  { apply Forall_forall. intros x Hx. apply list_elem_of_filter in Hx as [Hk _].
    apply keep_attr_allowed. now apply Is_true_true. }
  assert (Hh : allowed_name ("href", EmptyString))
    by (split; [cbn; tauto|reflexivity]).
  assert (Hs : allowed_name ("src", EmptyString))
    by (split; [cbn; tauto|reflexivity]).
  assert (H1 : Forall allowed_name (sanitize_href resolveUrl (filter keep_attr a))).
  { unfold sanitize_href.
    repeat match goal with
           | |- context [match ?x with _ => _ end] => destruct x
           end;
      first [ exact H0 | now apply removeAttribute_Forall
            | apply setAttribute_Forall; [exact Hh|exact H0] ]. }
  unfold sanitize_attrs, sanitize_src.
  repeat match goal with
         | |- context [match ?x with _ => _ end] => destruct x
         end;
    first [ exact H1 | now apply removeAttribute_Forall
          | apply setAttribute_Forall; [exact Hs|exact H1] ].
Qed.

Lemma getAttribute_removeAttribute n m a :
  getAttribute n (removeAttribute m a)
  = if String.eqb n m then None else getAttribute n a.
Proof.
  unfold removeAttribute. induction a as [|[k v] a IH].
  - cbn. now destruct (String.eqb n m).
  - rewrite filter_cons. cbn [fst getAttribute].
    destruct (String.eqb_spec k m) as [->|Hkm]; cbn [negb].
    + rewrite decide_False by (intros []). rewrite IH.
      destruct (String.eqb_spec n m) as [->|Hnm]; [reflexivity|].
      now rewrite (proj2 (String.eqb_neq m n)) by congruence.
    + rewrite decide_True by exact I. cbn [getAttribute]. rewrite IH.
      destruct (String.eqb_spec k n) as [->|Hkn]; [|reflexivity].
      now rewrite (proj2 (String.eqb_neq n m)) by congruence.
Qed.

Lemma getAttribute_setAttribute n m v a :
  getAttribute n (setAttribute m v a)
  = if String.eqb n m then Some v else getAttribute n a.
Proof.
  induction a as [|[k w] a IH]; cbn [setAttribute getAttribute].
  - rewrite (String.eqb_sym m n). now destruct (String.eqb n m).
  - destruct (String.eqb_spec k m) as [->|Hkm]; cbn [getAttribute].
    + rewrite (String.eqb_sym m n). now destruct (String.eqb n m).
    + rewrite IH. destruct (String.eqb_spec k n) as [->|Hkn]; [|reflexivity].
      now rewrite (proj2 (String.eqb_neq n m)) by congruence.
Qed.

Lemma sanitize_href_value a v :
  getAttribute "href" (sanitize_href resolveUrl a) = Some v ->
  (dangerous_scheme v = false
   /\ (startsWith "http://" v = true \/ startsWith "https://" v = true
       \/ startsWith "#" v = true))
  \/ exists u, dangerous_scheme u = false /\ resolveUrl u = Some v.
Proof.
  unfold sanitize_href. destruct (getAttribute "href" a) as [href|] eqn:E;
    [|intros H; congruence].
  cbv zeta. fold (dangerous_scheme href).
  destruct (dangerous_scheme href) eqn:D.
  { rewrite getAttribute_removeAttribute. discriminate. }
  destruct (startsWith "http://" href) eqn:E1; cbn [negb andb].
  { rewrite E. intros [= <-]. left. split; [exact D|now left]. }
  destruct (startsWith "https://" href) eqn:E2; cbn [negb andb].
  { rewrite E. intros [= <-]. left. split; [exact D|right; now left]. }
  destruct (startsWith "#" href) eqn:E3; cbn [negb andb].
  { rewrite E. intros [= <-]. left. split; [exact D|right; now right]. }
  destruct (resolveUrl href) as [u|] eqn:Er.
  - rewrite getAttribute_setAttribute. cbn. intros [= <-].
    right. now exists href.
  - rewrite getAttribute_removeAttribute. discriminate.
Qed.

Lemma sanitize_src_href a :
  getAttribute "href" (sanitize_src resolveUrl a) = getAttribute "href" a.
Proof.
  unfold sanitize_src.
  repeat match goal with
         | |- context [match ?x with _ => _ end] => destruct x
         end;
    rewrite ?getAttribute_setAttribute, ?getAttribute_removeAttribute;
    reflexivity.
Qed.

Lemma getAttribute_keep_attr a :
  getAttribute "href" (filter keep_attr a) = getAttribute "href" a.
Proof.
  induction a as [|[k w] a IH]; [reflexivity|].
  rewrite filter_cons. cbn [getAttribute].
  destruct (String.eqb_spec k "href") as [->|Hk].
  - rewrite decide_True by exact I. reflexivity.
  - destruct (decide (keep_attr (k, w))); [|exact IH].
    cbn [getAttribute]. destruct (String.eqb_spec k "href"); [contradiction|].
    exact IH.
Qed.

Lemma sanitize_attrs_dangerous a href :
  getAttribute "href" a = Some href -> dangerous_scheme href = true ->
  getAttribute "href" (sanitize_attrs resolveUrl a) = None.
Proof.
  intros Ha D. unfold sanitize_attrs. rewrite sanitize_src_href.
  unfold sanitize_href. rewrite getAttribute_keep_attr, Ha. cbv zeta.
  fold (dangerous_scheme href). rewrite D.
  now rewrite getAttribute_removeAttribute.
Qed.

Lemma sanitize_src_value a v :
  getAttribute "src" (sanitize_src resolveUrl a) = Some v ->
  startsWith "http://" (trim (toLowerCase v)) = true
  \/ startsWith "https://" (trim (toLowerCase v)) = true
  \/ startsWith "data:image/" (trim (toLowerCase v)) = true
  \/ exists u, resolveUrl u = Some v.
Proof.
  unfold sanitize_src. destruct (getAttribute "src" a) as [src|] eqn:E;
    [|intros H; congruence].
  destruct (startsWith "http://" (trim (toLowerCase src))) eqn:E1; cbn [orb].
  { rewrite E. intros [= <-]. now left. }
  destruct (startsWith "https://" (trim (toLowerCase src))) eqn:E2.
  { rewrite E. intros [= <-]. right. now left. }
  destruct (startsWith "data:image/" (trim (toLowerCase src))) eqn:E3.
  { rewrite E. intros [= <-]. right. right. now left. }
  destruct (resolveUrl src) as [u|] eqn:Er.
  - rewrite getAttribute_setAttribute. cbn. intros [= <-].
    right. right. right. now exists src.
  - rewrite getAttribute_removeAttribute. discriminate.
Qed.

(** What the attribute loop establishes, kept by the last loop. *)
Lemma clean_fragment_attrs (Q : node -> Prop) l :
  shallow Q ->
  (forall t a cs, Q (Element t (sanitize_attrs resolveUrl a) cs)) ->
  Forall (Every Q) (clean_fragment resolveUrl l).
Proof.
  intros Hsh HQ. unfold clean_fragment. apply remove_all_Every; [exact Hsh|].
  apply Forall_forall. intros n Hn.
  apply list_elem_of_fmap in Hn as (m & -> & _).
  apply (map_attrs_Every (fun _ => True)); [intros; apply HQ|apply Every_True].
Qed.

End StructuralPass2.

Section EmptyElements.
Import Content Fragments.

Lemma blank_app a b : blank (a ++ b) = (blank a && blank b)%bool.
Proof.
  induction a as [|c a IH]; [reflexivity|].
  rewrite append_cons. cbn [blank]. rewrite IH. now rewrite andb_assoc.
Qed.

Lemma trimStart_blank s : blank (trimStart s) = blank s.
Proof.
  induction s as [|c s IH]; [reflexivity|].
  cbn [trimStart]. destruct (is_space c) eqn:E.
  - rewrite IH. cbn [blank]. now rewrite E.
  - reflexivity.
Qed.

Lemma trimEnd_empty s : String.eqb (trimEnd s) EmptyString = blank s.
Proof.
  induction s as [|c s IH]; [reflexivity|].
  cbn [trimEnd blank]. destruct (trimEnd s) as [|x t].
  - cbn in IH. rewrite <- IH. destruct (is_space c); reflexivity.
  - cbn in IH. rewrite <- IH. now rewrite andb_false_r.
Qed.

Lemma trim_empty s : String.eqb (trim s) EmptyString = blank s.
Proof. unfold trim. now rewrite trimEnd_empty, trimStart_blank. Qed.

Lemma textContent_element t a cs :
  textContent (Element t a cs) = concat_strings (map textContent cs).
Proof.
  cbn [textContent]. induction cs as [|c cs IH]; [reflexivity|].
  cbn [map concat_strings]. now rewrite IH.
Qed.

Lemma has_descendant_element sel t a cs :
  has_descendant sel (Element t a cs)
  = existsb (fun c => sel c || has_descendant sel c)%bool cs.
Proof.
  cbn [has_descendant]. induction cs as [|c cs IH]; [reflexivity|].
  cbn [existsb]. now rewrite IH.
Qed.

Lemma blank_concat l :
  blank (concat_strings l) = forallb blank l.
Proof.
  induction l as [|s l IH]; [reflexivity|].
  cbn [concat_strings forallb]. now rewrite blank_app, IH.
Qed.

Lemma is_empty_element_emptiness t a cs :
  is_empty_element (Element t a cs)
  = (fst (emptiness (Element t a cs))
     && negb (snd (emptiness (Element t a cs)))
     && negb (String.eqb t "img"))%bool.
Proof. unfold is_empty_element, emptiness. cbn [fst snd]. now rewrite trim_empty. Qed.

Lemma remove_empty_children cs :
  Forall (fun c => emptiness (remove_matching is_empty_element c) = emptiness c
                   /\ tag_is "img" (remove_matching is_empty_element c)
                      = tag_is "img" c) cs ->
  forallb blank (map textContent (remove_all is_empty_element cs))
  = forallb blank (map textContent cs)
  /\ existsb (fun c => tag_is "img" c || has_descendant (tag_is "img") c)%bool
       (remove_all is_empty_element cs)
     = existsb (fun c => tag_is "img" c || has_descendant (tag_is "img") c)%bool
         cs.
Proof.
  induction 1 as [|c cs [Hc Ht] _ [IH1 IH2]]; [split; reflexivity|].
  rewrite remove_all_cons. cbn [map forallb existsb].
  destruct (is_empty_element c) eqn:E.
  - destruct c as [d|d|t a l]; [discriminate|discriminate|].
    rewrite is_empty_element_emptiness in E.
    apply andb_true_iff in E as [E E3]. apply andb_true_iff in E as [E1 E2].
    apply negb_true_iff in E2, E3. unfold emptiness in E1, E2. cbn [fst snd] in E1, E2.
    rewrite IH1, IH2, E1, E2. cbn [tag_is]. rewrite E3. split; reflexivity.
  - cbn [map forallb existsb]. rewrite IH1, IH2, Ht.
    unfold emptiness in Hc. injection Hc as Hb Hd. rewrite Hb, Hd.
    split; reflexivity.
Qed.

Lemma remove_empty_emptiness n :
  emptiness (remove_matching is_empty_element n) = emptiness n
  /\ tag_is "img" (remove_matching is_empty_element n) = tag_is "img" n.
Proof.
  induction n as [d|d|t a cs IH] using node_induction;
    [split; reflexivity|split; reflexivity|].
  rewrite remove_matching_element. split; [|reflexivity].
  destruct (remove_empty_children cs IH) as [H1 H2].
  unfold emptiness.
  rewrite !textContent_element, !blank_concat, !has_descendant_element.
  now rewrite H1, H2.
Qed.

Lemma remove_empty_has_content n :
  has_content n -> Every has_content (remove_matching is_empty_element n).
Proof.
  induction n as [d|d|t a cs IH] using node_induction;
    [intros; exact I|intros; exact I|].
  intros Hn. rewrite remove_matching_element. apply Every_element. split.
  - unfold has_content in *. rewrite <- Hn.
    rewrite !is_empty_element_emptiness.
    change (Element t a (remove_all is_empty_element cs))
      with (remove_matching is_empty_element (Element t a cs)).
    destruct (remove_empty_emptiness (Element t a cs)) as [-> _].
    reflexivity.
  - clear Hn. induction IH as [|c l Hc _ IHl]; [constructor|].
    rewrite remove_all_cons. destruct (is_empty_element c) eqn:E; [exact IHl|].
    constructor; [apply Hc, E|exact IHl].
Qed.

End EmptyElements.

Section StructuralPassResults.
Import Content Fragments.
Variable resolveUrl : string -> option string.

(** X1.  Whatever the fragment, after the structural pass of [cleanHtml]
    no element of it, at any depth, has one of the sixteen dangerous
    tags. *)
Theorem clean_fragment_no_dangerous_tag (l : list node) :
  Forall (Every tag_allowed) (clean_fragment resolveUrl l).
Proof.
  unfold clean_fragment.
  apply remove_all_Every; [apply shallow_none_of|].
  apply Forall_forall. intros n Hn.
  apply list_elem_of_fmap in Hn as (m & -> & Hm).
  apply (map_attrs_Every tag_allowed);
    [intros t a cs cs' H tag Hin; exact (H tag Hin)|].
  revert m Hm. apply Forall_forall.
  apply (remove_tags_none_of dangerousTags [] l).
  apply Forall_forall. intros m _.
  apply (Every_impl (fun _ => True)); [|apply Every_True].
  intros k _ tag [].
Qed.

(** X2.  After the structural pass every attribute of every element is
    named [href], [src], [alt] or [title]; no attribute name starts with
    [on]. *)
Theorem clean_fragment_attribute_names (l : list node) :
  Forall (Every attrs_allowed) (clean_fragment resolveUrl l).
Proof.
  apply clean_fragment_attrs.
  - intros t a cs cs' H. exact H.
  - intros t a cs. apply sanitize_attrs_allowed.
Qed.

(** X3.  After the structural pass the [href] of an element is a value
    that starts with [http://], [https://] or [#] and with none of
    [javascript:], [data:], [vbscript:] and [file:] (in lower case,
    trimmed), or it is the URL that the resolution against the page
    location returned for a value with none of these four schemes; and
    the attribute pass leaves no [href] on an element whose [href] had
    one of the four schemes.  What the resolution returns is not
    constrained. *)
Theorem clean_fragment_href (l : list node) :
  Forall (Every (href_allowed resolveUrl)) (clean_fragment resolveUrl l)
  /\ forall a href,
       getAttribute "href" a = Some href -> dangerous_scheme href = true ->
       getAttribute "href" (sanitize_attrs resolveUrl a) = None.
Proof.
  split; [|exact (sanitize_attrs_dangerous resolveUrl)].
  apply clean_fragment_attrs.
  - intros t a cs cs' H. exact H.
  - intros t a cs v. cbn [attrs_of]. unfold sanitize_attrs.
    rewrite sanitize_src_href. apply sanitize_href_value.
Qed.

(** X4.  After the structural pass the [src] of an element is, up to
    case and surrounding white space, an [http://] or [https://] URL or a
    [data:image/] URL, or it is the URL that the resolution against the
    page location returned. *)
Theorem clean_fragment_src (l : list node) :
  Forall (Every (src_allowed resolveUrl)) (clean_fragment resolveUrl l).
Proof.
  apply clean_fragment_attrs.
  - intros t a cs cs' H. exact H.
  - intros t a cs v. cbn [attrs_of]. unfold sanitize_attrs.
    apply sanitize_src_value.
Qed.

(** X5.  After the structural pass no empty element is left: every
    element has text that is not blank, or contains an image, or is an
    image, and this also holds of the elements whose empty descendants
    were removed. *)
Theorem clean_fragment_no_empty_element (l : list node) :
  Forall (Every has_content) (clean_fragment resolveUrl l).
Proof.
  unfold clean_fragment.
  generalize (map (map_attrs (sanitize_attrs resolveUrl))
                (fold_left (fun l tag => remove_all (tag_is tag) l)
                   dangerousTags l)).
  intros f. induction f as [|c f IH]; [constructor|].
  rewrite remove_all_cons. destruct (is_empty_element c) eqn:E; [exact IH|].
  constructor; [now apply remove_empty_has_content|exact IH].
Qed.

End StructuralPassResults.

(** ** The post-assembly pass only deletes *)

Lemma subsequence_refl s : subsequence s s.
Proof. induction s; constructor; assumption. Qed.

Lemma subsequence_trans a b c :
  subsequence a b -> subsequence b c -> subsequence a c.
Proof.
  intros Hab Hbc. revert a Hab.
  induction Hbc as [|x b c Hbc IH|x b c Hbc IH]; intros a Hab.
  - exact Hab.
  - constructor. now apply IH.
  - inversion Hab; subst; constructor; now apply IH.
Qed.

Lemma subsequence_length a b : subsequence a b -> (String.length a <= String.length b)%nat.
Proof. induction 1; cbn [String.length]; lia. Qed.

Lemma replace_from_deletes r s :
  forall prev skip, subsequence (replace_from r EmptyString prev skip s) s.
Proof.
  induction s as [|c s IH]; intros prev skip.
  - cbn [replace_from]. destruct skip; [destruct (match_len _ _ _)|];
      constructor.
  - cbn [replace_from]. destruct skip as [|n].
    + destruct (match_len r prev (String c s)) as [[|n]|];
        rewrite ?append_nil_l; constructor; apply IH.
    + constructor. apply IH.
Qed.

Lemma replace_all_deletes r s : subsequence (replace_all r EmptyString s) s.
Proof. apply replace_from_deletes. Qed.

(** X6.  [sanitizeClippedHtml] only deletes: its output is the input
    with some characters removed, in the same order; it is never longer
    than the input and contains no character that the input does not
    contain. *)
Theorem sanitizeClippedHtml_only_deletes (html : string) :
  subsequence (sanitizeClippedHtml (Some html)) html
  /\ (String.length (sanitizeClippedHtml (Some html)) <= String.length html)%nat.
Proof.
  assert (H : subsequence (sanitizeClippedHtml (Some html)) html).
  { destruct html as [|c h]; [constructor|].
    unfold sanitizeClippedHtml.
    repeat (eapply subsequence_trans; [apply replace_all_deletes|]).
    apply subsequence_refl. }
  split; [exact H|now apply subsequence_length].
Qed.

(** ** [escapeHtml] loses nothing *)

Lemma length_append a b :
  String.length (a ++ b) = (String.length a + String.length b)%nat.
Proof.
  induction a as [|c a IH]; [reflexivity|].
  rewrite append_cons. cbn [String.length]. now rewrite IH.
Qed.

Lemma entity_of_plain c : plain c = true -> entity_of c = String c EmptyString.
Proof.
  unfold plain. intros Hc. apply negb_true_iff in Hc.
  repeat (apply orb_false_iff in Hc as [Hc ?]).
  unfold entity_of.
  repeat match goal with H : Ascii.eqb _ _ = false |- _ => rewrite H; clear H end.
  reflexivity.
Qed.

Lemma entity_of_special c :
  plain c = false ->
  exists rest, entity_of c = String "&" rest /\ rest <> EmptyString
               /\ (String.length rest >= 3)%nat.
Proof.
  unfold plain, entity_of. intros Hc. apply negb_false_iff in Hc.
  destruct (Ascii.eqb c "&"); [eexists; repeat split; [discriminate|cbn; lia]|].
  destruct (Ascii.eqb c "<"); [eexists; repeat split; [discriminate|cbn; lia]|].
  destruct (Ascii.eqb c ">"); [eexists; repeat split; [discriminate|cbn; lia]|].
  destruct (Ascii.eqb c dquote); [eexists; repeat split; [discriminate|cbn; lia]|].
  destruct (Ascii.eqb c "'"); [eexists; repeat split; [discriminate|cbn; lia]|].
  discriminate.
Qed.

Lemma plain_ampersand : plain "&" = false.
Proof. reflexivity. Qed.

(** Two characters with the same entity, followed by the same text. *)
Lemma entity_of_cancel c d s t :
  entity_of c ++ s = entity_of d ++ t -> c = d /\ s = t.
Proof.
  unfold entity_of.
  destruct (Ascii.eqb_spec c "&") as [->|C1];
  [|destruct (Ascii.eqb_spec c "<") as [->|C2];
  [|destruct (Ascii.eqb_spec c ">") as [->|C3];
  [|destruct (Ascii.eqb_spec c dquote) as [->|C4];
  [|destruct (Ascii.eqb_spec c "'") as [->|C5]]]]];
  (destruct (Ascii.eqb_spec d "&") as [->|D1];
  [|destruct (Ascii.eqb_spec d "<") as [->|D2];
  [|destruct (Ascii.eqb_spec d ">") as [->|D3];
  [|destruct (Ascii.eqb_spec d dquote) as [->|D4];
  [|destruct (Ascii.eqb_spec d "'") as [->|D5]]]]]);
  rewrite ?append_cons, ?append_nil_l; intros H;
  try discriminate H;
  try (injection H; intros; subst; split; congruence).
Qed.

Lemma escape_each_injective s : forall t, escape_each s = escape_each t -> s = t.
Proof.
  induction s as [|c s IH]; intros [|d t] H.
  - reflexivity.
  - exfalso. cbn [escape_each] in H.
    destruct (plain d) eqn:E.
    + rewrite (entity_of_plain _ E) in H. discriminate.
    + destruct (entity_of_special d E) as (r & Hr & _). rewrite Hr in H.
      discriminate.
  - exfalso. cbn [escape_each] in H.
    destruct (plain c) eqn:E.
    + rewrite (entity_of_plain _ E) in H. discriminate.
    + destruct (entity_of_special c E) as (r & Hr & _). rewrite Hr in H.
      discriminate.
  - cbn [escape_each] in H. apply entity_of_cancel in H as [-> H].
    f_equal. now apply IH.
Qed.

(** X7.  [escapeHtml] is injective: two different strings never have the
    same escaped text, so the escaping loses no information. *)
Theorem escapeHtml_injective (s t : string) :
  escapeHtml (Some s) = escapeHtml (Some t) -> s = t.
Proof. rewrite !escapeHtml_each. apply escape_each_injective. Qed.

Lemma escape_each_length s : (String.length s <= String.length (escape_each s))%nat.
Proof.
  induction s as [|c s IH]; [reflexivity|].
  cbn [escape_each]. destruct (plain c) eqn:E.
  - rewrite entity_of_plain by exact E.
    rewrite append_cons, append_nil_l. cbn [String.length]. lia.
  - destruct (entity_of_special c E) as (r & -> & _ & Hr).
    rewrite append_cons. cbn [String.length].
    rewrite length_append. lia.
Qed.

Lemma escape_each_fixed s : escape_each s = s -> all_plain s = true.
Proof.
  induction s as [|c s IH]; [reflexivity|].
  cbn [escape_each all_plain]. destruct (plain c) eqn:E.
  - rewrite entity_of_plain by exact E. rewrite append_cons, append_nil_l.
    intros [= H]. now rewrite IH.
  - destruct (entity_of_special c E) as (r & -> & _ & Hr).
    rewrite append_cons. intros [= _ H].
    apply (f_equal String.length) in H. rewrite length_append in H.
    pose proof (escape_each_length s). lia.
Qed.

Lemma escape_each_longer s :
  all_plain s = false ->
  (String.length s < String.length (escape_each s))%nat.
Proof.
  induction s as [|c s IH]; [discriminate|].
  cbn [escape_each all_plain]. pose proof (escape_each_length s) as Hl.
  destruct (plain c) eqn:E.
  - rewrite entity_of_plain by exact E. cbn [andb]. intros H.
    rewrite append_cons, append_nil_l. cbn [String.length]. apply IH in H. lia.
  - intros _. destruct (entity_of_special c E) as (r & -> & _ & Hr).
    rewrite append_cons. cbn [String.length].
    rewrite length_append. lia.
Qed.

(** X8.  [escapeHtml] returns its argument unchanged exactly when the
    argument has no ampersand, angle bracket or quote; otherwise the
    result is strictly longer. *)
Theorem escapeHtml_fixed_points (s : string) :
  (escapeHtml (Some s) = s <-> all_plain s = true)
  /\ (all_plain s = false ->
      (String.length s < String.length (escapeHtml (Some s)))%nat).
Proof.
  rewrite escapeHtml_each. split; [split|].
  - apply escape_each_fixed.
  - apply escape_each_plain.
  - apply escape_each_longer.
Qed.

(** ** File names and file ids *)

Lemma all_chars_app p a b :
  all_chars p (a ++ b) = (all_chars p a && all_chars p b)%bool.
Proof.
  induction a as [|c a IH]; [reflexivity|].
  rewrite append_cons. cbn [all_chars]. rewrite IH. now rewrite andb_assoc.
Qed.

Lemma substring_prefix_length n s :
  String.length (substring 0 n s) = Nat.min n (String.length s).
Proof.
  revert s. induction n as [|n IH]; intros [|c s]; cbn; try reflexivity.
  now rewrite IH.
Qed.

Lemma substring_prefix_chars p n s :
  all_chars p s = true -> all_chars p (substring 0 n s) = true.
Proof.
  revert s. induction n as [|n IH]; intros [|c s]; cbn; try reflexivity.
  intros H. apply andb_true_iff in H as [Hc Hs]. now rewrite Hc, IH.
Qed.

Lemma substitute_char_length p (c : ascii) s :
  String.length (substitute p (String c EmptyString) s) = String.length s.
Proof.
  induction s as [|x s IH]; [reflexivity|].
  cbn [substitute]. destruct (p x); rewrite append_cons, append_nil_l;
    cbn [String.length]; now rewrite IH.
Qed.

Lemma substitute_char_class p (c : ascii) s :
  p c = false ->
  all_chars (fun x => negb (p x)) (substitute p (String c EmptyString) s) = true.
Proof.
  intros Hc. induction s as [|x s IH]; [reflexivity|].
  cbn [substitute]. destruct (p x) eqn:E; rewrite append_cons, append_nil_l;
    cbn [all_chars]; rewrite IH, ?Hc, ?E; reflexivity.
Qed.

(** X9.  [sanitizeFilename] returns a name of at most 100 characters, as
    long as the title when the title is shorter, in which every character
    is a letter, a digit, an underscore, a hyphen or a dot. *)
Theorem sanitizeFilename_safe (filename : string) :
  String.length (sanitizeFilename filename)
  = Nat.min 100 (String.length filename)
  /\ all_chars (fun c => negb (unsafe_filename_char c))
       (sanitizeFilename filename) = true.
Proof.
  unfold sanitizeFilename. rewrite replace_all_Chr. split.
  - now rewrite substring_prefix_length, substitute_char_length.
  - apply substring_prefix_chars, substitute_char_class. reflexivity.
Qed.

Lemma take_digits_digits s : all_chars is_digit (take_digits s) = true.
Proof.
  induction s as [|c s IH]; [reflexivity|].
  cbn [take_digits]. destruct (is_digit c) eqn:E; [|reflexivity].
  cbn [all_chars]. now rewrite E, IH.
Qed.

Lemma digits_after_digits prefix s d :
  digits_after prefix s = Some d ->
  d <> EmptyString /\ all_chars is_digit d = true.
Proof.
  induction s as [|c s IH]; cbn [digits_after].
  - destruct (if startsWith prefix EmptyString then _ else _) eqn:E;
      [discriminate|].
    intros [= <-]. split; [discriminate|].
    destruct (startsWith prefix EmptyString); [|discriminate].
    rewrite <- E. apply take_digits_digits.
  - destruct (if startsWith prefix (String c s) then _ else _) eqn:E;
      [exact IH|].
    intros [= <-]. split; [discriminate|].
    destruct (startsWith prefix (String c s)); [|discriminate].
    rewrite <- E. apply take_digits_digits.
Qed.

Lemma string_of_uint_digits u :
  all_chars digit_or_minus (NilEmpty.string_of_uint u) = true.
Proof. induction u; cbn [NilEmpty.string_of_uint all_chars]; now rewrite ?IHu. Qed.

Lemma string_of_Z_digits n :
  string_of_Z n <> EmptyString
  /\ all_chars digit_or_minus (string_of_Z n) = true.
Proof.
  unfold string_of_Z, NilZero.string_of_int, NilZero.string_of_uint.
  destruct (Z.to_int n) as [u|u]; destruct u; split;
    try discriminate; try reflexivity;
    cbn [NilEmpty.string_of_uint all_chars];
    now rewrite ?string_of_uint_digits.
Qed.

Lemma all_chars_weaken (p q : ascii -> bool) s :
  (forall c, p c = true -> q c = true) ->
  all_chars p s = true -> all_chars q s = true.
Proof.
  intros H. induction s as [|c s IH]; [reflexivity|].
  cbn [all_chars]. intros Hs. apply andb_true_iff in Hs as [Hc Hs].
  now rewrite (H c Hc), IH.
Qed.

Lemma digits_after_numeric prefix s d :
  digits_after prefix s = Some d ->
  d <> EmptyString /\ all_chars digit_or_minus d = true.
Proof.
  intros H. apply digits_after_digits in H as [H1 H2]. split; [exact H1|].
  apply (all_chars_weaken is_digit); [|exact H2].
  intros c Hc. unfold digit_or_minus. now rewrite Hc.
Qed.

Lemma extract_file_id_integer (data : json) (fileId : string) :
  (if truthy_num (j_id data) then string_of_Z <$> j_id data
   else match j_globalId data ≫= digits_after "GL" with
        | Some d => Some d
        | None => j_links_self data ≫= digits_after "/files/"
        end) = Some fileId ->
  fileId <> EmptyString /\ all_chars digit_or_minus fileId = true.
Proof.
  destruct (truthy_num (j_id data)).
  - destruct (j_id data) as [n|]; [|discriminate]. cbn. intros [= <-].
    apply string_of_Z_digits.
  - destruct (j_globalId data) as [g|]; cbn.
    + destruct (digits_after "GL" g) as [d|] eqn:E.
      * intros [= <-]. now apply digits_after_numeric in E.
      * destruct (j_links_self data) as [l|]; cbn; [|discriminate].
        apply digits_after_numeric.
    + destruct (j_links_self data) as [l|]; cbn; [|discriminate].
      apply digits_after_numeric.
Qed.

(** X10.  The file id that [uploadPdfToRSpace] reads from the upload
    response is [data.id] as it is whenever that is truthy.  When [id] is
    a truthy value other than an integer printed in decimal (a string, a
    fraction, a number from 10^21), the file id is the text of that value,
    whatever it is.  In every other case the file id, when one is found,
    is not empty and is made of digits (with a minus sign for a negative
    [id]), whatever the server puts in [globalId] and [_links.self]. *)
Theorem extract_file_id_text (data : json) (fileId : string) :
  (j_id_other data = Some (true, fileId) ->
   extract_file_id data = Some fileId)
  /\ (extract_file_id data = Some fileId ->
      j_id_other data = Some (true, fileId)
      \/ (fileId <> EmptyString /\ all_chars digit_or_minus fileId = true)).
Proof.
  unfold extract_file_id. split.
  - intros ->. reflexivity.
  - destruct (j_id_other data) as [[[|] text]|].
    + intros [= <-]. now left.
    + intros H. right. exact (extract_file_id_integer data fileId H).
    + intros H. right. exact (extract_file_id_integer data fileId H).
Qed.

(** ** The URL-only capture *)

Lemma count_app c a b : count c (a ++ b) = (count c a + count c b)%nat.
Proof.
  induction a as [|x a IH]; [reflexivity|].
  rewrite append_cons. cbn [count]. rewrite IH. lia.
Qed.

Lemma count_has_char c s : has_char c s = false -> count c s = 0%nat.
Proof.
  induction s as [|x s IH]; [reflexivity|].
  cbn [has_char count]. intros H. apply orb_false_iff in H as [-> H].
  now rewrite IH.
Qed.

Lemma count_escapeHtml c s :
  c = "<"%char \/ c = ">"%char \/ c = dquote \/ c = "'"%char ->
  count c (escapeHtml (Some s)) = 0%nat.
Proof.
  intros Hc. rewrite escapeHtml_each. now apply count_has_char, escape_each_clean.
Qed.

(** X11.  The HTML of the URL-only capture has the markup of its
    template and no more, whatever the title and the address of the page:
    four opening and four closing angle brackets, the two double quotes
    around the [href] value and no single quote. *)
Theorem getUrlOnly_markup (p : Content.page) :
  count "<" (Content.html (Content.getUrlOnly p)) = 4%nat
  /\ count ">" (Content.html (Content.getUrlOnly p)) = 4%nat
  /\ count dquote (Content.html (Content.getUrlOnly p)) = 2%nat
  /\ count "'" (Content.html (Content.getUrlOnly p)) = 0%nat.
Proof.
  unfold Content.getUrlOnly, quoted. cbn [Content.html].
  repeat split;
    rewrite !count_app; rewrite ?append_cons; cbn [count];
    rewrite !count_app, !count_escapeHtml by tauto; reflexivity.
Qed.

(** ** What the asynchronous functions always do *)

(** X12.  [fetchWithTimeout] always comes back: it makes one call with an
    abort signal after [timeout] milliseconds, returns the response when
    the server answers before that, and otherwise throws, the error
    [Request timeout] when the signal fired and the error of [fetch] when
    the network failed first; it never takes longer than [timeout]. *)
Theorem fetchWithTimeout_comes_back server (req : request) (timeout : Z)
    (w : world) :
  let r := fetchWithTimeout server req timeout w in
  fst r <> Pending
  /\ sent (snd r)
     = (sent w ++ [{| call_abort_after := Some timeout;
                      call_request := req |}])%list
  /\ now (snd r) <= now w + timeout
  /\ (forall resp, fst r = Ret resp <->
        exists ms, server (sent w) req = Answers ms resp /\ ms < timeout)
  /\ (forall e, fst r = Throw e ->
        e = Error "Request timeout" \/ e = FetchError)
  /\ (fst r = Throw FetchError <->
        exists ms, server (sent w) req = Fails ms /\ ms < timeout).
Proof.
  intros r. subst r. unfold fetchWithTimeout, try_catch, fetch.
  destruct (server (sent w) req) as [ms resp|ms|] eqn:E;
    [destruct (Z.ltb_spec ms timeout)|destruct (Z.ltb_spec ms timeout)|];
    cbn [fst snd sent now network exn_name AbortError FetchError];
    cbn [String.eqb Ascii.eqb Bool.eqb throw fst snd sent now network];
    (split; [discriminate|]); (split; [reflexivity|]); (split; [lia|]);
    (split; [|split]).
  all: try solve [intros resp'; split;
            [ intros [= <-]; eauto
            | intros (ms' & [= <- <-] & Hlt); first [reflexivity | lia] ]].
  all: try solve [intros resp'; split;
            [ discriminate | intros (ms' & [=] & _) ]].
  all: try solve [intros e [= <-]; tauto].
  all: try solve [split; [discriminate | intros (ms' & [= <-] & Hlt); lia]].
  all: try solve [split; [discriminate | intros (ms' & [=] & _)]].
  all: try solve [split; [intros _; eauto | reflexivity]].
Qed.

(** X13.  [handleAuth] always returns a result.  It succeeds exactly when
    the status endpoint answers with a 2xx status within 30 seconds; then
    the server URL and the key are stored in the session and the document
    cache is reset.  When it fails, the session and the cache are as they
    were.  It makes one call, the status probe. *)
Theorem handleAuth_result server (serverUrl apiKey : string) (w : world) :
  let r := handleAuth server serverUrl apiKey w in
  exists res,
    fst r = Ret res
    /\ (success res = true <->
        exists ms resp,
          server (sent w) (status_request serverUrl apiKey) = Answers ms resp
          /\ ms < 30000 /\ ok resp = true)
    /\ (success res = true ->
        stored_serverUrl (snd r) = Some serverUrl
        /\ stored_accessToken (snd r) = Some apiKey
        /\ documentsCache (snd r) = empty_cache)
    /\ (success res = false ->
        stored_serverUrl (snd r) = stored_serverUrl w
        /\ stored_accessToken (snd r) = stored_accessToken w
        /\ documentsCache (snd r) = documentsCache w)
    /\ sent (snd r)
       = (sent w ++ [bounded (status_request serverUrl apiKey)])%list.
Proof.
  intros r. subst r.
  destruct (handleAuth server serverUrl apiKey w) as [o w'] eqn:H.
  unfold_all H.
  repeat split_run H; inversion H; subst; clear H; final_state; time_bounds;
    eexists; (split; [reflexivity|]); cbn [success failure];
    (split; [|split; [|split; [|reflexivity]]]);
    try solve [intros; repeat split; reflexivity];
    try solve [intros; discriminate];
    try solve [split; [discriminate|];
               intros (ms' & resp' & [=] & Hlt & Hok); subst;
               first [lia | congruence
                     | apply negb_true_iff in Heqb0; congruence
                     | apply negb_true_iff in Heqb; congruence]];
    try solve [split; [intros _; do 2 eexists; repeat split;
                       [lia|now apply negb_false_iff]|reflexivity]].
Qed.

(** X14.  [createDocument] makes exactly one call, the POST of a document
    with the given name, the tag [web-clipper] and one empty field, and
    changes nothing else in the worker.  It reports success only for a
    2xx answer with a JSON body, received within 30 seconds, and then
    returns the [id] and [globalId] of that body.  Its promise stays
    pending exactly when the answer came within 30 seconds and its body
    never arrives: the read of the body has no timer. *)
Theorem createDocument_one_call server (serverUrl accessToken : string)
    (title : option string) (w : world) :
  let r := createDocument server serverUrl accessToken title w in
  (fst r = Pending <->
   exists ms resp,
     server (sent w) (create_request serverUrl accessToken title)
       = Answers ms resp
     /\ ms < 30000 /\ body resp = Stalled)
  /\ sent (snd r)
     = (sent w ++ [bounded (create_request serverUrl accessToken title)])%list
  /\ req_body (create_request serverUrl accessToken title)
     = CreateBody title "web-clipper" [EmptyString]
  /\ documentsCache (snd r) = documentsCache w
  /\ activeRequests (snd r) = activeRequests w
  /\ (forall res, fst r = Ret res -> success res = true ->
        exists ms resp doc,
          server (sent w) (create_request serverUrl accessToken title)
            = Answers ms resp
          /\ ms < 30000 /\ ok resp = true /\ body resp = Json doc
          /\ documentId res = j_id doc /\ globalId res = j_globalId doc).
Proof.
  intros r. subst r.
  destruct (createDocument server serverUrl accessToken title w)
    as [o w'] eqn:H.
  unfold_all H.
  repeat split_run H; inversion H; subst; clear H; final_state; time_bounds;
    (split;
     [split;
      [ intros HP; try discriminate HP;
        do 2 eexists; repeat split; try eassumption; lia
      | intros (ms' & resp' & Hsrv & Hlt & Hst);
        first [discriminate Hsrv | injection Hsrv as <- <-];
        first [reflexivity | lia | congruence] ]|]);
    (split; [reflexivity|]);
    (split; [reflexivity|]); (split; [reflexivity|]);
    (split; [reflexivity|]);
    intros res Hres; try discriminate Hres;
    injection Hres as <-; cbn [success failure]; intros Hs;
    try discriminate Hs.
  do 3 eexists. repeat split; try eassumption; try lia.
  now apply negb_false_iff.
Qed.


(** X16.  Without a server URL or without an access token in the
    session, [getDocuments], [clipContent] and [clipPdf] fail with their
    not-authenticated error and make no call on the network; the PDF of
    the tab is not even asked for. *)
Theorem unauthenticated_makes_no_call server local_time printPage
    (pageNumber : Z) (request : clip_request) (w : world) :
  truthy (stored_serverUrl w) = false \/ truthy (stored_accessToken w) = false ->
  (activeRequests w !! ("documents_" ++ string_of_Z pageNumber) = None ->
   fst (getDocuments server pageNumber w)
     = Ret (Settled (docs_failure "Not authenticated"))
   /\ sent (snd (getDocuments server pageNumber w)) = sent w)
  /\ (activeRequests w !! "clipContent" = None ->
      fst (clipContent server local_time request w)
        = Ret (Settled (failure "Not authenticated. Please reconnect."))
      /\ sent (snd (clipContent server local_time request w)) = sent w)
  /\ (activeRequests w !! "clipPdf" = None ->
      fst (clipPdf server local_time printPage request w)
        = Ret (Settled (failure "Not authenticated. Please reconnect."))
      /\ sent (snd (clipPdf server local_time printPage request w)) = sent w).
Proof.
  intros Hno.
  assert (Hb : (negb (truthy (stored_serverUrl w))
                || negb (truthy (stored_accessToken w)))%bool = true).
  { destruct Hno as [-> | ->]; [reflexivity|apply orb_true_r]. }
  split; [|split]; intros Hact;
    cbv beta iota zeta delta
      [getDocuments clipContent clipPdf with_active_request try_catch
       bind get ret];
    rewrite Hact; reads; rewrite Hb; split; reflexivity.
Qed.

(** The calls a run added to the history. *)
Ltac calls_made :=
  rewrite <- ?app_assoc;
  first [ exists (@nil call); split; [now rewrite app_nil_r|]
        | eexists; split; [reflexivity|] ].

(** The call whose answer came with a body that never arrives. *)
Ltac stalled_call :=
  rewrite <- ?app_assoc in *;
  match goal with
  | H : _ (sent ?w) ?q = Answers ?ms ?r, Hb : body ?r = Stalled |- _ =>
      exists (@nil call), q, ms, r;
      split; [reflexivity|]; split; [rewrite app_nil_r; exact H|];
      split; [lia|exact Hb]
  | H : _ (sent ?w ++ ?cs)%list ?q = Answers ?ms ?r,
    Hb : body ?r = Stalled |- _ =>
      exists cs, q, ms, r;
      split; [reflexivity|]; split; [exact H|]; split; [lia|exact Hb]
  end.


Lemma one_field doc :
  has_many_fields doc = false -> has_no_fields doc = false ->
  field_count doc = 1%nat.
Proof.
  unfold has_many_fields, has_no_fields, field_count.
  destruct (j_fields doc) as [[|f [|g fs]]|]; cbn; congruence.
Qed.


(** Why a run of [clipPdf] hangs: the tab, the upload, or a body. *)
Ltac pending_cause :=
  rewrite <- ?app_assoc in *;
  match goal with
  | H : _ = TabSilent |- _ =>
      left; split; [first [exact H | reflexivity]|reflexivity]
  | H : _ (sent ?w) ?q = Silent |- _ =>
      right; left; exists (@nil call); eexists;
      split; [reflexivity|]; rewrite app_nil_r; exact H
  | H : _ (sent ?w ++ ?cs)%list ?q = Silent |- _ =>
      right; left; exists cs; eexists; split; [reflexivity|]; exact H
  | H : _ (sent ?w) ?q = Answers ?ms ?r, Hb : body ?r = Stalled |- _ =>
      right; right; exists (@nil call); eexists; exists ms, r;
      split; [reflexivity|]; split; [rewrite app_nil_r; exact H|exact Hb]
  | H : _ (sent ?w ++ ?cs)%list ?q = Answers ?ms ?r,
    Hb : body ?r = Stalled |- _ =>
      right; right; exists cs; eexists; exists ms, r;
      split; [reflexivity|]; split; [exact H|exact Hb]
  end.

(** X19.  [clipPdf] never ends in an exception.  Its promise stays
    pending in three cases only, none of which has a timer: the content
    script of the tab never answers [printPage]; the upload of the file,
    the one call made without abort signal, is never answered; or the
    last call made was answered with a body that never arrives.  The key
    [clipPdf] then stays in [activeRequests].  In every other case
    [activeRequests] is as it was found.  The session is never touched,
    at most four calls are made, and the document cache is reset when
    the clip succeeded and untouched when it failed. *)
Theorem clipPdf_outcome server local_time printPage
    (request : clip_request) (w : world) :
  let r := clipPdf server local_time printPage request w in
  let url := default EmptyString (stored_serverUrl w) in
  let key := default EmptyString (stored_accessToken w) in
  let fileName :=
    sanitizeFilename
      (default EmptyString (or_else (sourceTitle request) (Some "page")))
    ++ ".pdf" in
  (forall e, fst r <> Throw e)
  /\ (fst r = Pending ->
      (printPage (tabId request) = TabSilent /\ sent (snd r) = sent w
       \/ (exists calls pdf,
             let upload :=
               {| call_abort_after := None;
                  call_request := upload_request url key fileName pdf |} in
             sent (snd r) = (sent w ++ calls ++ [upload])%list
             /\ server (sent w ++ calls)%list (call_request upload) = Silent)
       \/ (exists calls c ms resp,
             sent (snd r) = (sent w ++ calls ++ [c])%list
             /\ server (sent w ++ calls)%list (call_request c)
                = Answers ms resp
             /\ body resp = Stalled))
      /\ activeRequests w !! "clipPdf" = None
      /\ activeRequests (snd r)
         = <["clipPdf" := promises w]> (activeRequests w)
      /\ documentsCache (snd r) = documentsCache w)
  /\ (fst r <> Pending -> activeRequests (snd r) = activeRequests w)
  /\ stored_serverUrl (snd r) = stored_serverUrl w
  /\ stored_accessToken (snd r) = stored_accessToken w
  /\ (exists calls,
        sent (snd r) = (sent w ++ calls)%list /\ (length calls <= 4)%nat)
  /\ (forall res, fst r = Ret (Settled res) ->
        documentsCache (snd r)
        = if success res then empty_cache else documentsCache w).
Proof.
  intros r url key fileName. subst r url key fileName.
  destruct (clipPdf server local_time printPage request w) as [o w'] eqn:H.
  unfold_all H.
  repeat split_run H; inversion H; subst; clear H; final_state;
    try solve [cbn [negb success] in *; discriminate];
    (split; [discriminate|]);
    (split;
     [ first [ discriminate
             | intros _; cbv zeta; split; [pending_cause|];
               split; [first [assumption | reflexivity]|];
               split; reflexivity ] |]);
    (split; [first [ intros Hp; now contradiction Hp
                   | intros _; first [reflexivity
                                     | now apply delete_insert_id] ]|]);
    (split; [reflexivity|]); (split; [reflexivity|]);
    (split; [calls_made; cbn [length app]; lia|]);
    intros res Hres; try discriminate Hres; injection Hres as <-;
    reflexivity.
Qed.


(** ** The search box of the popup *)

Section Search.
Import Popup.
Variable lowerCase : string -> string.

Lemma startsWith_refl s : startsWith s s = true.
Proof.
  induction s as [|c s IH]; [reflexivity|].
  cbn [startsWith]. now rewrite Ascii.eqb_refl, IH.
Qed.

Lemma includes_refl s : includes s s = true.
Proof. destruct s; cbn [includes]; now rewrite startsWith_refl. Qed.

Lemma filter_by_name_spec query docs kept :
  filter_by_name lowerCase query docs = Some kept ->
  sublist kept docs
  /\ forall d, In d kept <->
       In d docs /\ exists name, entry_name d = Some name
                                 /\ includes query (lowerCase name) = true.
Proof.
  revert kept. induction docs as [|doc rest IH]; intros kept H.
  - injection H as <-. split; [constructor|]. intros d. split; [intros []|].
    intros [[] _].
  - cbn [filter_by_name] in H.
    destruct (entry_name doc) as [name|] eqn:En; [|discriminate].
    destruct (filter_by_name lowerCase query rest) as [k|]; [|discriminate].
    destruct (IH k eq_refl) as (Hsub & Hin).
    destruct (includes query (lowerCase name)) eqn:Ei; injection H as <-.
    + split; [now constructor|]. intros d. cbn [In]. rewrite Hin. split.
      * intros [<- | (Hd & Hn)]; [|tauto]. split; [now left|eauto].
      * intros ([<- | Hd] & Hn); [now left|right; tauto].
    + split; [now constructor|]. intros d. cbn [In]. rewrite Hin. split.
      * intros (Hd & Hn). tauto.
      * intros ([<- | Hd] & (n & Hn & Hi)); [|eauto].
        rewrite En in Hn. injection Hn as <-. congruence.
Qed.

Lemma find_by_name_spec query docs d :
  find_by_name lowerCase query docs = Some (Some d) ->
  In d docs /\ exists name, entry_name d = Some name
                            /\ lowerCase name = query.
Proof.
  induction docs as [|doc rest IH]; [discriminate|].
  cbn [find_by_name].
  destruct (entry_name doc) as [name|] eqn:En; [|discriminate].
  destruct (String.eqb (lowerCase name) query) eqn:E.
  - intros [= <-]. apply String.eqb_eq in E. split; [now left|eauto].
  - intros H. destruct (IH H) as (Hd & Hn). split; [now right|exact Hn].
Qed.

Lemma handleDocumentSearch_selected (documents : list entry) (value : string)
    (view : search_view) (d : entry) :
  handleDocumentSearch lowerCase documents value = Some view ->
  selectedDocument view = Some d -> In d documents.
Proof.
  unfold handleDocumentSearch.
  destruct (negb (truthy (Some (trim (lowerCase value))))).
  - intros [= <-]. discriminate.
  - destruct (filter_by_name lowerCase _ documents); [|discriminate].
    destruct (find_by_name lowerCase _ documents) as [m|] eqn:Em;
      [|discriminate].
    intros [= <-]. cbn [selectedDocument]. intros ->.
    now destruct (find_by_name_spec _ _ _ Em).
Qed.

(** X23.  After a search the popup shows a sublist of its documents, in
    their order: all of them for an empty query, otherwise exactly those
    whose name, in lower case, includes the query.  A document that the
    search selects is among the documents shown and its name, in lower
    case, is the query.  The hint to create a document is shown exactly
    when the query is not empty and nothing is selected. *)
Theorem handleDocumentSearch_view (documents : list entry) (value : string)
    (view : search_view) :
  handleDocumentSearch lowerCase documents value = Some view ->
  let query := trim (lowerCase value) in
  sublist (rendered view) documents
  /\ (forall d, selectedDocument view = Some d ->
        In d (rendered view) /\ In d documents
        /\ exists name, entry_name d = Some name /\ lowerCase name = query)
  /\ (query <> EmptyString ->
      forall d, In d (rendered view) <->
        In d documents /\ exists name, entry_name d = Some name
                                       /\ includes query (lowerCase name) = true)
  /\ (query = EmptyString ->
      rendered view = documents /\ selectedDocument view = None)
  /\ (createHint view = true <->
      query <> EmptyString /\ selectedDocument view = None).
Proof.
  intros H query. unfold handleDocumentSearch in H. fold query in H.
  destruct query as [|c q] eqn:Eq.
  - cbn in H. injection H as <-. cbn.
    split; [reflexivity|]. split; [discriminate|]. split; [tauto|].
    split; [tauto|]. split; [discriminate|tauto].
  - cbn [truthy negb] in H.
    destruct (filter_by_name lowerCase (String c q) documents) as [kept|] eqn:Ef;
      [|discriminate].
    destruct (find_by_name lowerCase (String c q) documents) as [m|] eqn:Em;
      [|discriminate].
    injection H as <-. cbn [rendered selectedDocument createHint].
    destruct (filter_by_name_spec _ _ _ Ef) as (Hsub & Hin).
    split; [exact Hsub|]. split; [|split; [|split]].
    + intros d ->. destruct (find_by_name_spec _ _ _ Em) as (Hd & n & Hn & Hl).
      split; [|split; [exact Hd|eauto]].
      apply Hin. split; [exact Hd|]. exists n. split; [exact Hn|].
      rewrite Hl. apply includes_refl.
    + intros _. exact Hin.
    + discriminate.
    + destruct m; split.
      * discriminate.
      * intros [_ H]. discriminate.
      * intros _. split; [discriminate|reflexivity].
      * reflexivity.
Qed.


Lemma trim_length s : (String.length (trim s) <= String.length s)%nat.
Proof.
  unfold trim.
  assert (He : forall t, (String.length (trimEnd t) <= String.length t)%nat).
  { induction t as [|c t IH]; [reflexivity|]. cbn [trimEnd].
    destruct (trimEnd t); [destruct (is_space c)|]; cbn [String.length] in *; lia. }
  assert (Hs : forall t, (String.length (trimStart t) <= String.length t)%nat).
  { induction t as [|c t IH]; [reflexivity|]. cbn [trimStart].
    destruct (is_space c); cbn [String.length] in *; lia. }
  specialize (He (trimStart s)). specialize (Hs s). lia.
Qed.

(** X24.  A clip started after a search goes to an existing document only
    when the search selected a document of the list whose name is, to the
    letter, the trimmed text of the search box; the clip then carries the
    id and the global id of that document.  In every other case, also
    when the selected document differs from the text by case only, the
    clip creates a document named by the trimmed text, which has between
    1 and 255 characters. *)
Theorem search_then_clip (documents : list entry) (value note : string)
    (view : search_view) (t : target) :
  handleDocumentSearch lowerCase documents value = Some view ->
  clip_target value note (selectedDocument view) = ClipTo t ->
  (isNew t = false <->
   exists d, selectedDocument view = Some d
             /\ entry_name d = Some (trim value))
  /\ (isNew t = false ->
      exists d, In d documents /\ entry_name d = Some (trim value)
                /\ target_id t = entry_id d
                /\ target_globalId t = entry_globalId d)
  /\ (isNew t = true ->
      target_title t = Some (trim value)
      /\ (1 <= String.length (trim value) <= 255)%nat).
Proof.
  intros Hs Hc.
  pose proof (fun d => handleDocumentSearch_selected _ _ _ d Hs) as Hsel.
  unfold clip_target in Hc.
  destruct (trim value) as [|c v] eqn:Ev; [discriminate|].
  change (negb (truthy (Some (String c v)))) with false in Hc.
  cbv iota in Hc.
  destruct (MAX_DOC_TITLE_LENGTH <? Z.of_nat (String.length (String c v)))
    eqn:El; [discriminate|].
  apply Z.ltb_ge in El. unfold MAX_DOC_TITLE_LENGTH in El.
  destruct (truthy (Some note)
            && (MAX_NOTE_LENGTH <? Z.of_nat (String.length note)))%bool;
    [discriminate|].
  cbv zeta in Hc. injection Hc as <-.
  destruct (selectedDocument view) as [d|] eqn:Ed.
  - pose proof (Hsel d eq_refl) as Hd.
    destruct (entry_name d) as [name|] eqn:En.
    + destruct (String.eqb name (String c v)) eqn:E.
      * apply String.eqb_eq in E. subst name. cbn [isNew target_id target_globalId].
        split; [split; [intros _; eauto|reflexivity]|].
        split; [intros _; exists d; auto|discriminate].
      * apply String.eqb_neq in E. cbn [isNew target_title].
        split; [split; [discriminate|]|].
        -- intros (d' & [= <-] & Hn). congruence.
        -- split; [discriminate|]. intros _. split; [reflexivity|].
           cbn [String.length] in *. lia.
    + cbn [isNew target_title]. split; [split; [discriminate|]|].
      * intros (d' & [= <-] & Hn). congruence.
      * split; [discriminate|]. intros _. split; [reflexivity|].
        cbn [String.length] in *. lia.
  - cbn [isNew target_title]. split; [split; [discriminate|]|].
    + intros (d' & [=] & _).
    + split; [discriminate|]. intros _. split; [reflexivity|].
      cbn [String.length] in *. lia.
Qed.

End Search.

Lemma handleDocumentSearch_view_notes :
  Popup.handleDocumentSearch toLowerCase Scenario.two_entries "notes"
  = Some Scenario.notes_view
  /\ sublist (Popup.rendered Scenario.notes_view) Scenario.two_entries
  /\ (forall d, Popup.selectedDocument Scenario.notes_view = Some d ->
        In d (Popup.rendered Scenario.notes_view)
        /\ In d Scenario.two_entries
        /\ exists name, entry_name d = Some name
                        /\ toLowerCase name = trim (toLowerCase "notes"))
  /\ (trim (toLowerCase "notes") <> EmptyString ->
      forall d, In d (Popup.rendered Scenario.notes_view) <->
        In d Scenario.two_entries
        /\ exists name, entry_name d = Some name
                        /\ includes (trim (toLowerCase "notes"))
                             (toLowerCase name) = true)
  /\ (trim (toLowerCase "notes") = EmptyString ->
      Popup.rendered Scenario.notes_view = Scenario.two_entries
      /\ Popup.selectedDocument Scenario.notes_view = None)
  /\ (Popup.createHint Scenario.notes_view = true <->
      trim (toLowerCase "notes") <> EmptyString
      /\ Popup.selectedDocument Scenario.notes_view = None).
Proof.
  split; [reflexivity|].
  exact (handleDocumentSearch_view toLowerCase Scenario.two_entries "notes"
           Scenario.notes_view eq_refl).
Defined.

Lemma search_then_clip_notes :
  Popup.handleDocumentSearch toLowerCase Scenario.two_entries "notes"
  = Some Scenario.notes_view
  /\ Popup.clip_target "notes" EmptyString
       (Popup.selectedDocument Scenario.notes_view)
     = Popup.ClipTo Scenario.new_notes
  /\ (isNew Scenario.new_notes = false <->
      exists d, Popup.selectedDocument Scenario.notes_view = Some d
                /\ entry_name d = Some (trim "notes"))
  /\ (isNew Scenario.new_notes = false ->
      exists d, In d Scenario.two_entries
                /\ entry_name d = Some (trim "notes")
                /\ target_id Scenario.new_notes = entry_id d
                /\ target_globalId Scenario.new_notes = entry_globalId d)
  /\ (isNew Scenario.new_notes = true ->
      target_title Scenario.new_notes = Some (trim "notes")
      /\ (1 <= String.length (trim "notes") <= 255)%nat).
Proof.
  split; [reflexivity|]. split; [reflexivity|].
  exact (search_then_clip toLowerCase Scenario.two_entries "notes" EmptyString
           Scenario.notes_view Scenario.new_notes eq_refl eq_refl).
Defined.

(** ** The layout of the timestamp *)

Lemma shaped_app p1 p2 s1 s2 :
  shaped p1 s1 = true -> shaped p2 s2 = true ->
  shaped (p1 ++ p2) (s1 ++ s2) = true.
Proof.
  revert s1. induction p1 as [|p p1 IH]; intros [|c s1]; try discriminate.
  - intros _ H. now rewrite !append_nil_l.
  - cbn [shaped]. intros H1 H2. apply andb_true_iff in H1 as [Hc H1].
    rewrite !append_cons. cbn [shaped]. now rewrite Hc, IH.
Qed.

Lemma checked_range (f : Z -> bool) (lo : Z) (len : nat) :
  forallb (fun k => f (lo + Z.of_nat k)) (seq 0 len) = true ->
  forall n, lo <= n < lo + Z.of_nat len -> f n = true.
Proof.
  intros H n Hn. rewrite forallb_forall in H.
  specialize (H (Z.to_nat (n - lo))).
  replace (lo + Z.of_nat (Z.to_nat (n - lo))) with n in H by lia.
  apply H. apply in_seq. lia.
Qed.

Lemma pad2_shaped n : 0 <= n <= 99 -> shaped "dd" (pad2 n) = true.
Proof.
  intros H. apply (checked_range (fun n => shaped "dd" (pad2 n)) 0 100);
    [vm_compute; reflexivity|lia].
Qed.

Lemma year_shaped n :
  1000 <= n <= 9999 -> shaped "dddd" (string_of_Z n) = true.
Proof.
  intros H.
  apply (checked_range (fun n => shaped "dddd" (string_of_Z n)) 1000
           (Z.to_nat 9000));
    [vm_compute; reflexivity|lia].
Qed.

(** X25.  For a date with a four-digit year [formatTimestamp] returns the
    nineteen characters [YYYY-MM-DD HH:mm:ss], every field padded to its
    width, then a space, [GMT] and the offset from Greenwich, whose sign
    is [+] for a zone at or east of Greenwich ([getTimezoneOffset] not
    positive) and [-] for a zone west of it. *)
Theorem formatTimestamp_layout (d : date) :
  calendar d ->
  exists stamp zone,
    formatTimestamp d = stamp ++ " GMT" ++ zone
    /\ shaped "dddd-dd-dd dd:dd:dd" stamp = true
    /\ (getTimezoneOffset d <= 0 -> startsWith "+" zone = true)
    /\ (0 < getTimezoneOffset d -> startsWith "-" zone = true).
Proof.
  intros (Hy & Hm & Hd & Hh & Hmi & Hs).
  exists (string_of_Z (getFullYear d) ++ "-" ++ pad2 (getMonth d + 1) ++ "-"
          ++ pad2 (getDate d) ++ " " ++ pad2 (getHours d) ++ ":"
          ++ pad2 (getMinutes d) ++ ":" ++ pad2 (getSeconds d)).
  exists ((if 0 <=? - getTimezoneOffset d then "+" else "-")
          ++ string_of_Z (Z.abs (- getTimezoneOffset d) / 60)
          ++ (if 0 <? Z.abs (- getTimezoneOffset d) mod 60
              then ":" ++ pad2 (Z.abs (- getTimezoneOffset d) mod 60)
              else EmptyString)).
  split; [|split; [|split]].
  - unfold formatTimestamp. cbv zeta.
    destruct (0 <=? - getTimezoneOffset d);
      destruct (0 <? Z.abs (- getTimezoneOffset d) mod 60);
      repeat rewrite ?append_assoc, ?append_cons, ?append_nil_l, ?append_nil_r;
      reflexivity.
  - change "dddd-dd-dd dd:dd:dd"
      with ("dddd" ++ "-" ++ "dd" ++ "-" ++ "dd" ++ " " ++ "dd" ++ ":" ++ "dd"
            ++ ":" ++ "dd").
    repeat apply shaped_app;
      first [ reflexivity | apply year_shaped; lia | apply pad2_shaped; lia ].
  - intros H. destruct (Z.leb_spec 0 (- getTimezoneOffset d)); [|lia].
    now rewrite append_cons.
  - intros H. destruct (Z.leb_spec 0 (- getTimezoneOffset d)); [lia|].
    now rewrite append_cons.
Qed.

Lemma formatTimestamp_layout_afternoon :
  calendar (Scenario.afternoon 0)
  /\ exists stamp zone,
       formatTimestamp (Scenario.afternoon 0) = stamp ++ " GMT" ++ zone
       /\ shaped "dddd-dd-dd dd:dd:dd" stamp = true
       /\ (getTimezoneOffset (Scenario.afternoon 0) <= 0 ->
           startsWith "+" zone = true)
       /\ (0 < getTimezoneOffset (Scenario.afternoon 0) ->
           startsWith "-" zone = true).
Proof.
  assert (H : calendar (Scenario.afternoon 0))
    by (unfold calendar; cbn; lia).
  split; [exact H|].
  exact (formatTimestamp_layout (Scenario.afternoon 0) H).
Defined.

(** ** The markup of the file reference *)

Lemma count_trimStart c s :
  is_space c = false -> count c (trimStart s) = count c s.
Proof.
  intros Hc. induction s as [|x s IH]; [reflexivity|].
  cbn [trimStart]. destruct (is_space x) eqn:Ex; [|reflexivity].
  rewrite IH. cbn [count].
  destruct (Ascii.eqb_spec x c) as [-> | _]; [congruence|reflexivity].
Qed.

Lemma count_trimEnd c s :
  is_space c = false -> count c (trimEnd s) = count c s.
Proof.
  intros Hc. induction s as [|x s IH]; [reflexivity|].
  cbn [trimEnd count]. rewrite <- IH.
  destruct (trimEnd s) as [|y t]; [|reflexivity].
  destruct (is_space x) eqn:Ex; [|reflexivity].
  destruct (Ascii.eqb_spec x c) as [-> | _]; [congruence|reflexivity].
Qed.

Lemma count_trim c s : is_space c = false -> count c (trim s) = count c s.
Proof.
  intros Hc. unfold trim. now rewrite count_trimEnd, count_trimStart.
Qed.

Lemma count_escaped c (s : option string) :
  c = "<"%char \/ c = ">"%char \/ c = dquote \/ c = "'"%char ->
  count c (escapeHtml s) = 0%nat.
Proof.
  intros Hc. destruct s as [s|]; [now apply count_escapeHtml|reflexivity].
Qed.

Lemma count_digits c s :
  digit_or_minus c = false ->
  all_chars digit_or_minus s = true -> count c s = 0%nat.
Proof.
  intros Hc. induction s as [|x s IH]; [reflexivity|].
  cbn [all_chars count]. intros H. apply andb_true_iff in H as [Hx H].
  rewrite (IH H).
  destruct (Ascii.eqb_spec x c) as [-> | _]; [congruence|reflexivity].
Qed.

Lemma escapeHtml_truthy c s :
  truthy (Some (escapeHtml (Some (String c s)))) = true.
Proof.
  rewrite escapeHtml_each. pose proof (escape_each_length (String c s)) as H.
  destruct (escape_each (String c s)); [cbn [String.length] in H; lia|reflexivity].
Qed.

(** X26.  The reference that [linkFileToDocument] appends for a numeric
    file id has the markup of its template and no more, whatever the
    address and the title of the page, the note and the timestamp are:
    nine opening and nine closing angle brackets and six double quotes
    without a note, thirteen, thirteen and eight with one, and no single
    quote. *)
Theorem pdf_reference_markup (request : clip_request)
    (timestamp fileId : string) :
  all_chars digit_or_minus fileId = true ->
  let html :=
    pdf_reference (escapeHtml (sourceUrl request))
      (escapeHtml (sourceTitle request))
      (if truthy (note request) then escapeHtml (note request)
       else EmptyString)
      (escapeHtml (Some timestamp)) fileId in
  count "<" html = (if truthy (note request) then 13 else 9)%nat
  /\ count ">" html = (if truthy (note request) then 13 else 9)%nat
  /\ count dquote html = (if truthy (note request) then 8 else 6)%nat
  /\ count "'" html = 0%nat.
Proof.
  intros Hf html. subst html. unfold pdf_reference.
  assert (Hn : truthy (Some (if truthy (note request)
                             then escapeHtml (note request)
                             else EmptyString))
               = truthy (note request)).
  { destruct (note request) as [[|c n]|]; try reflexivity.
    cbn [truthy]. apply escapeHtml_truthy. }
  rewrite Hn. unfold quoted.
  destruct (truthy (note request)); repeat split;
    rewrite count_trim by reflexivity;
    repeat (rewrite !count_app; cbn [count]);
    rewrite !count_escaped by tauto;
    rewrite (count_digits _ fileId) by (reflexivity || exact Hf);
    reflexivity.
Qed.

Lemma pdf_reference_markup_stored_file :
  all_chars digit_or_minus "99" = true
  /\ count "<"
       (pdf_reference (escapeHtml (sourceUrl Scenario.clip_into_42))
          (escapeHtml (sourceTitle Scenario.clip_into_42))
          (if truthy (note Scenario.clip_into_42)
           then escapeHtml (note Scenario.clip_into_42) else EmptyString)
          (escapeHtml (Some "2026-01-08 14:35:02 GMT+1")) "99")
     = (if truthy (note Scenario.clip_into_42) then 13 else 9)%nat.
Proof.
  split; [reflexivity|].
  exact (proj1 (pdf_reference_markup Scenario.clip_into_42
                  "2026-01-08 14:35:02 GMT+1" "99" eq_refl)).
Defined.

(** ** The properties above on the scenarios *)

Lemma escapeHtml_injective_tag :
  escapeHtml (Some "<b>") = escapeHtml (Some "<b>") /\ "<b>" = "<b>".
Proof.
  split; [reflexivity|].
  exact (escapeHtml_injective "<b>" "<b>" eq_refl).
Defined.

Lemma clean_fragment_href_script_link :
  getAttribute "href" Scenario.script_link = Some " JavaScript:alert(1)"
  /\ Fragments.dangerous_scheme " JavaScript:alert(1)" = true
  /\ getAttribute "href"
       (Content.sanitize_attrs Scenario.no_resolver Scenario.script_link)
     = None.
Proof.
  split; [reflexivity|]. split; [reflexivity|].
  exact (proj2 (clean_fragment_href Scenario.no_resolver [])
           Scenario.script_link " JavaScript:alert(1)" eq_refl eq_refl).
Defined.

Lemma extract_file_id_text_named_file :
  extract_file_id Scenario.named_file = Some "F-7"
  /\ (j_id_other Scenario.named_file = Some (true, "F-7")
      \/ ("F-7" <> EmptyString /\ all_chars digit_or_minus "F-7" = true)).
Proof.
  split; [reflexivity|].
  exact (proj2 (extract_file_id_text Scenario.named_file "F-7") eq_refl).
Defined.

Lemma createDocument_one_call_stalling :
  (exists ms resp,
     Scenario.stalling_server (sent Scenario.session)
       (create_request "https://rspace.example" "secret" None)
     = Answers ms resp
     /\ ms < 30000 /\ body resp = Stalled)
  /\ fst (createDocument Scenario.stalling_server "https://rspace.example"
            "secret" None Scenario.session)
     = Pending.
Proof.
  assert (H : exists ms resp,
            Scenario.stalling_server (sent Scenario.session)
              (create_request "https://rspace.example" "secret" None)
            = Answers ms resp
            /\ ms < 30000 /\ body resp = Stalled).
  { exists 20, {| status := 200; body := Stalled |}.
    split; [reflexivity|]. split; [lia|reflexivity]. }
  split; [exact H|].
  exact (proj2 (proj1 (createDocument_one_call Scenario.stalling_server
                         "https://rspace.example" "secret" None
                         Scenario.session)) H).
Defined.



Lemma clipPdf_outcome_unanswering_tab :
  fst (clipPdf Scenario.notes_server Scenario.afternoon Scenario.unanswering_tab
         Scenario.clip_into_42 Scenario.session) = Pending
  /\ activeRequests
       (snd (clipPdf Scenario.notes_server Scenario.afternoon Scenario.unanswering_tab
               Scenario.clip_into_42 Scenario.session))
     = <["clipPdf" := promises Scenario.session]>
         (activeRequests Scenario.session).
Proof.
  assert (HP : fst (clipPdf Scenario.notes_server Scenario.afternoon
                      Scenario.unanswering_tab Scenario.clip_into_42 Scenario.session)
               = Pending) by (vm_compute; reflexivity).
  split; [exact HP|].
  exact (proj1 (proj2 (proj2 (proj1 (proj2
           (clipPdf_outcome Scenario.notes_server Scenario.afternoon
              Scenario.unanswering_tab Scenario.clip_into_42 Scenario.session)) HP)))).
Defined.

Lemma unauthenticated_makes_no_call_signed_out :
  (truthy (stored_serverUrl Scenario.signed_out) = false
   \/ truthy (stored_accessToken Scenario.signed_out) = false)
  /\ (activeRequests Scenario.signed_out !! ("documents_" ++ string_of_Z 0)
      = None ->
      fst (getDocuments Scenario.notes_server 0 Scenario.signed_out)
        = Ret (Settled (docs_failure "Not authenticated"))
      /\ sent (snd (getDocuments Scenario.notes_server 0 Scenario.signed_out))
         = sent Scenario.signed_out)
  /\ (activeRequests Scenario.signed_out !! "clipContent" = None ->
      fst (clipContent Scenario.notes_server Scenario.afternoon
             Scenario.clip_into_42 Scenario.signed_out)
        = Ret (Settled (failure "Not authenticated. Please reconnect."))
      /\ sent (snd (clipContent Scenario.notes_server Scenario.afternoon
                      Scenario.clip_into_42 Scenario.signed_out))
         = sent Scenario.signed_out)
  /\ (activeRequests Scenario.signed_out !! "clipPdf" = None ->
      fst (clipPdf Scenario.notes_server Scenario.afternoon Scenario.pdf_tab
             Scenario.clip_into_42 Scenario.signed_out)
        = Ret (Settled (failure "Not authenticated. Please reconnect."))
      /\ sent (snd (clipPdf Scenario.notes_server Scenario.afternoon
                      Scenario.pdf_tab Scenario.clip_into_42
                      Scenario.signed_out))
         = sent Scenario.signed_out).
Proof.
  assert (H : truthy (stored_serverUrl Scenario.signed_out) = false
              \/ truthy (stored_accessToken Scenario.signed_out) = false)
    by (left; reflexivity).
  split; [exact H|].
  exact (unauthenticated_makes_no_call Scenario.notes_server
           Scenario.afternoon Scenario.pdf_tab 0 Scenario.clip_into_42
           Scenario.signed_out H).
Defined.



